(** * Online exam application: answer lifecycle, scoring, cascade deletes,
      exam window and credentials

    A shallow embedding of the server handlers over an explicit database
    state.  The handlers of questions and of answers are the two modules of
    [src/server/src/handlers/questions.ts], those of exams are
    [src/unnamed/part_004], those of users are the module of
    [src/server/src/handlers/users.ts] that talks to the database, login is
    [src/server/src/handlers/auth.ts], the reports are
    [src/server/src/handlers/dashboard.ts]; the tables (db/schema.ts) are the
    last module of [src/server/src/handlers/users.ts] and the types of the
    inputs are [src/unnamed/part_000].

    - A table is the list of its rows; [select ... where] is [filter],
      [update ... set ... where ... returning] maps the matching rows and
      returns them, [delete ... where ... returning] removes the matching rows
      and returns them, [insert ... returning] appends one row whose [id]
      comes from the table's serial sequence.
    - A handler is a computation in the monad [M]: it takes the database and
      returns the database it leaves behind together with either the thrown
      error or the value.  A [throw] keeps the writes made before it: the
      handlers open no transaction.
    - The JSON columns [jawaban] and [progress_jawaban] are finite maps from
      strings to strings; a JavaScript [number] holding a row id is a [Z], a
      [Date] is its number of milliseconds, and the two [number]s divided in
      [calculateScore] are IEEE 754 binary64 floats.
    - An id reaches the database as a parameter compared with an [integer]
      column.  The handlers are modelled on the ids that fit such a column
      ([int4]); for another number the database rejects the first statement
      that carries it (error 22003) and the handler rethrows that error.
      This check is [integer_param], made by [createAnswer], [createQuestion],
      [deleteExam], [deleteUser], [getAnswersByExamId] and [getExamResults]
      before their first statement; the other handlers are modelled on the
      ids that fit, and the properties that speak of an id no row has assume
      [int4] of it.
    - No query of the handlers asks for an order.  The order of a list of
      rows in this model is one of the orders the database may return; what
      is proved of several rows of a query is stated up to [Permutation]
      where the order could be seen.
    - A string is the sequence of the bytes of its UTF-8 encoding
      ([Buffer.from(s)]); a JavaScript string with an unpaired surrogate has no
      UTF-8 encoding and is not a string of this model. *)

From Stdlib Require Import ZArith Lia Ascii String List.
From Stdlib Require Import Floats.PrimFloat Floats.FloatOps Floats.SpecFloat.
From Stdlib Require Import Numbers.Cyclic.Int63.Uint63.
From stdpp Require Import gmap strings list pretty.

Open Scope string_scope.
Open Scope Z_scope.

(** ** Errors and the handler monad *)

(** [JsError msg] is [new Error(msg)] thrown by a handler; [DbError c] is the
    rejection of a statement by the constraint [c] of the schema. *)
Inductive Error : Type :=
| JsError (message : string)
| DbError (constraint : string).

(** The messages of the errors the handlers throw. *)
Definition AnswerExists : Error := JsError "Answer record already exists for this user and exam".
Definition UserNotFound : Error := JsError "User not found".
Definition ExamNotFound : Error := JsError "Exam not found".
Definition AnswerNotFound : Error := JsError "Answer record not found".
Definition ProgressAfterSubmit : Error := JsError "Cannot update progress for submitted exam".
Definition AlreadySubmitted : Error := JsError "Exam has already been submitted".
Definition DateOrder : Error := JsError "Tanggal selesai harus setelah tanggal mulai".
(** Reading a property of [result[0]] when [result] is empty. *)
Definition UndefinedRow : Error := JsError "TypeError: undefined is not an object".
(** [email: text('email').notNull().unique()]. *)
Definition EmailTaken : Error := DbError "users_email_unique".
(** [user_id: integer('user_id').references(() => usersTable.id)]: a user
    that an answer refers to cannot be deleted. *)
Definition UserHasAnswers : Error := DbError "answers_user_id_users_id_fk".
(** [exam_id: integer('exam_id').references(() => examsTable.id)], of the
    questions and of the answers: an exam that a question or an answer refers
    to cannot be deleted. *)
Definition ExamHasQuestions : Error := DbError "questions_exam_id_exams_id_fk".
Definition ExamHasAnswers : Error := DbError "answers_exam_id_exams_id_fk".
(** SQLSTATE 22003, [value ... is out of range for type integer]. *)
Definition OutOfRange : Error := DbError "22003".
(** [update(table).set({})]: the query builder throws before any statement
    reaches the database. *)
Definition NoValues : Error := JsError "No values to set".
Definition QuestionNotFound (id : string) : Error :=
  JsError ("Question with ID " ++ id ++ " does not exist").
Definition ExamMissing (id : string) : Error :=
  JsError ("Exam with ID " ++ id ++ " does not exist").

(** ** Rows (db/schema.ts) *)

Inductive UserRole : Type := admin | peserta.
Inductive ExamStatus : Type := aktif | non_aktif.

Record User : Type := mkUser {
  u_id : Z;
  u_nama : string;
  u_email : string;
  u_password : string;
  u_role : UserRole;
  u_kelas : option string;
  u_created_at : Z
}.

Record Exam : Type := mkExam {
  e_id : Z;
  judul_ujian : string;
  deskripsi : string;
  tanggal_mulai : Z;
  tanggal_selesai : Z;
  durasi : Z;
  status : ExamStatus;
  e_created_at : Z
}.

Record Question : Type := mkQuestion {
  q_id : Z;
  q_exam_id : Z;
  soal : string;
  pilihan : list string;
  jawaban_benar : string;
  q_created_at : Z
}.

Record Answer : Type := mkAnswer {
  a_id : Z;
  a_exam_id : Z;
  a_user_id : Z;
  jawaban : gmap string string;
  nilai : Z;
  waktu_submit : Z;
  is_submitted : bool;
  progress_jawaban : option (gmap string string);
  a_created_at : Z
}.

Global Instance UserRole_eq_dec : EqDecision UserRole.
Proof. solve_decision. Defined.
Global Instance ExamStatus_eq_dec : EqDecision ExamStatus.
Proof. solve_decision. Defined.

(** The database: the four tables and the next value of each serial
    sequence. *)
Record DB : Type := mkDB {
  usersTable : list User;
  examsTable : list Exam;
  questionsTable : list Question;
  answersTable : list Answer;
  users_seq : Z;
  exams_seq : Z;
  questions_seq : Z;
  answers_seq : Z
}.

Definition M (A : Type) : Type := DB -> DB * (Error + A).

Definition ret {A} (a : A) : M A := fun db => (db, inr a).
Definition throw {A} (e : Error) : M A := fun db => (db, inl e).
Definition bind {A B} (c : M A) (k : A -> M B) : M B :=
  fun db =>
    match c db with
    | (db', inr a) => k a db'
    | (db', inl e) => (db', inl e)
    end.
Definition gets {A} (f : DB -> A) : M A := fun db => (db, inr (f db)).
Definition modify (f : DB -> DB) : M unit := fun db => (f db, inr tt).

Notation "'let*' x ':=' c 'in' k" := (bind c (fun x => k))
  (at level 10, x name, c at level 100, k at level 200).
Notation "c ';;' k" := (bind c (fun _ => k))
  (at level 100, k at level 200, right associativity).

(** A parameter that a statement compares with an [integer] column: the
    database rejects the statement when the number does not fit the type. *)
Definition fits_integer (n : Z) : bool := (-2147483648 <=? n) && (n <=? 2147483647).

Definition integer_param (n : Z) : M unit :=
  if fits_integer n then ret tt else throw OutOfRange.

(** The state and the outcome of running a handler. *)
Definition state_of {A} (r : DB * (Error + A)) : DB := fst r.
Definition outcome {A} (r : DB * (Error + A)) : Error + A := snd r.

(** ** Table updates *)

Definition set_answers (f : list Answer -> list Answer) (db : DB) : DB :=
  mkDB (usersTable db) (examsTable db) (questionsTable db) (f (answersTable db))
       (users_seq db) (exams_seq db) (questions_seq db) (answers_seq db).

Definition set_questions (f : list Question -> list Question) (db : DB) : DB :=
  mkDB (usersTable db) (examsTable db) (f (questionsTable db)) (answersTable db)
       (users_seq db) (exams_seq db) (questions_seq db) (answers_seq db).

Definition set_exams (f : list Exam -> list Exam) (db : DB) : DB :=
  mkDB (usersTable db) (f (examsTable db)) (questionsTable db) (answersTable db)
       (users_seq db) (exams_seq db) (questions_seq db) (answers_seq db).

Definition set_users (f : list User -> list User) (db : DB) : DB :=
  mkDB (f (usersTable db)) (examsTable db) (questionsTable db) (answersTable db)
       (users_seq db) (exams_seq db) (questions_seq db) (answers_seq db).

(** [update t set f where p returning]: the rows after the statement. *)
Definition update_where {R} (p : R -> bool) (f : R -> R) (rows : list R) : list R :=
  List.map (fun r => if p r then f r else r) rows.

(** [delete from t where p]: the rows that stay. *)
Definition delete_where {R} (p : R -> bool) (rows : list R) : list R :=
  List.filter (fun r => negb (p r)) rows.

(** [select from t where p]. *)
Definition select_where {R} (p : R -> bool) (rows : list R) : list R :=
  List.filter p rows.

(** ** JavaScript values *)

(** A string in a condition: only the empty string is falsy. *)
Definition truthy (s : string) : bool := negb (String.eqb s "").

(** [id.toString()] for an integer [number]. *)
Definition toString (n : Z) : string := pretty n.

(** An integer [number] as a binary64 float.  Row counts are far below
    [2^53], where the conversion is exact. *)
Definition number (z : Z) : float := PrimFloat.of_uint63 (Uint63.of_Z z).

(** [Math.round x]: the integer nearest to [x], a tie going towards
    [+Infinity]; computed exactly on the value [(-1)^s * m * 2^e] of a
    finite float.  [calculateScore] calls it on the quotient of a count by a
    positive count times [100], which is finite. *)
Definition Math_round (x : float) : Z :=
  match Prim2SF x with
  | S754_finite s m e =>
      let v := if s then Z.neg m else Z.pos m in
      if 0 <=? e then v * 2 ^ e
      else (2 * v + 2 ^ (- e)) / 2 ^ (1 - e)
  | _ => 0
  end.

(** ** Scoring ([calculateScore], handlers/answers.ts) *)

(** The condition of the loop body:
    [userAnswer && userAnswer === question.jawaban_benar], where
    [userAnswer = userAnswers[question.id.toString()]] is [undefined] (falsy)
    for a key that is not in the object. *)
Definition answered_correctly (userAnswers : gmap string string) (question : Question) : bool :=
  match userAnswers !! toString (q_id question) with
  | Some userAnswer => truthy userAnswer && String.eqb userAnswer (jawaban_benar question)
  | None => false
  end.

(** The [for] loop: [correctAnswers++] for each question that passes. *)
Definition count_correct (userAnswers : gmap string string) (questions : list Question) : Z :=
  fold_left (fun correctAnswers question =>
               if answered_correctly userAnswers question
               then correctAnswers + 1 else correctAnswers)
            questions 0.

(** [Math.round((correctAnswers / questions.length) * 100)]. *)
Definition percentage (correctAnswers total : Z) : Z :=
  Math_round (PrimFloat.mul (PrimFloat.div (number correctAnswers) (number total)) (number 100)).

Definition questions_of_exam (examId : Z) (db : DB) : list Question :=
  select_where (fun q => Z.eqb (q_exam_id q) examId) (questionsTable db).

Definition calculateScore (examId : Z) (userAnswers : gmap string string) : M Z :=
  let* questions := gets (questions_of_exam examId) in
  if (length questions =? 0)%nat then ret 0
  else
    let correctAnswers := count_correct userAnswers questions in
    let score := percentage correctAnswers (Z.of_nat (length questions)) in
    ret score.

(** The percentage the specification asks for: [100 * c / n] rounded to the
    nearest integer, a half going up, in exact arithmetic. *)
Definition round_half_up_percent (c n : Z) : Z := (200 * c + n) / (2 * n).

(** ** Answer handlers (handlers/answers.ts, the second module of
       [src/server/src/handlers/questions.ts]) *)

Record CreateAnswerInput : Type := mkCreateAnswerInput {
  cai_exam_id : Z;
  cai_user_id : Z;
  cai_jawaban : gmap string string;
  cai_is_submitted : bool;
  cai_progress_jawaban : option (gmap string string)
}.

Record UpdateProgressInput : Type := mkUpdateProgressInput {
  upi_id : Z;
  upi_progress_jawaban : gmap string string
}.

Record SubmitExamInput : Type := mkSubmitExamInput {
  sei_id : Z;
  sei_jawaban : gmap string string
}.

(** [insert into answers ... returning]: the row gets the next id. *)
Definition insert_answer (row : Z -> Answer) : M (list Answer) :=
  fun db =>
    let r := row (answers_seq db) in
    (mkDB (usersTable db) (examsTable db) (questionsTable db) (answersTable db ++ [r])
          (users_seq db) (exams_seq db) (questions_seq db) (answers_seq db + 1),
     inr [r]).

(** [update answers set ... where p returning]. *)
Definition update_answers (p : Answer -> bool) (f : Answer -> Answer) : M (list Answer) :=
  fun db =>
    (set_answers (update_where p f) db,
     inr (List.map f (select_where p (answersTable db)))).

(** [result[0]], then reading its fields. *)
Definition first_row {R} (result : list R) : M R :=
  match result with
  | r :: _ => ret r
  | [] => throw UndefinedRow
  end.

Definition answer_of (examId userId : Z) (a : Answer) : bool :=
  Z.eqb (a_user_id a) userId && Z.eqb (a_exam_id a) examId.

(** [createAnswer]; [now] is the clock read by [new Date()] and by the
    column default of [created_at]. *)
Definition createAnswer (now : Z) (input : CreateAnswerInput) : M Answer :=
  integer_param (cai_user_id input) ;;
  integer_param (cai_exam_id input) ;;
  let* existingAnswer :=
    gets (fun db => select_where (answer_of (cai_exam_id input) (cai_user_id input))
                                 (answersTable db)) in
  if (0 <? length existingAnswer)%nat then throw AnswerExists
  else
    let* user :=
      gets (fun db => select_where (fun u => Z.eqb (u_id u) (cai_user_id input))
                                   (usersTable db)) in
    if (length user =? 0)%nat then throw UserNotFound
    else
      let* exam :=
        gets (fun db => select_where (fun e => Z.eqb (e_id e) (cai_exam_id input))
                                     (examsTable db)) in
      if (length exam =? 0)%nat then throw ExamNotFound
      else
        let* result :=
          insert_answer (fun id =>
            mkAnswer id (cai_exam_id input) (cai_user_id input) (cai_jawaban input)
                     0 now (cai_is_submitted input || false)
                     (cai_progress_jawaban input) now) in
        first_row result.

Definition updateProgress (input : UpdateProgressInput) : M Answer :=
  let* existingAnswer :=
    gets (fun db => select_where (fun a => Z.eqb (a_id a) (upi_id input)) (answersTable db)) in
  match existingAnswer with
  | [] => throw AnswerNotFound
  | existing :: _ =>
      if is_submitted existing then throw ProgressAfterSubmit
      else
        let* result :=
          update_answers (fun a => Z.eqb (a_id a) (upi_id input))
            (fun a => mkAnswer (a_id a) (a_exam_id a) (a_user_id a) (jawaban a) (nilai a)
                               (waktu_submit a) (is_submitted a)
                               (Some (upi_progress_jawaban input)) (a_created_at a)) in
        first_row result
  end.

(** The [set] clause of [submitExam]. *)
Definition submitted_row (finalAnswers : gmap string string) (score now : Z) (a : Answer) : Answer :=
  mkAnswer (a_id a) (a_exam_id a) (a_user_id a) finalAnswers score now true
           (progress_jawaban a) (a_created_at a).

Definition submitExam (now : Z) (input : SubmitExamInput) : M Answer :=
  let* existingAnswer :=
    gets (fun db => select_where (fun a => Z.eqb (a_id a) (sei_id input)) (answersTable db)) in
  match existingAnswer with
  | [] => throw AnswerNotFound
  | existing :: _ =>
      if is_submitted existing then throw AlreadySubmitted
      else
        let* score := calculateScore (a_exam_id existing) (sei_jawaban input) in
        let* result :=
          update_answers (fun a => Z.eqb (a_id a) (sei_id input))
                         (submitted_row (sei_jawaban input) score now) in
        first_row result
  end.

(** ** Question handlers (handlers/questions.ts) *)

Definition getQuestionById (id : Z) : M (option Question) :=
  let* results :=
    gets (fun db => select_where (fun q => Z.eqb (q_id q) id) (questionsTable db)) in
  match results with
  | [] => ret None
  | question :: _ => ret (Some question)
  end.

(** [if (obj[key]) delete obj[key]]: the key goes when its value is truthy. *)
Definition delete_if_truthy (key : string) (obj : gmap string string) : gmap string string :=
  match obj !! key with
  | Some v => if truthy v then delete key obj else obj
  | None => obj
  end.

(** The two JSON objects of one answer after the body of the loop of
    [deleteQuestion]; [progress_jawaban] may be [null]. *)
Definition cleaned_row (id : Z) (answer : Answer) (a : Answer) : Answer :=
  mkAnswer (a_id a) (a_exam_id a) (a_user_id a)
           (delete_if_truthy (toString id) (jawaban answer))
           (nilai a) (waktu_submit a) (is_submitted a)
           (option_map (delete_if_truthy (toString id)) (progress_jawaban answer))
           (a_created_at a).

(** [for (const x of xs) { await body(x) }]. *)
Fixpoint for_each {A} (xs : list A) (body : A -> M unit) : M unit :=
  match xs with
  | [] => ret tt
  | x :: rest => body x ;; for_each rest body
  end.

Definition deleteQuestion (id : Z) : M unit :=
  let* existingQuestion := getQuestionById id in
  match existingQuestion with
  | None => throw (JsError ("Question with ID " ++ toString id ++ " does not exist"))
  | Some existing =>
      let* answers :=
        gets (fun db => select_where (fun a => Z.eqb (a_exam_id a) (q_exam_id existing))
                                     (answersTable db)) in
      for_each answers (fun answer =>
        update_answers (fun a => Z.eqb (a_id a) (a_id answer)) (cleaned_row id answer) ;;
        ret tt) ;;
      modify (set_questions (delete_where (fun q => Z.eqb (q_id q) id)))
  end.

(** A question as a participant gets it: the selected columns only. *)
Record ParticipantQuestion : Type := mkParticipantQuestion {
  pq_id : Z;
  pq_exam_id : Z;
  pq_soal : string;
  pq_pilihan : list string;
  pq_created_at : Z
}.

Definition getQuestionsForParticipant (examId : Z) : M (list ParticipantQuestion) :=
  let* results :=
    gets (fun db =>
      List.map (fun q => mkParticipantQuestion (q_id q) (q_exam_id q) (soal q) (pilihan q)
                                               (q_created_at q))
               (select_where (fun q => Z.eqb (q_exam_id q) examId) (questionsTable db))) in
  ret (List.map (fun question =>
                   mkParticipantQuestion (pq_id question) (pq_exam_id question)
                                         (pq_soal question) (pq_pilihan question)
                                         (pq_created_at question))
                results).

(** ** Exam handlers (handlers/exams.ts, [src/unnamed/part_004]) *)

Record CreateExamInput : Type := mkCreateExamInput {
  cei_judul_ujian : string;
  cei_deskripsi : string;
  cei_tanggal_mulai : Z;
  cei_tanggal_selesai : Z;
  cei_durasi : Z;
  cei_status : ExamStatus
}.

(** An absent field of the input is [None]. *)
Record UpdateExamInput : Type := mkUpdateExamInput {
  uei_id : Z;
  uei_judul_ujian : option string;
  uei_deskripsi : option string;
  uei_tanggal_mulai : option Z;
  uei_tanggal_selesai : option Z;
  uei_durasi : option Z;
  uei_status : option ExamStatus
}.

Definition insert_exam (row : Z -> Exam) : M (list Exam) :=
  fun db =>
    let r := row (exams_seq db) in
    (mkDB (usersTable db) (examsTable db ++ [r]) (questionsTable db) (answersTable db)
          (users_seq db) (exams_seq db + 1) (questions_seq db) (answers_seq db),
     inr [r]).

Definition createExam (now : Z) (input : CreateExamInput) : M Exam :=
  if cei_tanggal_selesai input <=? cei_tanggal_mulai input then throw DateOrder
  else
    let* result :=
      insert_exam (fun id =>
        mkExam id (cei_judul_ujian input) (cei_deskripsi input) (cei_tanggal_mulai input)
               (cei_tanggal_selesai input) (cei_durasi input) (cei_status input) now) in
    first_row result.

(** The [where] clause of [getActiveExams] and [getExamsForParticipant]. *)
Definition in_window (now : Z) (e : Exam) : bool :=
  bool_decide (status e = aktif)
  && (tanggal_mulai e <=? now)
  && (tanggal_selesai e >=? now).

Definition getActiveExams (now : Z) : M (list Exam) :=
  let* result := gets (fun db => select_where (in_window now) (examsTable db)) in
  ret result.

Definition getExamById (id : Z) : M (option Exam) :=
  let* result :=
    gets (fun db => firstn 1 (select_where (fun e => Z.eqb (e_id e) id) (examsTable db))) in
  match result with
  | e :: _ => ret (Some e)
  | [] => ret None
  end.

(** An optional [Date] in a condition: a [Date] is truthy, [undefined] is not. *)
Definition defined {A} (o : option A) : bool :=
  match o with Some _ => true | None => false end.

(** [a || b] on optional dates. *)
Definition or_else (a : option Z) (b : Z) : Z := default b a.

(** [updateData] has no key: no field of the input is defined. *)
Definition exam_updateData_empty (input : UpdateExamInput) : bool :=
  negb (defined (uei_judul_ujian input) || defined (uei_deskripsi input)
        || defined (uei_tanggal_mulai input) || defined (uei_tanggal_selesai input)
        || defined (uei_durasi input) || defined (uei_status input)).

(** [updateData]: the fields of the input that are defined. *)
Definition apply_update (input : UpdateExamInput) (e : Exam) : Exam :=
  mkExam (e_id e)
         (default (judul_ujian e) (uei_judul_ujian input))
         (default (deskripsi e) (uei_deskripsi input))
         (default (tanggal_mulai e) (uei_tanggal_mulai input))
         (default (tanggal_selesai e) (uei_tanggal_selesai input))
         (default (durasi e) (uei_durasi input))
         (default (status e) (uei_status input))
         (e_created_at e).

Definition update_exams (p : Exam -> bool) (f : Exam -> Exam) : M (list Exam) :=
  fun db =>
    (set_exams (update_where p f) db,
     inr (List.map f (select_where p (examsTable db)))).

(** The second guard of [updateExam], entered when exactly one date is given. *)
Definition check_one_date (input : UpdateExamInput) : M unit :=
  if (defined (uei_tanggal_mulai input) || defined (uei_tanggal_selesai input))
     && negb (defined (uei_tanggal_mulai input) && defined (uei_tanggal_selesai input))
  then
    let* existingExam := getExamById (uei_id input) in
    match existingExam with
    | None => throw ExamNotFound
    | Some existing =>
        let newStart := or_else (uei_tanggal_mulai input) (tanggal_mulai existing) in
        let newEnd := or_else (uei_tanggal_selesai input) (tanggal_selesai existing) in
        if newEnd <=? newStart then throw DateOrder else ret tt
    end
  else ret tt.

Definition updateExam (input : UpdateExamInput) : M Exam :=
  match uei_tanggal_mulai input, uei_tanggal_selesai input with
  | Some mulai, Some selesai =>
      if selesai <=? mulai then throw DateOrder else ret tt
  | _, _ => ret tt
  end ;;
  check_one_date input ;;
  let* result :=
    if exam_updateData_empty input then throw NoValues
    else update_exams (fun e => Z.eqb (e_id e) (uei_id input)) (apply_update input) in
  match result with
  | [] => throw ExamNotFound
  | e :: _ => ret e
  end.

(** The three [delete] statements of [deleteExam]; nothing refers to an
    answer or to a question. *)
Definition delete_answers_of (id : Z) : M unit :=
  modify (set_answers (delete_where (fun a => Z.eqb (a_exam_id a) id))).

Definition delete_questions_of (id : Z) : M unit :=
  modify (set_questions (delete_where (fun q => Z.eqb (q_exam_id q) id))).

(** [delete from exams where id = $1 returning]; the statement is rejected
    when a question or an answer refers to a row it would delete. *)
Definition delete_exam_returning (id : Z) : M (list Exam) :=
  fun db =>
    let gone := select_where (fun e => Z.eqb (e_id e) id) (examsTable db) in
    if existsb (fun q => existsb (fun e => Z.eqb (q_exam_id q) (e_id e)) gone)
               (questionsTable db)
    then (db, inl ExamHasQuestions)
    else if existsb (fun a => existsb (fun e => Z.eqb (a_exam_id a) (e_id e)) gone)
                    (answersTable db)
    then (db, inl ExamHasAnswers)
    else (set_exams (delete_where (fun e => Z.eqb (e_id e) id)) db, inr gone).

Definition deleteExam (id : Z) : M unit :=
  integer_param id ;;
  delete_answers_of id ;;
  delete_questions_of id ;;
  let* result := delete_exam_returning id in
  if (length result =? 0)%nat then throw ExamNotFound else ret tt.

(** ** Strings of bytes *)

(** [Buffer.from(s)]: the bytes of [s]; a [string] here is the sequence of
    the bytes of its UTF-8 encoding.  A JavaScript string with an unpaired
    surrogate has no UTF-8 encoding ([Buffer.from] writes U+FFFD in place of
    the surrogate) and is not among these strings. *)
Definition Buffer_from (s : string) : list Z :=
  List.map (fun c => Z.of_N (N_of_ascii c)) (list_ascii_of_string s).

Definition base64_alphabet : string :=
  "ABCDEFGHIJKLMNOPQRSTUVWXYZabcdefghijklmnopqrstuvwxyz0123456789+/".

Definition base64_digit (n : Z) : ascii :=
  default "="%char (String.get (Z.to_nat n) base64_alphabet).

(** [buf.toString('base64')]: three bytes give four digits; the last group
    is padded with [=]. *)
Fixpoint toString_base64 (bytes : list Z) : string :=
  match bytes with
  | [] => ""
  | [a] =>
      String (base64_digit (Z.shiftr a 2))
     (String (base64_digit (Z.shiftl (Z.land a 3) 4)) "==")
  | [a; b] =>
      String (base64_digit (Z.shiftr a 2))
     (String (base64_digit (Z.lor (Z.shiftl (Z.land a 3) 4) (Z.shiftr b 4)))
     (String (base64_digit (Z.shiftl (Z.land b 15) 2)) "="))
  | a :: b :: c :: rest =>
      String (base64_digit (Z.shiftr a 2))
     (String (base64_digit (Z.lor (Z.shiftl (Z.land a 3) 4) (Z.shiftr b 4)))
     (String (base64_digit (Z.lor (Z.shiftl (Z.land b 15) 2) (Z.shiftr c 6)))
     (String (base64_digit (Z.land c 63)) (toString_base64 rest))))
  end.

(** [s.split(sep)] for a separator of one character. *)
Fixpoint split (sep : ascii) (s : string) : list string :=
  match s with
  | EmptyString => [""]
  | String c rest =>
      if Ascii.eqb c sep then "" :: split sep rest
      else
        match split sep rest with
        | part :: parts => String c part :: parts
        | [] => [String c ""]
        end
  end.

(** ** User handlers (handlers/users.ts) *)

Module Users.

Record CreateUserInput : Type := mkCreateUserInput {
  nama : string;
  email : string;
  password : string;
  role : UserRole;
  kelas : option string
}.

(** [Buffer.from(password).toString('base64')]. *)
Definition hashPassword (password : string) : string :=
  toString_base64 (Buffer_from password).

(** [insert into users ... returning].  The email column is unique; the
    sequence has advanced also when the row is rejected. *)
Definition insert_user (row : Z -> User) : M (list User) :=
  fun db =>
    let r := row (users_seq db) in
    if existsb (fun u => String.eqb (u_email u) (u_email r)) (usersTable db)
    then (mkDB (usersTable db) (examsTable db) (questionsTable db) (answersTable db)
               (users_seq db + 1) (exams_seq db) (questions_seq db) (answers_seq db),
          inl EmailTaken)
    else (mkDB (usersTable db ++ [r]) (examsTable db) (questionsTable db) (answersTable db)
               (users_seq db + 1) (exams_seq db) (questions_seq db) (answers_seq db),
          inr [r]).

(** [input.kelas || null]: an empty class name is stored as [null]. *)
Definition kelas_or_null (k : option string) : option string :=
  match k with
  | Some s => if truthy s then Some s else None
  | None => None
  end.

Definition createUser (now : Z) (input : CreateUserInput) : M User :=
  let hashedPassword := hashPassword (password input) in
  let* result :=
    insert_user (fun id =>
      mkUser id (nama input) (email input) hashedPassword (role input)
             (kelas_or_null (kelas input)) now) in
  first_row result.

(** The columns that [updateUser] can set; [kelas] can be set to [null]. *)
Record UpdateUserInput : Type := mkUpdateUserInput {
  uui_id : Z;
  uui_nama : option string;
  uui_email : option string;
  uui_password : option string;
  uui_kelas : option (option string)
}.

Record ResetPasswordInput : Type := mkResetPasswordInput {
  rpi_id : Z;
  rpi_newPassword : string
}.

Definition getAllUsers : M (list User) :=
  let* results := gets usersTable in
  ret (List.map (fun user => user) results).

Definition getUsersByRole (role : UserRole) : M (list User) :=
  let* results :=
    gets (fun db => select_where (fun u => bool_decide (u_role u = role)) (usersTable db)) in
  ret (List.map (fun user => user) results).


(** [update users set ... where p returning]; the statement is rejected when
    it would leave two rows with one email (the table had none before). *)
Definition update_users (p : User -> bool) (f : User -> User) : M (list User) :=
  fun db =>
    let rows := update_where p f (usersTable db) in
    if bool_decide (NoDup (List.map u_email rows))
    then (set_users (fun _ => rows) db, inr (List.map f (select_where p (usersTable db))))
    else (db, inl EmailTaken).

(** [updateData] of [updateUser]: the fields of the input that are defined;
    a new password is stored through [hashPassword]. *)
Definition apply_user_update (input : UpdateUserInput) (u : User) : User :=
  mkUser (u_id u)
         (default (u_nama u) (uui_nama input))
         (default (u_email u) (uui_email input))
         (default (u_password u) (hashPassword <$> uui_password input))
         (u_role u)
         (default (u_kelas u) (uui_kelas input))
         (u_created_at u).

(** [updateData] has no key: no field of the input is defined ([kelas: null]
    is a value). *)
Definition user_updateData_empty (input : UpdateUserInput) : bool :=
  negb (defined (uui_nama input) || defined (uui_email input)
        || defined (uui_password input) || defined (uui_kelas input)).

Definition updateUser (input : UpdateUserInput) : M User :=
  let* result :=
    if user_updateData_empty input then throw NoValues
    else update_users (fun u => Z.eqb (u_id u) (uui_id input)) (apply_user_update input) in
  match result with
  | [] => throw UserNotFound
  | user :: _ => ret user
  end.

(** [delete from users where p returning]; the statement is rejected when an
    answer refers to a row it would delete. *)
Definition delete_users (p : User -> bool) : M (list User) :=
  fun db =>
    let gone := select_where p (usersTable db) in
    if existsb (fun a => existsb (fun u => Z.eqb (a_user_id a) (u_id u)) gone) (answersTable db)
    then (db, inl UserHasAnswers)
    else (set_users (delete_where p) db, inr gone).

Definition deleteUser (id : Z) : M unit :=
  integer_param id ;;
  let* result := delete_users (fun u => Z.eqb (u_id u) id) in
  if (length result =? 0)%nat then throw UserNotFound else ret tt.

Definition resetUserPassword (input : ResetPasswordInput) : M User :=
  let hashedPassword := hashPassword (rpi_newPassword input) in
  let* result :=
    update_users (fun u => Z.eqb (u_id u) (rpi_id input))
      (fun u => mkUser (u_id u) (u_nama u) (u_email u) hashedPassword (u_role u)
                       (u_kelas u) (u_created_at u)) in
  match result with
  | [] => throw UserNotFound
  | user :: _ => ret user
  end.

End Users.

(** ** Login (handlers/auth.ts) *)

Module Auth.

Record LoginInput : Type := mkLoginInput {
  email : string;
  password : string
}.

Section Pbkdf2.

(** [pbkdf2Sync(password, salt, 10000, 64, 'sha512').toString('hex')]. *)
Variable pbkdf2_hex : string -> string -> string.

(** [hashPassword]; [salt] is [randomBytes(32).toString('hex')]. *)
Definition hashPassword (salt password : string) : string :=
  salt ++ ":" ++ pbkdf2_hex password salt.

Definition verifyPassword (password hashedPassword : string) : bool :=
  let parts := split ":" hashedPassword in
  if negb (length parts =? 2)%nat then false
  else
    match parts with
    | [salt; storedHash] => String.eqb (pbkdf2_hex password salt) storedHash
    | _ => false
    end.

Definition loginUser (input : LoginInput) : M (option User) :=
  let* users :=
    gets (fun db => select_where (fun u => String.eqb (u_email u) (email input))
                                 (usersTable db)) in
  match users with
  | [] => ret None
  | user :: _ =>
      let isPasswordValid := verifyPassword (password input) (u_password user) in
      if negb isPasswordValid then ret None
      else ret (Some (mkUser (u_id user) (u_nama user) (u_email user) (u_password user)
                             (u_role user) (u_kelas user) (u_created_at user)))
  end.

End Pbkdf2.

End Auth.

(** ** Reports (handlers/dashboard.ts) *)

Record ExamResult : Type := mkExamResult {
  er_user_id : Z;
  er_user_nama : string;
  er_user_kelas : option string;
  er_exam_id : Z;
  er_exam_judul : string;
  er_nilai : Z;
  er_waktu_submit : Z;
  er_is_submitted : bool
}.

(** [from answers inner join users on answers.user_id = users.id
    inner join exams on answers.exam_id = exams.id]. *)
Definition answers_users_exams (db : DB) : list (Answer * User * Exam) :=
  flat_map (fun a =>
    flat_map (fun u =>
      List.map (fun e => (a, u, e))
               (select_where (fun e => Z.eqb (a_exam_id a) (e_id e)) (examsTable db)))
      (select_where (fun u => Z.eqb (a_user_id a) (u_id u)) (usersTable db)))
    (answersTable db).

(** The selected columns. *)
Definition exam_result (row : Answer * User * Exam) : ExamResult :=
  let '(a, u, e) := row in
  mkExamResult (a_user_id a) (u_nama u) (u_kelas u) (a_exam_id a) (judul_ujian e)
               (nilai a) (waktu_submit a) (is_submitted a).

Definition getExamResults (examId : Z) : M (list ExamResult) :=
  integer_param examId ;;
  let* results :=
    gets (fun db =>
      List.map exam_result
        (select_where (fun row => Z.eqb (a_exam_id (fst (fst row))) examId)
                      (answers_users_exams db))) in
  ret results.

Definition getAllExamResults : M (list ExamResult) :=
  let* results := gets (fun db => List.map exam_result (answers_users_exams db)) in
  ret results.

(** [xs.join(sep)]. *)
Fixpoint join (sep : string) (xs : list string) : string :=
  match xs with
  | [] => ""
  | [x] => x
  | x :: rest => x ++ sep ++ join sep rest
  end.

Definition comma : ascii := ascii_of_nat 44.
Definition newline : ascii := ascii_of_nat 10.
Definition double_quote : ascii := ascii_of_nat 34.

(** A name or a title between double quotes. *)
Definition quoted (s : string) : string :=
  String double_quote (s ++ String double_quote "").

Definition csv_headers : list string :=
  ["User ID"; "Nama Peserta"; "Kelas"; "Exam ID"; "Judul Ujian"; "Nilai";
   "Waktu Submit"; "Status Submit"].

Section Csv.

(** [date.toISOString()]. *)
Variable toISOString : Z -> string.

Definition csv_row (result : ExamResult) : list string :=
  [toString (er_user_id result);
   quoted (er_user_nama result);
   match er_user_kelas result with
   | Some kelas => if truthy kelas then kelas else ""
   | None => ""
   end;
   toString (er_exam_id result);
   quoted (er_exam_judul result);
   toString (er_nilai result);
   toISOString (er_waktu_submit result);
   if er_is_submitted result then "Submitted" else "Not Submitted"].

Definition exportExamResultsToCSV (examId : option Z) : M string :=
  let* results :=
    match examId with
    | Some id => getExamResults id
    | None => getAllExamResults
    end in
  let rows := List.map csv_row results in
  let csvContent :=
    join (String newline "")
         (join (String comma "") csv_headers
          :: List.map (fun row => join (String comma "") row) rows) in
  ret csvContent.

End Csv.

(** ** The other handlers of answers, questions and exams *)

Record GetUserAnswerInput : Type := mkGetUserAnswerInput {
  guai_examId : Z;
  guai_userId : Z
}.

Definition getUserAnswer (input : GetUserAnswerInput) : M (option Answer) :=
  let* results :=
    gets (fun db => select_where (answer_of (guai_examId input) (guai_userId input))
                                 (answersTable db)) in
  match results with
  | [] => ret None
  | answer :: _ => ret (Some answer)
  end.

Definition getAnswersByExamId (examId : Z) : M (list Answer) :=
  integer_param examId ;;
  let* exam :=
    gets (fun db => select_where (fun e => Z.eqb (e_id e) examId) (examsTable db)) in
  if (length exam =? 0)%nat then throw ExamNotFound
  else
    let* results :=
      gets (fun db => select_where (fun a => Z.eqb (a_exam_id a) examId) (answersTable db)) in
    ret (List.map (fun answer => answer) results).

Record CreateQuestionInput : Type := mkCreateQuestionInput {
  cqi_exam_id : Z;
  cqi_soal : string;
  cqi_pilihan : list string;
  cqi_jawaban_benar : string
}.

Record UpdateQuestionInput : Type := mkUpdateQuestionInput {
  uqi_id : Z;
  uqi_soal : option string;
  uqi_pilihan : option (list string);
  uqi_jawaban_benar : option string
}.

(** [z.enum(['A', 'B', 'C', 'D'])]. *)
Definition is_choice (s : string) : bool :=
  String.eqb s "A" || String.eqb s "B" || String.eqb s "C" || String.eqb s "D".

(** [createQuestionInputSchema]: four choices and a key that is one of the
    four symbols. *)
Definition createQuestionInputSchema (input : CreateQuestionInput) : bool :=
  (length (cqi_pilihan input) =? 4)%nat && is_choice (cqi_jawaban_benar input).

(** [updateQuestionInputSchema]: the same for the fields that are given. *)
Definition updateQuestionInputSchema (input : UpdateQuestionInput) : bool :=
  match uqi_pilihan input with Some p => (length p =? 4)%nat | None => true end
  && match uqi_jawaban_benar input with Some k => is_choice k | None => true end.

Definition insert_question (row : Z -> Question) : M (list Question) :=
  fun db =>
    let r := row (questions_seq db) in
    (mkDB (usersTable db) (examsTable db) (questionsTable db ++ [r]) (answersTable db)
          (users_seq db) (exams_seq db) (questions_seq db + 1) (answers_seq db),
     inr [r]).

Definition createQuestion (now : Z) (input : CreateQuestionInput) : M Question :=
  integer_param (cqi_exam_id input) ;;
  let* examExists :=
    gets (fun db => select_where (fun e => Z.eqb (e_id e) (cqi_exam_id input)) (examsTable db)) in
  if (length examExists =? 0)%nat then throw (ExamMissing (toString (cqi_exam_id input)))
  else
    let* result :=
      insert_question (fun id =>
        mkQuestion id (cqi_exam_id input) (cqi_soal input) (cqi_pilihan input)
                   (cqi_jawaban_benar input) now) in
    first_row result.

Definition getQuestionsByExamId (examId : Z) : M (list Question) :=
  let* results :=
    gets (fun db => select_where (fun q => Z.eqb (q_exam_id q) examId) (questionsTable db)) in
  ret (List.map (fun question => question) results).

Definition update_questions (p : Question -> bool) (f : Question -> Question)
    : M (list Question) :=
  fun db =>
    (set_questions (update_where p f) db,
     inr (List.map f (select_where p (questionsTable db)))).

(** [updateData] of [updateQuestion]. *)
Definition apply_question_update (input : UpdateQuestionInput) (q : Question) : Question :=
  mkQuestion (q_id q) (q_exam_id q)
             (default (soal q) (uqi_soal input))
             (default (pilihan q) (uqi_pilihan input))
             (default (jawaban_benar q) (uqi_jawaban_benar input))
             (q_created_at q).

(** [updateData] has no key: no field of the input is defined. *)
Definition question_updateData_empty (input : UpdateQuestionInput) : bool :=
  negb (defined (uqi_soal input) || defined (uqi_pilihan input)
        || defined (uqi_jawaban_benar input)).

Definition updateQuestion (input : UpdateQuestionInput) : M Question :=
  let* existingQuestion := getQuestionById (uqi_id input) in
  match existingQuestion with
  | None => throw (QuestionNotFound (toString (uqi_id input)))
  | Some _ =>
      let* result :=
        if question_updateData_empty input then throw NoValues
        else update_questions (fun q => Z.eqb (q_id q) (uqi_id input))
                              (apply_question_update input) in
      first_row result
  end.

Definition getAllExams : M (list Exam) :=
  let* result := gets examsTable in
  ret result.

(** [getExamsForParticipant]: the query does not mention [userId]. *)
Definition getExamsForParticipant (now : Z) (userId : Z) : M (list Exam) :=
  let* result := gets (fun db => select_where (in_window now) (examsTable db)) in
  ret result.

(** ** Vocabulary of the properties *)

(** The row that a handler finds by id: the first of the selected rows. *)
Definition find_answer (id : Z) (db : DB) : option Answer :=
  head (select_where (fun a => Z.eqb (a_id a) id) (answersTable db)).

Definition other_answers (id : Z) (db : DB) : list Answer :=
  select_where (fun a => negb (Z.eqb (a_id a) id)) (answersTable db).

Definition has_exam (examId : Z) (db : DB) : Prop :=
  exists e, In e (examsTable db) /\ e_id e = examId.

Definition has_user (userId : Z) (db : DB) : Prop :=
  exists u, In u (usersTable db) /\ u_id u = userId.

Definition has_answer (examId userId : Z) (db : DB) : Prop :=
  exists a, In a (answersTable db) /\ a_exam_id a = examId /\ a_user_id a = userId.

(** The foreign keys of the schema: a question and an answer belong to an
    exam of the database, an answer to a user of the database. *)
Definition referential_integrity (db : DB) : Prop :=
  (forall q, In q (questionsTable db) -> has_exam (q_exam_id q) db)
  /\ (forall a, In a (answersTable db) -> has_exam (a_exam_id a) db)
  /\ (forall a, In a (answersTable db) -> has_user (a_user_id a) db).

(** No row of the three tables refers to the exam. *)
Definition no_rows_of (id : Z) (db : DB) : Prop :=
  (forall e, In e (examsTable db) -> e_id e <> id)
  /\ (forall q, In q (questionsTable db) -> q_exam_id q <> id)
  /\ (forall a, In a (answersTable db) -> a_exam_id a <> id).

(** The rows of the other exams are the same in both databases. *)
Definition same_other_exams (id : Z) (db db' : DB) : Prop :=
  usersTable db' = usersTable db
  /\ select_where (fun e => negb (Z.eqb (e_id e) id)) (examsTable db')
     = select_where (fun e => negb (Z.eqb (e_id e) id)) (examsTable db)
  /\ select_where (fun q => negb (Z.eqb (q_exam_id q) id)) (questionsTable db')
     = select_where (fun q => negb (Z.eqb (q_exam_id q) id)) (questionsTable db)
  /\ select_where (fun a => negb (Z.eqb (a_exam_id a) id)) (answersTable db')
     = select_where (fun a => negb (Z.eqb (a_exam_id a) id)) (answersTable db).

(** Two question tables that differ at most in the keys of the questions. *)
Definition same_but_key (q1 q2 : Question) : Prop :=
  q_id q1 = q_id q2 /\ q_exam_id q1 = q_exam_id q2 /\ soal q1 = soal q2
  /\ pilihan q1 = pilihan q2 /\ q_created_at q1 = q_created_at q2.

(** The dates an update leaves the exam with. *)
Definition effective_start (input : UpdateExamInput) (existing : Exam) : Z :=
  default (tanggal_mulai existing) (uei_tanggal_mulai input).

Definition effective_end (input : UpdateExamInput) (existing : Exam) : Z :=
  default (tanggal_selesai existing) (uei_tanggal_selesai input).

(** The exam that a handler finds by id. *)
Definition find_exam (id : Z) (db : DB) : option Exam :=
  head (select_where (fun e => Z.eqb (e_id e) id) (examsTable db)).

(** The character occurs in the string. *)
Fixpoint contains (c : ascii) (s : string) : bool :=
  match s with
  | EmptyString => false
  | String d rest => Ascii.eqb d c || contains c rest
  end.

(** What the two guards of [updateExam] decide: the first looks at an update
    with both dates, the second at an update with one date and the stored
    exam. *)
Definition date_guards (input : UpdateExamInput) (db : DB) : Error + unit :=
  match uei_tanggal_mulai input, uei_tanggal_selesai input with
  | Some mulai, Some selesai => if selesai <=? mulai then inl DateOrder else inr tt
  | None, None => inr tt
  | _, _ =>
      match find_exam (uei_id input) db with
      | None => inl ExamNotFound
      | Some existing =>
          if effective_end input existing <=? effective_start input existing
          then inl DateOrder else inr tt
      end
  end.

(** A number that fits an [integer] column of the database. *)
Definition int4 (n : Z) : Prop := -2147483648 <= n <= 2147483647.



(** A list of bytes. *)
Definition bytes (l : list Z) : Prop := Forall (fun b => 0 <= b < 256) l.

(** A continuation byte of UTF-8. *)
Definition continuation (b : Z) : bool := (128 <=? b) && (b <=? 191).

(** The bytes are the UTF-8 encoding of a string of Unicode scalar values:
    no stray or overlong sequence, no surrogate, nothing above U+10FFFF.
    These are the encodings of the JavaScript strings without an unpaired
    surrogate. *)
Fixpoint utf8 (l : list Z) : bool :=
  match l with
  | [] => true
  | b0 :: r0 =>
      if (0 <=? b0) && (b0 <=? 127) then utf8 r0
      else
        match r0 with
        | [] => false
        | b1 :: r1 =>
            if (194 <=? b0) && (b0 <=? 223) then continuation b1 && utf8 r1
            else
              match r1 with
              | [] => false
              | b2 :: r2 =>
                  if (224 <=? b0) && (b0 <=? 239)
                  then (if b0 =? 224 then (160 <=? b1) && (b1 <=? 191)
                        else if b0 =? 237 then (128 <=? b1) && (b1 <=? 159)
                        else continuation b1)
                       && continuation b2 && utf8 r2
                  else
                    match r2 with
                    | [] => false
                    | b3 :: r3 =>
                        (240 <=? b0) && (b0 <=? 244)
                        && (if b0 =? 240 then (144 <=? b1) && (b1 <=? 191)
                            else if b0 =? 244 then (128 <=? b1) && (b1 <=? 143)
                            else continuation b1)
                        && continuation b2 && continuation b3 && utf8 r3
                    end
              end
        end
  end.

(** [P] holds of every number from 0 up to [n], excluded. *)
Definition below (n : Z) (P : Z -> bool) : bool := forallb P (seqZ 0 n).

(** How many times the character occurs in the string. *)
Fixpoint occurrences (c : ascii) (s : string) : nat :=
  match s with
  | EmptyString => 0%nat
  | String d rest => ((if Ascii.eqb d c then 1 else 0) + occurrences c rest)%nat
  end.

(** Every exam of the database ends after it starts. *)
Definition exams_ordered (db : DB) : Prop :=
  forall e, In e (examsTable db) -> tanggal_mulai e < tanggal_selesai e.

(** At most one answer row for an exam and a user. *)
Definition one_answer_per_pair (db : DB) : Prop :=
  NoDup (List.map (fun a => (a_exam_id a, a_user_id a)) (answersTable db)).

(** A sequence of calls of [createAnswer], each at its time, whatever each
    of them returns. *)
Fixpoint create_all (calls : list (Z * CreateAnswerInput)) (db : DB) : DB :=
  match calls with
  | [] => db
  | (now, input) :: rest => create_all rest (state_of (createAnswer now input db))
  end.

Definition empty_db : DB := mkDB [] [] [] [] 1 1 1 1.

(** A first answer row for exam 1 and user 1. *)
Definition first_attempt : CreateAnswerInput := mkCreateAnswerInput 1 1 ∅ false None.

(** The same for an exam id one above the largest [integer]. *)
Definition far_attempt : CreateAnswerInput :=
  mkCreateAnswerInput 2147483648 1 ∅ false None.

(** An exam of forty questions, all with the key [A], and the answers of a
    participant who has the first twenty-three right and skips the rest. *)
Definition forty_questions : list Question :=
  List.map (fun i => mkQuestion i 1 "Soal" ["a"; "b"; "c"; "d"] "A" 0) (seqZ 1 40).

Definition forty_db : DB :=
  mkDB [] [mkExam 1 "Ujian" "" 0 1000 60 aktif 0] forty_questions [] 1 2 41 1.

Definition twenty_three_right : gmap string string :=
  list_to_map (List.map (fun i => (toString i, "A")) (seqZ 1 23)).

(** The row that [createAnswer] inserts. *)
Definition created_row (now : Z) (input : CreateAnswerInput) (id : Z) : Answer :=
  mkAnswer id (cai_exam_id input) (cai_user_id input) (cai_jawaban input) 0 now
           (cai_is_submitted input) (cai_progress_jawaban input) now.

(** One statement of the loop of [deleteQuestion], seen from a row [r] of
    the table: the statement for [answer] rewrites [r] when the ids agree. *)
Definition clean_step (id : Z) (r answer : Answer) : Answer :=
  if Z.eqb (a_id r) (a_id answer) then cleaned_row id answer r else r.

(** The binary64 score is the exact one for every exam of fewer than
    [bound] questions. *)
Definition exact_below (bound : Z) : bool :=
  forallb (fun n =>
             forallb (fun c => Z.eqb (percentage c n) (round_half_up_percent c n))
                     (seqZ 0 (n + 1)))
          (seqZ 1 (bound - 1)).

(** A small database: one participant, one exam of two questions with the
    keys [C] and [C], and the participant's answer row, not yet submitted. *)
Definition sample_user : User :=
  mkUser 1 "Test User" "test@example.com" "cGFzc3dvcmQxMjM=" peserta (Some "12A") 0.

Definition sample_exam : Exam :=
  mkExam 1 "Test Exam" "Test exam description" 1000 2000 120 aktif 0.

Definition sample_questions : list Question :=
  [mkQuestion 1 1 "Soal 1" ["a"; "b"; "c"; "d"] "C" 0;
   mkQuestion 2 1 "Soal 2" ["a"; "b"; "c"; "d"] "C" 0].

Definition sample_answer : Answer :=
  mkAnswer 1 1 1 ∅ 0 0 false (Some {["1" := "C"]}) 0.

Definition sample_db : DB :=
  mkDB [sample_user] [sample_exam] sample_questions [sample_answer] 2 2 3 2.

(** The participant submits [C] and [A]. *)
Definition sample_submission : SubmitExamInput :=
  mkSubmitExamInput 1 {["1" := "C"; "2" := "A"]}.

(** The same database after that submission at time 1500. *)
Definition sample_submitted : Answer :=
  mkAnswer 1 1 1 {["1" := "C"; "2" := "A"]} 50 1500 true (Some {["1" := "C"]}) 0.

Definition sample_db_submitted : DB :=
  mkDB [sample_user] [sample_exam] sample_questions [sample_submitted] 2 2 3 2.

(** The participant is registered, the exam is not. *)
Definition users_only_db : DB := mkDB [sample_user] [] [] [] 2 1 1 1.

(** The participant and the exam are there, no answer row yet. *)
Definition fresh_db : DB := mkDB [sample_user] [sample_exam] sample_questions [] 2 2 3 1.

(** An answer row whose value for question 1 is the empty string, in the
    final answers and in the saved progress. *)
Definition blank_answer : Answer :=
  mkAnswer 1 1 1 {["1" := ""; "2" := "B"]} 0 0 false (Some {["1" := ""]}) 0.

Definition blank_db : DB :=
  mkDB [sample_user] [sample_exam] sample_questions [blank_answer] 2 2 3 2.

(** An update that moves only the end of exam 1, to its start. *)
Definition end_at_start : UpdateExamInput :=
  mkUpdateExamInput 1 None None None (Some 1000) None None.

(** An exam that would end when it starts. *)
Definition instant_exam : CreateExamInput :=
  mkCreateExamInput "Kilat" "" 1000 1000 60 aktif.

(** The questions of the sample with other keys. *)
Definition rekeyed_db : DB :=
  mkDB [sample_user] [sample_exam]
       [mkQuestion 1 1 "Soal 1" ["a"; "b"; "c"; "d"] "A" 0;
        mkQuestion 2 1 "Soal 2" ["a"; "b"; "c"; "d"] "B" 0]
       [sample_answer] 2 2 3 2.

(** A registration. *)
Definition registration : Users.CreateUserInput :=
  Users.mkCreateUserInput "Test User" "test@example.com" "password123" peserta (Some "12A").


(** The value saved for a key in the progress of an answer, if any. *)
Definition progress_at (a : Answer) (k : string) : option string :=
  progress_jawaban a ≫= (fun progress => progress !! k).

(** An answer [a] and the same row [a'] after a key is pruned from its two
    maps: the other columns and the other keys are the same, and the key is
    gone from a map where it had a non-empty value. *)
Definition pruned (key : string) (a a' : Answer) : Prop :=
  (a_id a', a_exam_id a', a_user_id a', nilai a', waktu_submit a', is_submitted a',
   a_created_at a')
  = (a_id a, a_exam_id a, a_user_id a, nilai a, waktu_submit a, is_submitted a,
     a_created_at a)
  /\ (progress_jawaban a' = None <-> progress_jawaban a = None)
  /\ (forall k, k <> key ->
        jawaban a' !! k = jawaban a !! k /\ progress_at a' k = progress_at a k)
  /\ (forall v, jawaban a !! key = Some v -> v <> "" -> jawaban a' !! key = None)
  /\ (forall v, progress_at a key = Some v -> v <> "" -> progress_at a' key = None).

(** ** Sequences of calls *)

(** A call of one of the handlers that write to the database. *)
Inductive Call : Type :=
| CreateUser (now : Z) (input : Users.CreateUserInput)
| UpdateUser (input : Users.UpdateUserInput)
| DeleteUser (id : Z)
| ResetUserPassword (input : Users.ResetPasswordInput)
| CreateExam (now : Z) (input : CreateExamInput)
| UpdateExam (input : UpdateExamInput)
| DeleteExam (id : Z)
| CreateQuestion (now : Z) (input : CreateQuestionInput)
| UpdateQuestion (input : UpdateQuestionInput)
| DeleteQuestion (id : Z)
| CreateAnswer (now : Z) (input : CreateAnswerInput)
| UpdateProgress (input : UpdateProgressInput)
| SubmitExam (now : Z) (input : SubmitExamInput).

(** The database after a call, whether it returns or throws. *)
Definition after (c : Call) (db : DB) : DB :=
  match c with
  | CreateUser now input => state_of (Users.createUser now input db)
  | UpdateUser input => state_of (Users.updateUser input db)
  | DeleteUser id => state_of (Users.deleteUser id db)
  | ResetUserPassword input => state_of (Users.resetUserPassword input db)
  | CreateExam now input => state_of (createExam now input db)
  | UpdateExam input => state_of (updateExam input db)
  | DeleteExam id => state_of (deleteExam id db)
  | CreateQuestion now input => state_of (createQuestion now input db)
  | UpdateQuestion input => state_of (updateQuestion input db)
  | DeleteQuestion id => state_of (deleteQuestion id db)
  | CreateAnswer now input => state_of (createAnswer now input db)
  | UpdateProgress input => state_of (updateProgress input db)
  | SubmitExam now input => state_of (submitExam now input db)
  end.

Definition after_all (calls : list Call) (db : DB) : DB :=
  fold_left (fun db c => after c db) calls db.

(** The ids of a table are distinct and below the next value of its
    sequence. *)
Definition keyed {R} (key : R -> Z) (rows : list R) (next : Z) : Prop :=
  NoDup (List.map key rows) /\ Forall (fun r => key r < next) rows.

(** What the schema and the handlers keep true of the database: primary
    keys, the unique email, the foreign keys, one answer per exam and user,
    and the order of the dates of an exam. *)
Record consistent (db : DB) : Prop := mkConsistent {
  users_keyed : keyed u_id (usersTable db) (users_seq db);
  exams_keyed : keyed e_id (examsTable db) (exams_seq db);
  questions_keyed : keyed q_id (questionsTable db) (questions_seq db);
  answers_keyed : keyed a_id (answersTable db) (answers_seq db);
  emails_distinct : NoDup (List.map u_email (usersTable db));
  foreign_keys : referential_integrity db;
  one_answer : one_answer_per_pair db;
  dates_ordered : exams_ordered db
}.

(** A submitted answer [a] and what is left of it later: the same score,
    flag, submission time, exam and user, and no answer that was not there. *)
Definition frozen (a a' : Answer) : Prop :=
  is_submitted a' = true
  /\ nilai a' = nilai a
  /\ waktu_submit a' = waktu_submit a
  /\ a_exam_id a' = a_exam_id a
  /\ a_user_id a' = a_user_id a
  /\ jawaban a' ⊆ jawaban a.

(** Every stored password is without a colon. *)
Definition passwords_unsplit (db : DB) : Prop :=
  forall u, In u (usersTable db) -> contains ":" (u_password u) = false.

(** Every question has four choices and one of the four symbols as key. *)
Definition questions_valid (db : DB) : Prop :=
  forall q, In q (questionsTable db) ->
            length (pilihan q) = 4%nat /\ is_choice (jawaban_benar q) = true.

(** The input schemas that the router puts before [createQuestion] and
    [updateQuestion]. *)
Definition accepted (c : Call) : bool :=
  match c with
  | CreateQuestion _ input => createQuestionInputSchema input
  | UpdateQuestion input => updateQuestionInputSchema input
  | _ => true
  end.

(** ** Calls that leave a table alone; rows of the reports *)

(** The handlers that do not write to the table of answers. *)
Definition leaves_answers (c : Call) : bool :=
  match c with
  | DeleteExam _ | DeleteQuestion _ | CreateAnswer _ _ | UpdateProgress _ | SubmitExam _ _ =>
      false
  | _ => true
  end.

(** One step of an answer row: it is as it was, or it was not submitted,
    or a key was pruned from it. *)
Definition row_step (a a' : Answer) : Prop :=
  a' = a \/ is_submitted a = false \/ exists id, a' = cleaned_row id a a.

(** Calls on the sample database after the submission. *)
Definition calls_on_sample : list Call :=
  [UpdateProgress (mkUpdateProgressInput 1 ∅);
   SubmitExam 1600 (mkSubmitExamInput 1 ∅);
   UpdateQuestion (mkUpdateQuestionInput 2 None None (Some "A"));
   DeleteQuestion 1].

(** The handlers that do not write to the table of exams. *)
Definition leaves_exams (c : Call) : bool :=
  match c with
  | CreateExam _ _ | UpdateExam _ | DeleteExam _ => false
  | _ => true
  end.

(** The handlers that do not write to the table of users. *)
Definition leaves_users (c : Call) : bool :=
  match c with
  | CreateUser _ _ | UpdateUser _ | DeleteUser _ | ResetUserPassword _ => false
  | _ => true
  end.

(** The handlers that do not add or change a question. *)
Definition leaves_questions (c : Call) : bool :=
  match c with
  | CreateQuestion _ _ | UpdateQuestion _ => false
  | _ => true
  end.

(** The row of the results that belongs to an answer: its columns, with
    those of the user and of the exam it refers to. *)
Definition result_of (db : DB) (a : Answer) (r : ExamResult) : Prop :=
  exists u e,
    In u (usersTable db) /\ In e (examsTable db)
    /\ u_id u = a_user_id a /\ e_id e = a_exam_id a
    /\ r = exam_result (a, u, e).

(** The results that the export reads: of one exam, or of all. *)
Definition report (examId : option Z) : M (list ExamResult) :=
  match examId with
  | Some id => getExamResults id
  | None => getAllExamResults
  end.

(** No field holds a line break. *)
Definition no_line_break (fields : list string) : Prop :=
  Forall (fun field => contains newline field = false) fields.

(** * Properties *)

(** Running a handler: unfold the monad. *)
Ltac run :=
  unfold bind, gets, ret, throw, modify, first_row, state_of, outcome in *; simpl in *.

(** ** Parameters of integer columns *)

Lemma fits_integer_int4 (n : Z) : fits_integer n = true <-> int4 n.
Proof. unfold fits_integer, int4. rewrite andb_true_iff, !Z.leb_le. reflexivity. Qed.

Lemma integer_param_fits (n : Z) (db : DB) :
  int4 n -> integer_param n db = (db, inr tt).
Proof. intros H. unfold integer_param. now rewrite (proj2 (fits_integer_int4 n) H). Qed.

(** A handler behind the check of its parameter. *)
Lemma integer_param_bind {A} (n : Z) (k : M A) (db : DB) :
  (integer_param n ;; k) db = if fits_integer n then k db else (db, inl OutOfRange).
Proof. unfold integer_param, bind. now destruct (fits_integer n). Qed.

(** Closing a decidable closed goal by evaluation. *)
Ltac by_decision :=
  match goal with |- ?P => apply (@bool_decide_unpack P _); vm_compute; exact I end.

(** ** Scoring *)

Lemma truthy_nonempty (s : string) : truthy s = true <-> s <> "".
Proof.
  unfold truthy. rewrite negb_true_iff.
  destruct (String.eqb_spec s ""); split; congruence.
Qed.

(** A key that is not in the answers is not counted. *)
Lemma answered_correctly_absent (userAnswers : gmap string string) (q : Question) :
  userAnswers !! toString (q_id q) = None -> answered_correctly userAnswers q = false.
Proof. intros H. unfold answered_correctly. now rewrite H. Qed.

(** With a key that is one of the four symbols (any non-empty key), a
    question counts exactly when the stored value is that key, character for
    character. *)
Lemma answered_correctly_iff (userAnswers : gmap string string) (q : Question) :
  jawaban_benar q <> "" ->
  answered_correctly userAnswers q = true <->
  userAnswers !! toString (q_id q) = Some (jawaban_benar q).
Proof.
  intros Hkey. unfold answered_correctly.
  destruct (userAnswers !! toString (q_id q)) as [v|]; [|split; discriminate].
  rewrite andb_true_iff, truthy_nonempty.
  destruct (String.eqb_spec v (jawaban_benar q)) as [->|Hne].
  - split; auto.
  - split; [intros [_ H]; discriminate | intros [= H]; contradiction].
Qed.

Lemma count_correct_from (userAnswers : gmap string string) (qs : list Question) (k : Z) :
  fold_left (fun correctAnswers question =>
               if answered_correctly userAnswers question
               then correctAnswers + 1 else correctAnswers) qs k
  = k + Z.of_nat (length (List.filter (answered_correctly userAnswers) qs)).
Proof.
  revert k. induction qs as [|q qs IH]; intros k; simpl; [lia|].
  rewrite IH. destruct (answered_correctly userAnswers q); simpl; lia.
Qed.

(** The loop counts the questions that pass the test. *)
Lemma count_correct_filter (userAnswers : gmap string string) (qs : list Question) :
  count_correct userAnswers qs
  = Z.of_nat (length (List.filter (answered_correctly userAnswers) qs)).
Proof. unfold count_correct. now rewrite count_correct_from. Qed.

Lemma count_correct_bounds (userAnswers : gmap string string) (qs : list Question) :
  0 <= count_correct userAnswers qs <= Z.of_nat (length qs).
Proof.
  rewrite count_correct_filter.
  pose proof (List.filter_length_le (answered_correctly userAnswers) qs). lia.
Qed.

(** An exam without questions scores 0, whatever the answers. *)
Lemma calculateScore_no_questions (examId : Z) (userAnswers : gmap string string) (db : DB) :
  questions_of_exam examId db = [] ->
  calculateScore examId userAnswers db = (db, inr 0).
Proof. intros H. unfold calculateScore. run. now rewrite H. Qed.

(** Scoring reads the database and throws nothing. *)
Lemma calculateScore_reads (examId : Z) (userAnswers : gmap string string) (db : DB) :
  exists score, calculateScore examId userAnswers db = (db, inr score).
Proof.
  unfold calculateScore. run.
  destruct (length (questions_of_exam examId db) =? 0)%nat; eauto.
Qed.

(** The binary64 product behind the score of 23 right out of 40: the quotient
    [23 / 40] is rounded down, and so is its product with [100]. *)
Example product_23_of_40 :
  PrimFloat.mul (PrimFloat.div (number 23) (number 40)) (number 100)
  = 0x1.cbfffffffffffp+5%float
  /\ PrimFloat.ltb 0x1.cbfffffffffffp+5 57.5 = true.
Proof. split; reflexivity. Qed.

(** C1 (the code departs from it): the score is to be
    [correctCount / totalQuestions * 100] rounded to the nearest integer, a
    half going up.  On an exam of 40 questions with 23 right, the exact
    percentage is 57.5 and rounds to 58, while [calculateScore] returns 57:
    the product is formed in binary64, where it falls just below 57.5. *)
Theorem calculateScore_23_of_40 :
  length (questions_of_exam 1 forty_db) = 40%nat
  /\ Z.of_nat (length (List.filter
        (fun q => bool_decide (twenty_three_right !! toString (q_id q) = Some (jawaban_benar q)))
        (questions_of_exam 1 forty_db))) = 23
  /\ round_half_up_percent 23 40 = 58
  /\ calculateScore 1 twenty_three_right forty_db = (forty_db, inr 57).
Proof. repeat split; vm_compute; reflexivity. Qed.

Lemma percentage_exact_below_40 (c n : Z) :
  0 <= c <= n -> 0 < n < 40 -> percentage c n = round_half_up_percent c n.
Proof.
  intros Hc Hn.
  assert (Hall : exact_below 40 = true) by (vm_compute; reflexivity).
  unfold exact_below in Hall. rewrite forallb_forall in Hall.
  assert (Hin : In n (seqZ 1 (40 - 1))) by (apply list_elem_of_In, elem_of_seqZ; lia).
  specialize (Hall n Hin). rewrite forallb_forall in Hall.
  apply Z.eqb_eq, Hall, list_elem_of_In, elem_of_seqZ. lia.
Qed.

Lemma round_half_up_percent_bounds (c n : Z) :
  0 <= c <= n -> 0 < n -> 0 <= round_half_up_percent c n <= 100.
Proof.
  intros Hc Hn. unfold round_half_up_percent. split.
  - apply Z.div_pos; lia.
  - enough ((200 * c + n) / (2 * n) < 101) by lia.
    apply Z.div_lt_upper_bound; lia.
Qed.

(** For an exam of fewer than forty questions [calculateScore] is the
    percentage of the questions that pass the test, a half rounded up, and
    lies between 0 and 100. *)
Lemma calculateScore_small_exam (examId : Z) (userAnswers : gmap string string) (db : DB) :
  let questions := questions_of_exam examId db in
  let correct := Z.of_nat (length (List.filter (answered_correctly userAnswers) questions)) in
  (0 < length questions < 40)%nat ->
  exists score,
    calculateScore examId userAnswers db = (db, inr score)
    /\ score = round_half_up_percent correct (Z.of_nat (length questions))
    /\ 0 <= score <= 100.
Proof.
  intros questions correct Hlen. unfold calculateScore. run. fold questions.
  destruct (Nat.eqb_spec (length questions) 0) as [H0|_]; [lia|].
  pose proof (count_correct_bounds userAnswers questions) as Hb.
  rewrite count_correct_filter in *. fold correct in Hb |- *.
  eexists; split; [reflexivity|].
  rewrite percentage_exact_below_40 by lia.
  split; [reflexivity | apply round_half_up_percent_bounds; lia].
Qed.

(** ** Tables *)

Section Tables.

Context {R : Type} (p : R -> bool) (f : R -> R).

(** The update keeps the rows it selects selected. *)
Hypothesis keeps : forall r, p (f r) = p r.

Lemma select_update_where (rows : list R) :
  select_where p (update_where p f rows) = List.map f (select_where p rows).
Proof.
  unfold select_where, update_where.
  induction rows as [|r rows IH]; simpl; [reflexivity|].
  destruct (p r) eqn:E; simpl.
  - rewrite keeps, E. simpl. now rewrite IH.
  - now rewrite E.
Qed.

Lemma select_others_update_where (rows : list R) :
  select_where (fun r => negb (p r)) (update_where p f rows)
  = select_where (fun r => negb (p r)) rows.
Proof.
  unfold select_where, update_where.
  induction rows as [|r rows IH]; simpl; [reflexivity|].
  destruct (p r) eqn:E; simpl.
  - rewrite keeps, E. simpl. exact IH.
  - rewrite E. simpl. now rewrite IH.
Qed.

End Tables.

(** ** Submission *)

(** C2: for an answer that exists and is not submitted, [submitExam] stores
    and returns the row with the answers set to the final answers, the score
    set to the result of [calculateScore] on the exam of the answer and the
    final answers, the submitted flag set and the submission time set to the
    current time, in one update; the other columns of the row, the other
    answers and the other tables stay as they were. *)
Theorem submitExam_updates (now : Z) (input : SubmitExamInput) (db : DB) (existing : Answer) :
  find_answer (sei_id input) db = Some existing ->
  is_submitted existing = false ->
  exists score answer db',
    calculateScore (a_exam_id existing) (sei_jawaban input) db = (db, inr score)
    /\ submitExam now input db = (db', inr answer)
    /\ jawaban answer = sei_jawaban input
    /\ nilai answer = score
    /\ is_submitted answer = true
    /\ waktu_submit answer = now
    /\ (a_id answer, a_exam_id answer, a_user_id answer, progress_jawaban answer,
        a_created_at answer)
       = (a_id existing, a_exam_id existing, a_user_id existing, progress_jawaban existing,
          a_created_at existing)
    /\ find_answer (sei_id input) db' = Some answer
    /\ other_answers (sei_id input) db' = other_answers (sei_id input) db
    /\ (usersTable db', examsTable db', questionsTable db')
       = (usersTable db, examsTable db, questionsTable db).
Proof.
  intros Hfind Hflag.
  destruct (calculateScore_reads (a_exam_id existing) (sei_jawaban input) db) as [score Hscore].
  unfold find_answer in Hfind.
  destruct (select_where (fun a => a_id a =? sei_id input) (answersTable db))
    as [|first rest] eqn:Hsel; [discriminate|].
  injection Hfind as ->.
  exists score, (submitted_row (sei_jawaban input) score now existing).
  eexists. split; [exact Hscore|].
  unfold submitExam, update_answers. run. rewrite Hsel, Hflag, Hscore. simpl.
  rewrite Hsel. simpl. split; [reflexivity|].
  repeat (split; [reflexivity|]).
  unfold find_answer, other_answers, set_answers. simpl.
  rewrite select_update_where by reflexivity.
  rewrite select_others_update_where by reflexivity.
  rewrite Hsel. simpl. repeat split.
Qed.

Lemma submitExam_updates_witness :
  find_answer (sei_id sample_submission) sample_db = Some sample_answer
  /\ is_submitted sample_answer = false
  /\ exists score answer db',
       calculateScore (a_exam_id sample_answer) (sei_jawaban sample_submission) sample_db
       = (sample_db, inr score)
       /\ submitExam 1500 sample_submission sample_db = (db', inr answer)
       /\ jawaban answer = sei_jawaban sample_submission
       /\ nilai answer = score
       /\ is_submitted answer = true
       /\ waktu_submit answer = 1500
       /\ (a_id answer, a_exam_id answer, a_user_id answer, progress_jawaban answer,
           a_created_at answer)
          = (a_id sample_answer, a_exam_id sample_answer, a_user_id sample_answer,
             progress_jawaban sample_answer, a_created_at sample_answer)
       /\ find_answer (sei_id sample_submission) db' = Some answer
       /\ other_answers (sei_id sample_submission) db'
          = other_answers (sei_id sample_submission) sample_db
       /\ (usersTable db', examsTable db', questionsTable db')
          = (usersTable sample_db, examsTable sample_db, questionsTable sample_db).
Proof.
  split; [reflexivity|]. split; [reflexivity|].
  apply (submitExam_updates 1500 sample_submission sample_db sample_answer); reflexivity.
Defined.

(** The scenario of the specification: two questions with the keys [C] and
    [C]; both right scores 100, one right or one missing scores 50. *)
Example sample_scores :
  calculateScore 1 {["1" := "C"; "2" := "C"]} sample_db = (sample_db, inr 100)
  /\ calculateScore 1 {["1" := "C"; "2" := "A"]} sample_db = (sample_db, inr 50)
  /\ calculateScore 1 {["1" := "C"]} sample_db = (sample_db, inr 50)
  /\ submitExam 1500 (mkSubmitExamInput 1 {["1" := "C"; "2" := "A"]}) sample_db
     = (sample_db_submitted, inr sample_submitted).
Proof. repeat split; vm_compute; reflexivity. Qed.

(** C3: once an answer is submitted, [updateProgress] on its id fails with
    "Cannot update progress for submitted exam" and [submitExam] on its id
    fails with "Exam has already been submitted"; both leave the database,
    and so the stored answers, score, flag and progress, as they were. *)
Theorem submitted_answer_rejects_writes
    (now : Z) (progress final : gmap string string) (db : DB) (id : Z) (existing : Answer) :
  find_answer id db = Some existing ->
  is_submitted existing = true ->
  updateProgress (mkUpdateProgressInput id progress) db = (db, inl ProgressAfterSubmit)
  /\ submitExam now (mkSubmitExamInput id final) db = (db, inl AlreadySubmitted).
Proof.
  intros Hfind Hflag. unfold find_answer in Hfind.
  unfold updateProgress, submitExam. run.
  destruct (select_where (fun a => a_id a =? id) (answersTable db)) as [|first rest];
    [discriminate|].
  injection Hfind as ->. rewrite Hflag. split; reflexivity.
Qed.

Lemma submitted_answer_rejects_writes_witness :
  updateProgress (mkUpdateProgressInput 1 {["2" := "B"]}) sample_db_submitted
  = (sample_db_submitted, inl ProgressAfterSubmit)
  /\ submitExam 1600 (mkSubmitExamInput 1 {["1" := "C"; "2" := "C"]}) sample_db_submitted
     = (sample_db_submitted, inl AlreadySubmitted).
Proof.
  apply (submitted_answer_rejects_writes 1600 {["2" := "B"]} {["1" := "C"; "2" := "C"]}
           sample_db_submitted 1 sample_submitted); reflexivity.
Defined.

(** A submission that succeeds leaves the answer submitted, so the writes
    that follow it are the rejected ones. *)
Lemma submitExam_then_rejected
    (now later : Z) (input : SubmitExamInput) (progress final : gmap string string)
    (db db' : DB) (answer : Answer) :
  submitExam now input db = (db', inr answer) ->
  updateProgress (mkUpdateProgressInput (sei_id input) progress) db'
  = (db', inl ProgressAfterSubmit)
  /\ submitExam later (mkSubmitExamInput (sei_id input) final) db'
     = (db', inl AlreadySubmitted).
Proof.
  intros Hrun. revert Hrun. unfold submitExam at 1, update_answers. run.
  destruct (select_where (fun a => a_id a =? sei_id input) (answersTable db))
    as [|existing rest] eqn:Hsel; [discriminate|].
  destruct (is_submitted existing) eqn:Hflag; [discriminate|].
  destruct (calculateScore_reads (a_exam_id existing) (sei_jawaban input) db) as [score Hs].
  rewrite Hs. simpl. rewrite Hsel. simpl. intros [= <- <-].
  unfold updateProgress, submitExam. run.
  rewrite select_update_where by reflexivity. rewrite Hsel. simpl. split; reflexivity.
Qed.

(** ** Creation of answers *)

Lemma select_where_nil {R} (p : R -> bool) (rows : list R) :
  select_where p rows = [] <-> forall r, In r rows -> p r = false.
Proof.
  unfold select_where. induction rows as [|r rows IH]; simpl.
  - split; [intros _ ? [] | reflexivity].
  - destruct (p r) eqn:E.
    + split; [discriminate | intros H; specialize (H r (or_introl eq_refl)); congruence].
    + rewrite IH. split.
      * intros H x [<-|Hx]; auto.
      * intros H x Hx. apply H. now right.
Qed.

Lemma select_where_nonempty {R} (p : R -> bool) (rows : list R) :
  select_where p rows <> [] <-> exists r, In r rows /\ p r = true.
Proof.
  split.
  - intros H. destruct (select_where p rows) as [|r rest] eqn:E; [congruence|].
    exists r. apply filter_In. unfold select_where in E. rewrite E. now left.
  - intros Hex E. rewrite select_where_nil in E.
    destruct Hex as (r & Hin & Hp). specialize (E r Hin). congruence.
Qed.

Lemma has_answer_select (examId userId : Z) (db : DB) :
  has_answer examId userId db <->
  select_where (answer_of examId userId) (answersTable db) <> [].
Proof.
  rewrite select_where_nonempty. unfold has_answer, answer_of.
  split; intros (a & Hin & H); exists a; (split; [exact Hin|]).
  - destruct H as [<- <-]. now rewrite !Z.eqb_refl.
  - apply andb_true_iff in H. lia.
Qed.

Lemma has_user_select (userId : Z) (db : DB) :
  has_user userId db <->
  select_where (fun u => Z.eqb (u_id u) userId) (usersTable db) <> [].
Proof.
  rewrite select_where_nonempty. unfold has_user.
  split; intros (u & Hin & H); exists u; (split; [exact Hin|lia]).
Qed.

Lemma has_exam_select (examId : Z) (db : DB) :
  has_exam examId db <->
  select_where (fun e => Z.eqb (e_id e) examId) (examsTable db) <> [].
Proof.
  rewrite select_where_nonempty. unfold has_exam.
  split; intros (e & Hin & H); exists e; (split; [exact Hin|lia]).
Qed.

(** The check of the two parameters, then the three guards of
    [createAnswer], in the order the handler tries them, and the insertion
    behind them. *)
Lemma createAnswer_run (now : Z) (input : CreateAnswerInput) (db : DB) :
  createAnswer now input db =
    if fits_integer (cai_user_id input) && fits_integer (cai_exam_id input) then
      match select_where (answer_of (cai_exam_id input) (cai_user_id input)) (answersTable db),
            select_where (fun u => Z.eqb (u_id u) (cai_user_id input)) (usersTable db),
            select_where (fun e => Z.eqb (e_id e) (cai_exam_id input)) (examsTable db) with
      | _ :: _, _, _ => (db, inl AnswerExists)
      | [], [], _ => (db, inl UserNotFound)
      | [], _ :: _, [] => (db, inl ExamNotFound)
      | [], _ :: _, _ :: _ =>
          let row := created_row now input (answers_seq db) in
          (mkDB (usersTable db) (examsTable db) (questionsTable db) (answersTable db ++ [row])
                (users_seq db) (exams_seq db) (questions_seq db) (answers_seq db + 1),
           inr row)
      end
    else (db, inl OutOfRange).
Proof.
  unfold createAnswer. rewrite integer_param_bind.
  destruct (fits_integer (cai_user_id input)); [|reflexivity].
  rewrite integer_param_bind.
  destruct (fits_integer (cai_exam_id input)); [|reflexivity].
  unfold insert_answer, created_row. run.
  destruct (select_where _ (answersTable db)); simpl; [|reflexivity].
  destruct (select_where _ (usersTable db)); simpl; [reflexivity|].
  destruct (select_where _ (examsTable db)); simpl; [reflexivity|].
  now rewrite orb_false_r.
Qed.

(** A call of [createAnswer] keeps at most one answer per exam and user. *)
Lemma createAnswer_keeps_one (now : Z) (input : CreateAnswerInput) (db : DB) :
  one_answer_per_pair db -> one_answer_per_pair (state_of (createAnswer now input db)).
Proof.
  intros Hone. rewrite createAnswer_run.
  destruct (fits_integer _ && fits_integer _); [|exact Hone].
  destruct (select_where _ (answersTable db)) eqn:Ha; [|exact Hone].
  destruct (select_where _ (usersTable db)); [exact Hone|].
  destruct (select_where _ (examsTable db)); [exact Hone|].
  unfold one_answer_per_pair, state_of. simpl.
  rewrite map_app. simpl. apply NoDup_app. split; [exact Hone|]. split.
  - intros pair Hin Hnew. apply list_elem_of_In in Hin, Hnew.
    destruct Hnew as [<-|[]]. apply in_map_iff in Hin as (a & [= He Hu] & Hin).
    rewrite select_where_nil in Ha. specialize (Ha a Hin).
    unfold answer_of in Ha. rewrite He, Hu, !Z.eqb_refl in Ha. discriminate.
  - apply NoDup_singleton.
Qed.

Lemma create_all_keeps_one (calls : list (Z * CreateAnswerInput)) (db : DB) :
  one_answer_per_pair db -> one_answer_per_pair (create_all calls db).
Proof.
  revert db. induction calls as [|[now input] calls IH]; intros db Hone; simpl; [exact Hone|].
  apply IH, createAnswer_keeps_one, Hone.
Qed.

(** An id that does not fit an integer column: the database rejects the
    first query of [createAnswer], whatever the tables hold. *)
Lemma createAnswer_out_of_range (now : Z) (input : CreateAnswerInput) (db : DB) :
  ~ int4 (cai_exam_id input) \/ ~ int4 (cai_user_id input) ->
  createAnswer now input db = (db, inl OutOfRange).
Proof.
  intros Hout. rewrite createAnswer_run.
  destruct (fits_integer (cai_user_id input)) eqn:Hu,
           (fits_integer (cai_exam_id input)) eqn:He; try reflexivity.
  apply fits_integer_int4 in Hu, He. tauto.
Qed.

(** C4 (as the claim has it, refuted): the user exists, no exam has the id
    2147483648 and no answer is there, and [createAnswer] does not fail with
    "Exam not found": the database rejects the id, which does not fit an
    integer column, and the handler rethrows that error. *)
Lemma createAnswer_far_exam :
  has_user (cai_user_id far_attempt) fresh_db
  /\ ~ has_exam (cai_exam_id far_attempt) fresh_db
  /\ ~ has_answer (cai_exam_id far_attempt) (cai_user_id far_attempt) fresh_db
  /\ createAnswer 0 far_attempt fresh_db = (fresh_db, inl OutOfRange)
  /\ OutOfRange <> ExamNotFound.
Proof.
  split; [exists sample_user; simpl; auto|].
  split; [intros (e & [<-|[]] & He); discriminate|].
  split; [intros (a & [] & _)|].
  split; [reflexivity | discriminate].
Qed.

(** C4 (amended): [createAnswer], for ids that fit an integer column.  It
    fails with "Exam not found" if no exam with the id exists, with
    "User not found" if no user with the id exists, and with
    "Answer record already exists for this user and exam" if an answer for
    the exam and the user exists: a call that misses any of the three
    preconditions fails with the error of a precondition it misses.  When it
    misses several, the duplicate is reported before the user and the user
    before the exam.  Otherwise it returns a new answer with score 0 whose
    submitted flag is the one the caller passes (false by default).  A call
    that fails leaves the database as it was, and at most one answer per
    exam and user exists after any sequence of calls, whatever their ids. *)
Theorem createAnswer_guards (now : Z) (input : CreateAnswerInput) (db : DB) :
  let examId := cai_exam_id input in
  let userId := cai_user_id input in
  int4 examId -> int4 userId ->
  (has_answer examId userId db -> createAnswer now input db = (db, inl AnswerExists))
  /\ (~ has_answer examId userId db -> ~ has_user userId db ->
      createAnswer now input db = (db, inl UserNotFound))
  /\ (~ has_answer examId userId db -> has_user userId db -> ~ has_exam examId db ->
      createAnswer now input db = (db, inl ExamNotFound))
  /\ (~ has_exam examId db \/ ~ has_user userId db \/ has_answer examId userId db ->
      createAnswer now input db = (db, inl ExamNotFound) /\ ~ has_exam examId db
      \/ createAnswer now input db = (db, inl UserNotFound) /\ ~ has_user userId db
      \/ createAnswer now input db = (db, inl AnswerExists) /\ has_answer examId userId db)
  /\ (~ has_answer examId userId db -> has_user userId db -> has_exam examId db ->
      exists answer db',
        createAnswer now input db = (db', inr answer)
        /\ nilai answer = 0
        /\ is_submitted answer = cai_is_submitted input
        /\ (a_exam_id answer, a_user_id answer, jawaban answer, progress_jawaban answer)
           = (examId, userId, cai_jawaban input, cai_progress_jawaban input)
        /\ Permutation (answersTable db') (answer :: answersTable db)
        /\ (usersTable db', examsTable db', questionsTable db')
           = (usersTable db, examsTable db, questionsTable db))
  /\ (forall calls, one_answer_per_pair db -> one_answer_per_pair (create_all calls db)).
Proof.
  intros examId userId Hexam Huser. subst examId userId.
  rewrite has_answer_select, has_user_select, has_exam_select, createAnswer_run.
  rewrite (proj2 (fits_integer_int4 _) Hexam), (proj2 (fits_integer_int4 _) Huser).
  cbn [andb].
  destruct (select_where _ (answersTable db)) as [|a la];
    destruct (select_where _ (usersTable db)) as [|u lu];
    destruct (select_where _ (examsTable db)) as [|e le];
    repeat split; intros;
    try (now apply create_all_keeps_one);
    try reflexivity;
    try (exfalso;
         match goal with
         | H : [] <> [] |- _ => now apply H
         | H : ~ (_ :: _ <> []) |- _ => now apply H
         end).
  all: try (eexists; eexists; repeat split; symmetry; apply Permutation_cons_append).
  all: try (right; right; split; [reflexivity | discriminate]).
  all: try (right; left; split; [reflexivity | intros Hne; now apply Hne]).
  all: try (left; split; [reflexivity | intros Hne; now apply Hne]).
  all: exfalso;
    repeat match goal with
           | H : _ \/ _ |- _ => destruct H
           | H : ~ (_ :: _ <> []) |- _ => apply H; discriminate
           | H : [] <> [] |- _ => now apply H
           end.
Qed.

Lemma createAnswer_guards_witness :
  createAnswer 0 first_attempt sample_db = (sample_db, inl AnswerExists)
  /\ createAnswer 0 first_attempt empty_db = (empty_db, inl UserNotFound)
  /\ createAnswer 0 first_attempt users_only_db = (users_only_db, inl ExamNotFound)
  /\ (exists answer db',
        createAnswer 0 first_attempt fresh_db = (db', inr answer)
        /\ nilai answer = 0
        /\ is_submitted answer = cai_is_submitted first_attempt
        /\ (a_exam_id answer, a_user_id answer, jawaban answer, progress_jawaban answer)
           = (cai_exam_id first_attempt, cai_user_id first_attempt,
              cai_jawaban first_attempt, cai_progress_jawaban first_attempt)
        /\ Permutation (answersTable db') (answer :: answersTable fresh_db)
        /\ (usersTable db', examsTable db', questionsTable db')
           = (usersTable fresh_db, examsTable fresh_db, questionsTable fresh_db))
  /\ one_answer_per_pair (create_all [(0, first_attempt); (5, first_attempt)] fresh_db).
Proof.
  assert (Hu : has_user 1 sample_db) by (exists sample_user; simpl; auto).
  assert (He : has_exam 1 sample_db) by (exists sample_exam; simpl; auto).
  assert (Hexam : int4 (cai_exam_id first_attempt)) by (unfold int4; simpl; lia).
  assert (Huser : int4 (cai_user_id first_attempt)) by (unfold int4; simpl; lia).
  split; [|split; [|split; [|split]]].
  - apply (createAnswer_guards 0 first_attempt sample_db Hexam Huser).
    exists sample_answer. simpl. auto.
  - apply (createAnswer_guards 0 first_attempt empty_db Hexam Huser).
    + intros (a & [] & _).
    + intros (u & [] & _).
  - apply (createAnswer_guards 0 first_attempt users_only_db Hexam Huser).
    + intros (a & [] & _).
    + exact Hu.
    + intros (e & [] & _).
  - apply (createAnswer_guards 0 first_attempt fresh_db Hexam Huser).
    + intros (a & [] & _).
    + exact Hu.
    + exact He.
  - apply (createAnswer_guards 0 first_attempt fresh_db Hexam Huser). constructor.
Defined.

(** ** Deletion of a question *)

Lemma delete_if_truthy_other (key k : string) (obj : gmap string string) :
  k <> key -> delete_if_truthy key obj !! k = obj !! k.
Proof.
  intros Hne. unfold delete_if_truthy.
  destruct (obj !! key) as [v|]; [|reflexivity].
  destruct (truthy v); [|reflexivity]. now apply lookup_delete_ne.
Qed.

Lemma delete_if_truthy_nonempty (key v : string) (obj : gmap string string) :
  obj !! key = Some v -> v <> "" -> delete_if_truthy key obj !! key = None.
Proof.
  intros Hv Hne. unfold delete_if_truthy. rewrite Hv.
  apply truthy_nonempty in Hne. rewrite Hne. apply lookup_delete_eq.
Qed.

Lemma delete_if_truthy_empty (key : string) (obj : gmap string string) :
  obj !! key = Some "" -> delete_if_truthy key obj = obj.
Proof. intros Hv. unfold delete_if_truthy. now rewrite Hv. Qed.

(** C5 (the code departs from it): deleting a question is to remove its id
    from the answers and the progress of every answer of its exam, whatever
    the stored value.  [deleteQuestion 1] on an answer that stores the empty
    string under ["1"] in both maps deletes the question and leaves the
    answer row as it was, the key still in both maps. *)
Theorem deleteQuestion_keeps_blank_value :
  exists db',
    deleteQuestion 1 blank_db = (db', inr tt)
    /\ questionsTable db' = [mkQuestion 2 1 "Soal 2" ["a"; "b"; "c"; "d"] "C" 0]
    /\ answersTable db' = [blank_answer]
    /\ jawaban blank_answer !! toString 1 = Some ""
    /\ progress_jawaban blank_answer ≫= (fun progress => progress !! toString 1) = Some "".
Proof. eexists. repeat split; vm_compute; reflexivity. Qed.

Lemma set_answers_id (db : DB) : set_answers (List.map (fun r => r)) db = db.
Proof. destruct db. unfold set_answers. simpl. now rewrite List.map_id. Qed.

Lemma set_answers_twice (f g : list Answer -> list Answer) (db : DB) :
  set_answers g (set_answers f db) = set_answers (fun rows => g (f rows)) db.
Proof. reflexivity. Qed.

(** The loop rewrites each row of the table by the statements in turn. *)
Lemma for_each_clean (id : Z) (todo : list Answer) (db : DB) :
  for_each todo (fun answer =>
    update_answers (fun a => Z.eqb (a_id a) (a_id answer)) (cleaned_row id answer) ;;
    ret tt) db
  = (set_answers (List.map (fun r => fold_left (clean_step id) todo r)) db, inr tt).
Proof.
  revert db. induction todo as [|answer todo IH]; intros db; simpl.
  - unfold ret. now rewrite set_answers_id.
  - unfold bind at 1. unfold bind at 1. unfold update_answers at 1, ret at 1.
    rewrite IH, set_answers_twice. unfold set_answers, update_where. simpl.
    now rewrite List.map_map.
Qed.

(** A column without duplicates identifies the row. *)
Lemma key_injective {R} (key : R -> Z) (rows : list R) (x y : R) :
  NoDup (List.map key rows) -> In x rows -> In y rows -> key x = key y -> x = y.
Proof.
  induction rows as [|r rows IH]; simpl; [intros _ []|].
  intros Hnd Hx Hy Hid. apply NoDup_cons in Hnd as [Hnotin Hnd].
  rewrite list_elem_of_In in Hnotin.
  destruct Hx as [->|Hx], Hy as [->|Hy]; auto.
  - exfalso. apply Hnotin. rewrite Hid. now apply in_map.
  - exfalso. apply Hnotin. rewrite <- Hid. now apply in_map.
Qed.

Lemma fold_clean_step (id : Z) (todo : list Answer) (r : Answer) :
  (forall x, In x todo -> a_id x = a_id r -> x = r) ->
  fold_left (clean_step id) todo r
  = (if existsb (fun x => Z.eqb (a_id x) (a_id r)) todo then cleaned_row id r r else r)
  /\ fold_left (clean_step id) todo (cleaned_row id r r) = cleaned_row id r r.
Proof.
  induction todo as [|x todo IH]; intros Hsame; simpl; [split; reflexivity|].
  destruct IH as [IH1 IH2]; [intros y Hy; apply Hsame; now right|].
  unfold clean_step at 2 4. simpl.
  rewrite (Z.eqb_sym (a_id x) (a_id r)).
  destruct (Z.eqb_spec (a_id r) (a_id x)) as [Heq|Hne]; simpl.
  - rewrite (Hsame x (or_introl eq_refl) (eq_sym Heq)).
    change (cleaned_row id r (cleaned_row id r r)) with (cleaned_row id r r).
    split; exact IH2.
  - split; [exact IH1 | exact IH2].
Qed.

(** What [deleteQuestion] leaves behind, when the answer ids are distinct
    (they are the primary key): the question is gone, and in every answer of
    its exam the key of the question is deleted from each of the two maps
    unless its value there is the empty string; the other keys, the score,
    the submitted flag and every other column and row are untouched. *)
Lemma deleteQuestion_run (id : Z) (db : DB) (existing : Question) :
  NoDup (List.map a_id (answersTable db)) ->
  head (select_where (fun q => Z.eqb (q_id q) id) (questionsTable db)) = Some existing ->
  deleteQuestion id db
  = (mkDB (usersTable db) (examsTable db)
          (delete_where (fun q => Z.eqb (q_id q) id) (questionsTable db))
          (List.map (fun a => if Z.eqb (a_exam_id a) (q_exam_id existing)
                              then cleaned_row id a a else a)
                    (answersTable db))
          (users_seq db) (exams_seq db) (questions_seq db) (answers_seq db),
     inr tt).
Proof.
  intros Hnd Hq. unfold deleteQuestion, getQuestionById.
  unfold bind at 1. unfold bind at 1. unfold gets at 1.
  destruct (select_where (fun q => Z.eqb (q_id q) id) (questionsTable db))
    as [|q qs]; [discriminate|].
  injection Hq as ->. unfold ret at 1.
  unfold bind at 1. unfold gets at 1. unfold bind at 1.
  rewrite for_each_clean. unfold modify, set_questions, set_answers. simpl.
  f_equal. f_equal. apply map_ext_in. intros r Hr.
  set (p := fun a => Z.eqb (a_exam_id a) (q_exam_id existing)).
  destruct (fold_clean_step id (select_where p (answersTable db)) r) as [-> _].
  { intros x Hx Hid. apply filter_In in Hx as [Hx _].
    exact (key_injective a_id _ _ _ Hnd Hx Hr Hid). }
  change (Z.eqb (a_exam_id r) (q_exam_id existing)) with (p r).
  destruct (p r) eqn:Hp.
  - replace (existsb _ _) with true; [reflexivity|].
    symmetry. apply existsb_exists. exists r. split; [|apply Z.eqb_refl].
    apply filter_In. auto.
  - replace (existsb _ _) with false; [reflexivity|].
    symmetry. apply not_true_is_false. intros Hex.
    apply existsb_exists in Hex as (x & Hx & Hid).
    apply filter_In in Hx as [Hx Hpx]. apply Z.eqb_eq in Hid.
    rewrite (key_injective a_id _ _ _ Hnd Hx Hr Hid) in Hpx. congruence.
Qed.

(** ** Deletion of an exam *)

Lemma In_delete_where {R} (p : R -> bool) (rows : list R) (r : R) :
  In r (delete_where p rows) <-> In r rows /\ p r = false.
Proof. unfold delete_where. rewrite filter_In, negb_true_iff. reflexivity. Qed.

Lemma delete_where_none {R} (p : R -> bool) (rows : list R) :
  (forall r, In r rows -> p r = false) -> delete_where p rows = rows.
Proof.
  intros H. unfold delete_where. induction rows as [|r rows IH]; simpl; [reflexivity|].
  rewrite (H r (or_introl eq_refl)). simpl. f_equal. apply IH.
  intros x Hx. apply H. now right.
Qed.

Lemma select_others_delete_where {R} (p : R -> bool) (rows : list R) :
  select_where (fun r => negb (p r)) (delete_where p rows)
  = select_where (fun r => negb (p r)) rows.
Proof.
  unfold select_where, delete_where.
  induction rows as [|r rows IH]; simpl; [reflexivity|].
  destruct (p r) eqn:E; simpl; [exact IH|]. rewrite E. simpl. now rewrite IH.
Qed.

(** The database after the three statements and what [deleteExam] returns. *)
Lemma existsb_none {A} (p : A -> bool) (l : list A) :
  (forall x, In x l -> p x = false) -> existsb p l = false.
Proof.
  intros H. induction l as [|x l IH]; [reflexivity|]. simpl.
  rewrite (H x (or_introl eq_refl)). apply IH. intros y Hy. apply H. now right.
Qed.

(** Once the rows that refer to the exam are deleted, no row of the table
    refers to an exam row with that id. *)
Lemma no_reference_left {R} (key : R -> Z) (id : Z) (rows : list R) (exams : list Exam) :
  existsb (fun r => existsb (fun e => Z.eqb (key r) (e_id e))
                            (select_where (fun e => Z.eqb (e_id e) id) exams))
          (delete_where (fun r => Z.eqb (key r) id) rows)
  = false.
Proof.
  apply existsb_none. intros r Hr. apply In_delete_where in Hr as [_ Hr].
  apply existsb_none. intros e He. apply filter_In in He as [_ He]. lia.
Qed.

Lemma deleteExam_run (id : Z) (db : DB) :
  deleteExam id db
  = if fits_integer id then
      (mkDB (usersTable db)
            (delete_where (fun e => Z.eqb (e_id e) id) (examsTable db))
            (delete_where (fun q => Z.eqb (q_exam_id q) id) (questionsTable db))
            (delete_where (fun a => Z.eqb (a_exam_id a) id) (answersTable db))
            (users_seq db) (exams_seq db) (questions_seq db) (answers_seq db),
       match select_where (fun e => Z.eqb (e_id e) id) (examsTable db) with
       | [] => inl ExamNotFound
       | _ :: _ => inr tt
       end)
    else (db, inl OutOfRange).
Proof.
  unfold deleteExam. rewrite integer_param_bind.
  destruct (fits_integer id); [|reflexivity].
  unfold delete_answers_of, delete_questions_of, delete_exam_returning.
  run. rewrite !no_reference_left. unfold set_exams. simpl.
  destruct (select_where (fun e => Z.eqb (e_id e) id) (examsTable db)); reflexivity.
Qed.

Lemma has_exam_after_delete (id other : Z) (db : DB) (users : list User)
    (qs : list Question) (ans : list Answer) (s1 s2 s3 s4 : Z) :
  has_exam other db -> other <> id ->
  has_exam other
    (mkDB users (delete_where (fun e => Z.eqb (e_id e) id) (examsTable db)) qs ans s1 s2 s3 s4).
Proof.
  intros (e & Hin & He) Hne. exists e. split; [|exact He]. simpl.
  apply In_delete_where. split; [exact Hin | lia].
Qed.

(** The exam row cannot go first: while a question or an answer refers to
    the exam, the database rejects the deletion of its row. *)
Lemma delete_exam_rejected (id : Z) (db : DB) :
  has_exam id db ->
  (exists q, In q (questionsTable db) /\ q_exam_id q = id)
  \/ (exists a, In a (answersTable db) /\ a_exam_id a = id) ->
  delete_exam_returning id db = (db, inl ExamHasQuestions)
  \/ delete_exam_returning id db = (db, inl ExamHasAnswers).
Proof.
  intros (e & He & Hid) Hrefers. unfold delete_exam_returning.
  assert (Hgone : In e (select_where (fun e => Z.eqb (e_id e) id) (examsTable db)))
    by (apply filter_In; split; [exact He | lia]).
  destruct (existsb _ (questionsTable db)) eqn:Hq; [now left|]. right.
  assert (Ha : existsb (fun a => existsb (fun e => Z.eqb (a_exam_id a) (e_id e))
                 (select_where (fun e => Z.eqb (e_id e) id) (examsTable db)))
                 (answersTable db) = true).
  { destruct Hrefers as [(q & Hin & Hqid)|(a & Hin & Haid)].
    - assert (Hyes : existsb (fun q => existsb (fun e => Z.eqb (q_exam_id q) (e_id e))
                       (select_where (fun e => Z.eqb (e_id e) id) (examsTable db)))
                       (questionsTable db) = true).
      { apply existsb_exists. exists q. split; [exact Hin|].
        apply existsb_exists. exists e. split; [exact Hgone | lia]. }
      congruence.
    - apply existsb_exists. exists a. split; [exact Hin|].
      apply existsb_exists. exists e. split; [exact Hgone | lia]. }
  now rewrite Ha.
Qed.

(** After the first two statements of [deleteExam] the third is accepted. *)
Lemma delete_exam_accepted (id : Z) (db : DB) :
  delete_exam_returning id
    (state_of (delete_questions_of id (state_of (delete_answers_of id db))))
  = (mkDB (usersTable db)
          (delete_where (fun e => Z.eqb (e_id e) id) (examsTable db))
          (delete_where (fun q => Z.eqb (q_exam_id q) id) (questionsTable db))
          (delete_where (fun a => Z.eqb (a_exam_id a) id) (answersTable db))
          (users_seq db) (exams_seq db) (questions_seq db) (answers_seq db),
     inr (select_where (fun e => Z.eqb (e_id e) id) (examsTable db))).
Proof.
  unfold delete_exam_returning, delete_questions_of, delete_answers_of. run.
  now rewrite !no_reference_left.
Qed.

(** An id that does not fit an integer column: the database rejects the
    first statement of [deleteExam], and nothing is deleted. *)
Lemma deleteExam_out_of_range (id : Z) (db : DB) :
  ~ int4 id -> deleteExam id db = (db, inl OutOfRange).
Proof.
  intros Hout. rewrite deleteExam_run.
  destruct (fits_integer id) eqn:Hfits; [|reflexivity].
  now apply fits_integer_int4 in Hfits.
Qed.

(** C6 (as the claim has it, refuted): no exam has the id 2147483648, and
    [deleteExam] does not fail with "Exam not found": the database rejects
    the id, which does not fit an integer column, and the handler rethrows
    that error. *)
Lemma deleteExam_far_id :
  ~ has_exam 2147483648 sample_db
  /\ deleteExam 2147483648 sample_db = (sample_db, inl OutOfRange)
  /\ OutOfRange <> ExamNotFound.
Proof.
  split; [intros (e & [<-|[]] & He); discriminate|].
  split; [reflexivity | discriminate].
Qed.

(** C6 (amended): [deleteExam], for an id that fits an integer column,
    deletes the answers of the exam, then its questions, then the exam row.
    For an exam that exists it succeeds, with or without dependent rows, and
    no row of the three tables refers to the exam afterwards, the rows of
    the other exams being kept.  For an id that no exam has it fails with
    "Exam not found" and changes nothing.  In a database that respects the
    foreign keys, so does the database after each of the three statements.
    The exam row has to go last: while a question or an answer refers to the
    exam, the database rejects the statement that deletes the exam row, and
    changes nothing. *)
Theorem deleteExam_cascade (id : Z) (db : DB) :
  int4 id ->
  (has_exam id db ->
   exists db',
     deleteExam id db = (db', inr tt)
     /\ no_rows_of id db'
     /\ same_other_exams id db db')
  /\ (~ has_exam id db -> referential_integrity db ->
      deleteExam id db = (db, inl ExamNotFound))
  /\ (referential_integrity db ->
      let db1 := state_of (delete_answers_of id db) in
      let db2 := state_of (delete_questions_of id db1) in
      let db3 := state_of (delete_exam_returning id db2) in
      referential_integrity db1
      /\ referential_integrity db2
      /\ referential_integrity db3
      /\ state_of (deleteExam id db) = db3)
  /\ (has_exam id db ->
      (exists q, In q (questionsTable db) /\ q_exam_id q = id)
      \/ (exists a, In a (answersTable db) /\ a_exam_id a = id) ->
      exists constraint, delete_exam_returning id db = (db, inl (DbError constraint))).
Proof.
  intros Hid. apply fits_integer_int4 in Hid.
  rewrite deleteExam_run, Hid. split; [|split; [|split]].
  - intros Hex. apply has_exam_select in Hex.
    destruct (select_where (fun e => Z.eqb (e_id e) id) (examsTable db)); [congruence|].
    eexists. split; [reflexivity|]. split.
    + unfold no_rows_of. simpl.
      repeat split; intros r Hr; apply In_delete_where in Hr as [_ Hr]; lia.
    + unfold same_other_exams. simpl.
      now rewrite !select_others_delete_where.
  - intros Hno (Hq & Ha & _).
    assert (Hsel : select_where (fun e => Z.eqb (e_id e) id) (examsTable db) = []).
    { destruct (select_where _ (examsTable db)) eqn:E; [reflexivity|].
      exfalso. apply Hno, has_exam_select. congruence. }
    rewrite Hsel. rewrite select_where_nil in Hsel.
    rewrite !delete_where_none; [now destruct db | | |]; try exact Hsel.
    + intros a Hin. destruct (Z.eqb_spec (a_exam_id a) id) as [<-|]; [|reflexivity].
      exfalso. apply Hno, Ha, Hin.
    + intros q Hin. destruct (Z.eqb_spec (q_exam_id q) id) as [<-|]; [|reflexivity].
      exfalso. apply Hno, Hq, Hin.
  - intros (Hq & Ha & Hu). cbv zeta. rewrite delete_exam_accepted.
    unfold referential_integrity, delete_questions_of, delete_answers_of, state_of.
    simpl. repeat split.
    + exact Hq.
    + intros a Hin. apply In_delete_where in Hin as [Hin _].
      destruct (Ha a Hin) as (e & He & Hexam). exists e. auto.
    + intros a Hin. apply In_delete_where in Hin as [Hin _]. exact (Hu a Hin).
    + intros q Hin. apply In_delete_where in Hin as [Hin _].
      destruct (Hq q Hin) as (e & He & Hexam). exists e. auto.
    + intros a Hin. apply In_delete_where in Hin as [Hin _].
      destruct (Ha a Hin) as (e & He & Hexam). exists e. auto.
    + intros a Hin. apply In_delete_where in Hin as [Hin _]. exact (Hu a Hin).
    + intros q Hin. apply In_delete_where in Hin as [Hin Hne].
      apply has_exam_after_delete; [exact (Hq q Hin) | lia].
    + intros a Hin. apply In_delete_where in Hin as [Hin Hne].
      apply has_exam_after_delete; [exact (Ha a Hin) | lia].
    + intros a Hin. apply In_delete_where in Hin as [Hin _]. exact (Hu a Hin).
  - intros Hex Hrefers.
    destruct (delete_exam_rejected id db Hex Hrefers) as [->| ->]; eexists; reflexivity.
Qed.

Lemma deleteExam_cascade_witness :
  (exists db',
     deleteExam 1 sample_db = (db', inr tt)
     /\ no_rows_of 1 db'
     /\ same_other_exams 1 sample_db db')
  /\ deleteExam 999 sample_db = (sample_db, inl ExamNotFound)
  /\ (let db1 := state_of (delete_answers_of 1 sample_db) in
      let db2 := state_of (delete_questions_of 1 db1) in
      let db3 := state_of (delete_exam_returning 1 db2) in
      referential_integrity db1
      /\ referential_integrity db2
      /\ referential_integrity db3
      /\ state_of (deleteExam 1 sample_db) = db3)
  /\ (exists constraint,
        delete_exam_returning 1 sample_db = (sample_db, inl (DbError constraint))).
Proof.
  assert (He : has_exam 1 sample_db) by (exists sample_exam; simpl; auto).
  assert (Hu : has_user 1 sample_db) by (exists sample_user; simpl; auto).
  assert (Hfk : referential_integrity sample_db).
  { repeat split; simpl; intros r Hr; intuition (subst; assumption). }
  assert (Hone : int4 1) by (unfold int4; lia).
  assert (Hfar : int4 999) by (unfold int4; lia).
  split; [|split; [|split]].
  - apply (deleteExam_cascade 1 sample_db Hone). exact He.
  - apply (deleteExam_cascade 999 sample_db Hfar); [|exact Hfk].
    intros (e & [<-|[]] & Hid). discriminate.
  - apply (deleteExam_cascade 1 sample_db Hone). exact Hfk.
  - apply (deleteExam_cascade 1 sample_db Hone); [exact He|].
    right. exists sample_answer. simpl. auto.
Defined.

(** ** The exam window *)

(** C7: an exam is in the list of [getActiveExams] at [now] exactly when it
    is an exam of the database whose status is [aktif] and whose start is at
    or before [now] and whose end is at or after [now]; so it is listed at
    [now = start] and at [now = end], and not before the start, after the
    end, or when its status is not [aktif]. *)
Theorem getActiveExams_window (now : Z) (db : DB) :
  exists listed,
    getActiveExams now db = (db, inr listed)
    /\ (forall e, In e listed <->
                  In e (examsTable db)
                  /\ status e = aktif
                  /\ tanggal_mulai e <= now <= tanggal_selesai e)
    /\ (forall e, In e (examsTable db) -> status e = aktif ->
                  tanggal_mulai e <= tanggal_selesai e ->
                  (now = tanggal_mulai e \/ now = tanggal_selesai e) -> In e listed)
    /\ (forall e, now < tanggal_mulai e \/ tanggal_selesai e < now \/ status e = non_aktif ->
                  ~ In e listed).
Proof.
  assert (Hwin : forall e, in_window now e = true <->
                           status e = aktif /\ tanggal_mulai e <= now <= tanggal_selesai e).
  { intros e. unfold in_window. rewrite !andb_true_iff, bool_decide_eq_true, Z.leb_le, Z.geb_le.
    tauto. }
  eexists. split; [reflexivity|]. unfold select_where.
  split; [|split]; intros e.
  - rewrite filter_In, Hwin. reflexivity.
  - intros Hin Hst Hle Hnow. rewrite filter_In, Hwin.
    split; [exact Hin | split; [exact Hst | lia]].
  - intros Hout Hin. apply filter_In in Hin as [_ Hin]. apply Hwin in Hin.
    destruct Hout as [H|[H|H]]; [lia | lia | destruct Hin; congruence].
Qed.

Lemma getActiveExams_window_witness :
  exists listed,
    getActiveExams 1000 sample_db = (sample_db, inr listed)
    /\ In sample_exam listed
    /\ ~ In (mkExam 2 "Nanti" "" 1001 2000 60 aktif 0) listed.
Proof.
  destruct (getActiveExams_window 1000 sample_db) as (listed & Hrun & _ & Hedge & Hout).
  exists listed. split; [exact Hrun|]. split.
  - apply Hedge; simpl; auto. lia.
  - apply Hout. simpl. lia.
Defined.

(** ** The order of the dates of an exam *)

Lemma getExamById_find (id : Z) (db : DB) :
  getExamById id db = (db, inr (find_exam id db)).
Proof.
  unfold getExamById, find_exam. run.
  destruct (select_where (fun e => Z.eqb (e_id e) id) (examsTable db)); reflexivity.
Qed.

(** An update that carries a date is not empty. *)
Lemma dated_update_not_empty (input : UpdateExamInput) :
  uei_tanggal_mulai input <> None \/ uei_tanggal_selesai input <> None ->
  exam_updateData_empty input = false.
Proof.
  unfold exam_updateData_empty.
  destruct (uei_judul_ujian input), (uei_deskripsi input), (uei_tanggal_mulai input),
    (uei_tanggal_selesai input), (uei_durasi input), (uei_status input);
    try reflexivity; intros [H|H]; congruence.
Qed.

(** [updateExam] as its guards followed by its update. *)
Lemma updateExam_run (input : UpdateExamInput) (db : DB) :
  updateExam input db
  = match date_guards input db with
    | inl e => (db, inl e)
    | inr _ =>
        if exam_updateData_empty input then (db, inl NoValues)
        else
          (set_exams (update_where (fun e => Z.eqb (e_id e) (uei_id input))
                                   (apply_update input)) db,
           match List.map (apply_update input)
                          (select_where (fun e => Z.eqb (e_id e) (uei_id input))
                                        (examsTable db)) with
           | [] => inl ExamNotFound
           | e :: _ => inr e
           end)
    end.
Proof.
  unfold updateExam, check_one_date, date_guards, update_exams.
  unfold effective_end, effective_start, or_else. unfold bind.
  destruct (uei_tanggal_mulai input) as [mulai|] eqn:Em,
           (uei_tanggal_selesai input) as [selesai|] eqn:Es;
    simpl.
  - rewrite dated_update_not_empty by (left; congruence).
    destruct (selesai <=? mulai); simpl; [reflexivity|].
    destruct (List.map _ _); reflexivity.
  - rewrite dated_update_not_empty by (left; congruence).
    rewrite getExamById_find.
    destruct (find_exam (uei_id input) db) as [existing|]; simpl; [|reflexivity].
    destruct (tanggal_selesai existing <=? mulai); simpl; [reflexivity|].
    destruct (List.map _ _); reflexivity.
  - rewrite dated_update_not_empty by (right; congruence).
    rewrite getExamById_find.
    destruct (find_exam (uei_id input) db) as [existing|]; simpl; [|reflexivity].
    destruct (selesai <=? tanggal_mulai existing); simpl; [reflexivity|].
    destruct (List.map _ _); reflexivity.
  - destruct (exam_updateData_empty input); simpl; [reflexivity|].
    destruct (List.map _ _); reflexivity.
Qed.

(** C8: an exam ends strictly after it starts, at creation and at every
    update that carries a date.  [createExam] with an end at or before the
    start fails with "Tanggal selesai harus setelah tanggal mulai" and
    inserts nothing; [updateExam] with a new start, a new end or both, for
    which the end the exam would have (the new one, or else the stored one)
    is at or before the start it would have (likewise), fails with the same
    error and leaves the database as it was. *)
Theorem date_order_enforced :
  (forall (now : Z) (input : CreateExamInput) (db : DB),
      cei_tanggal_selesai input <= cei_tanggal_mulai input ->
      createExam now input db = (db, inl DateOrder))
  /\ (forall (input : UpdateExamInput) (db : DB) (existing : Exam),
        find_exam (uei_id input) db = Some existing ->
        (uei_tanggal_mulai input <> None \/ uei_tanggal_selesai input <> None) ->
        effective_end input existing <= effective_start input existing ->
        updateExam input db = (db, inl DateOrder)).
Proof.
  split.
  - intros now input db Hle. unfold createExam.
    apply Z.leb_le in Hle. now rewrite Hle.
  - intros input db existing Hfind Hsome Hle.
    rewrite updateExam_run. unfold date_guards. rewrite Hfind.
    apply Z.leb_le in Hle. revert Hle Hsome.
    unfold effective_end, effective_start.
    destruct (uei_tanggal_mulai input), (uei_tanggal_selesai input); simpl;
      intros Hle Hsome; rewrite ?Hle; try reflexivity.
    destruct Hsome; congruence.
Qed.

Lemma date_order_enforced_witness :
  createExam 0 instant_exam sample_db = (sample_db, inl DateOrder)
  /\ updateExam end_at_start sample_db = (sample_db, inl DateOrder).
Proof.
  split.
  - apply (proj1 date_order_enforced 0 instant_exam sample_db).
    unfold instant_exam. simpl. lia.
  - apply (proj2 date_order_enforced end_at_start sample_db sample_exam).
    + reflexivity.
    + right. discriminate.
    + unfold effective_end, effective_start, end_at_start, sample_exam. simpl. lia.
Defined.

(** The exams stay in order through [createExam] and, the exam ids being
    distinct (they are the primary key), through [updateExam]. *)
Lemma createExam_keeps_order (now : Z) (input : CreateExamInput) (db : DB) :
  exams_ordered db -> exams_ordered (state_of (createExam now input db)).
Proof.
  intros Hord. unfold createExam, insert_exam.
  destruct (Z.leb_spec (cei_tanggal_selesai input) (cei_tanggal_mulai input)) as [Hle|Hlt];
    [exact Hord|].
  run. intros e Hin. apply in_app_or in Hin as [Hin|[<-|[]]]; [now apply Hord|].
  simpl. lia.
Qed.

Lemma find_exam_In (id : Z) (db : DB) (existing : Exam) :
  find_exam id db = Some existing -> In existing (examsTable db) /\ e_id existing = id.
Proof.
  unfold find_exam, select_where. intros Hfind.
  destruct (List.filter _ (examsTable db)) as [|e rest] eqn:E; [discriminate|].
  injection Hfind as ->.
  assert (Hin : In existing (List.filter (fun e => Z.eqb (e_id e) id) (examsTable db)))
    by (rewrite E; now left).
  apply filter_In in Hin as [Hin Hid]. split; [exact Hin | lia].
Qed.

Lemma updateExam_keeps_order (input : UpdateExamInput) (db : DB) :
  NoDup (List.map e_id (examsTable db)) ->
  exams_ordered db -> exams_ordered (state_of (updateExam input db)).
Proof.
  intros Hnd Hord. rewrite updateExam_run.
  destruct (date_guards input db) as [err|[]] eqn:Hguards; [exact Hord|].
  destruct (exam_updateData_empty input); [exact Hord|].
  unfold state_of, set_exams, update_where. simpl.
  intros e Hin. apply in_map_iff in Hin as (r & <- & Hr).
  destruct (Z.eqb_spec (e_id r) (uei_id input)) as [Hid|_]; [|now apply Hord].
  specialize (Hord r Hr). revert Hguards. unfold date_guards, apply_update. simpl.
  destruct (uei_tanggal_mulai input) as [mulai|] eqn:Em,
           (uei_tanggal_selesai input) as [selesai|] eqn:Es; simpl.
  - destruct (Z.leb_spec selesai mulai); [discriminate | lia].
  - destruct (find_exam (uei_id input) db) as [existing|] eqn:Hfind; [|discriminate].
    apply find_exam_In in Hfind as [Hex Hexid].
    rewrite (key_injective e_id _ r existing Hnd Hr Hex) by congruence.
    unfold effective_end, effective_start. rewrite Em, Es. simpl.
    destruct (Z.leb_spec (tanggal_selesai existing) mulai); [discriminate | lia].
  - destruct (find_exam (uei_id input) db) as [existing|] eqn:Hfind; [|discriminate].
    apply find_exam_In in Hfind as [Hex Hexid].
    rewrite (key_injective e_id _ r existing Hnd Hr Hex) by congruence.
    unfold effective_end, effective_start. rewrite Em, Es. simpl.
    destruct (Z.leb_spec selesai (tanggal_mulai existing)); [discriminate | lia].
  - lia.
Qed.

(** ** The participant's view of the questions *)

(** C9: what [getQuestionsForParticipant] returns has no field for the key,
    and does not depend on the keys: on two databases whose question tables
    differ at most in the keys of the questions it returns the same list. *)
Theorem participant_view_hides_key (examId : Z) (db1 db2 : DB) :
  Forall2 same_but_key (questionsTable db1) (questionsTable db2) ->
  outcome (getQuestionsForParticipant examId db1)
  = outcome (getQuestionsForParticipant examId db2).
Proof.
  intros Hsame. unfold getQuestionsForParticipant, select_where. run.
  do 2 f_equal.
  induction Hsame as [|q1 q2 qs1 qs2 (Hid & Hexam & Hsoal & Hpil & Hcre) _ IH]; simpl;
    [reflexivity|].
  rewrite Hexam. destruct (q_exam_id q2 =? examId); simpl; [|exact IH].
  now rewrite IH, Hid, Hexam, Hsoal, Hpil, Hcre.
Qed.

Lemma participant_view_hides_key_witness :
  outcome (getQuestionsForParticipant 1 sample_db)
  = outcome (getQuestionsForParticipant 1 rekeyed_db).
Proof.
  apply (participant_view_hides_key 1 sample_db rekeyed_db).
  repeat constructor.
Defined.

(** ** Registration and login *)

Lemma get_contains (i : nat) (s : string) (c : ascii) :
  String.get i s = Some c -> contains c s = true.
Proof.
  revert i. induction s as [|d s IH]; intros i; simpl; [discriminate|].
  destruct i as [|i].
  - intros [= ->]. now rewrite Ascii.eqb_refl.
  - intros H. rewrite (IH i H). apply orb_true_r.
Qed.

Lemma base64_digit_not_colon (n : Z) : Ascii.eqb (base64_digit n) ":" = false.
Proof.
  unfold base64_digit.
  destruct (String.get (Z.to_nat n) base64_alphabet) as [c|] eqn:E; simpl; [|reflexivity].
  apply get_contains in E. destruct (Ascii.eqb_spec c ":") as [->|]; [|reflexivity].
  vm_compute in E. discriminate.
Qed.

(** Lists three elements at a time. *)
Lemma list_ind3 {A} (P : list A -> Prop) :
  P [] -> (forall a, P [a]) -> (forall a b, P [a; b]) ->
  (forall a b c rest, P rest -> P (a :: b :: c :: rest)) ->
  forall l, P l.
Proof.
  intros H0 H1 H2 H3 l.
  enough (P l /\ (forall a, P (a :: l)) /\ (forall a b, P (a :: b :: l))) by tauto.
  induction l as [|x l (IH0 & IH1 & IH2)]; auto.
Qed.

(** A base64 string has no colon. *)
Lemma toString_base64_no_colon (bytes : list Z) :
  contains ":" (toString_base64 bytes) = false.
Proof.
  induction bytes as [|a|a b|a b c rest IH] using list_ind3; simpl;
    rewrite ?base64_digit_not_colon, ?IH; reflexivity.
Qed.

(** Splitting at a character that does not occur gives the string back. *)
Lemma split_absent (sep : ascii) (s : string) :
  contains sep s = false -> split sep s = [s].
Proof.
  induction s as [|c s IH]; simpl; [reflexivity|].
  intros H. apply orb_false_iff in H as [Hc Hs]. now rewrite Hc, (IH Hs).
Qed.

(** [verifyPassword] rejects every password against a base64 string. *)
Lemma verifyPassword_base64 (pbkdf2_hex : string -> string -> string)
    (attempt plain : string) :
  Auth.verifyPassword pbkdf2_hex attempt (Users.hashPassword plain) = false.
Proof.
  unfold Auth.verifyPassword, Users.hashPassword.
  now rewrite (split_absent _ _ (toString_base64_no_colon _)).
Qed.

Lemma split_once (sep : ascii) (s t : string) :
  contains sep s = false -> contains sep t = false ->
  split sep (s ++ String sep t) = [s; t].
Proof.
  intros Hs Ht. induction s as [|c s IH]; simpl.
  - now rewrite Ascii.eqb_refl, (split_absent _ _ Ht).
  - simpl in Hs. apply orb_false_iff in Hs as [Hc Hs]. now rewrite Hc, (IH Hs).
Qed.

(** [verifyPassword] accepts what [hashPassword] of the same module makes
    from the password: the mismatch is between the two modules. *)
Lemma verifyPassword_hashPassword (pbkdf2_hex : string -> string -> string)
    (salt password : string) :
  contains ":" salt = false ->
  contains ":" (pbkdf2_hex password salt) = false ->
  Auth.verifyPassword pbkdf2_hex password (Auth.hashPassword pbkdf2_hex salt password) = true.
Proof.
  intros Hsalt Hhash. unfold Auth.verifyPassword, Auth.hashPassword.
  change (String.append ":" (pbkdf2_hex password salt))
    with (String ":" (pbkdf2_hex password salt)).
  rewrite (split_once _ _ _ Hsalt Hhash). simpl. apply String.eqb_refl.
Qed.

(** [loginUser] answers [null] when the first user with the email has a
    stored password without a colon. *)
Lemma loginUser_rejects (pbkdf2_hex : string -> string -> string)
    (input : Auth.LoginInput) (db : DB) (user : User) :
  head (select_where (fun u => String.eqb (u_email u) (Auth.email input)) (usersTable db))
  = Some user ->
  contains ":" (u_password user) = false ->
  Auth.loginUser pbkdf2_hex input db = (db, inr None).
Proof.
  intros Hfind Hcolon. unfold Auth.loginUser, Auth.verifyPassword. run.
  destruct (select_where _ (usersTable db)) as [|first rest]; [discriminate|].
  injection Hfind as ->. now rewrite (split_absent _ _ Hcolon).
Qed.

(** C10: a user registered by [createUser] can never log in.  The stored
    password is the base64 encoding of the password, which has no colon,
    and [verifyPassword] rejects a stored value that does not split at [:]
    into two parts; so after a successful [createUser], [loginUser] with the
    email of the user returns [null] for every password. *)
Theorem createUser_then_login_fails (pbkdf2_hex : string -> string -> string)
    (now : Z) (input : Users.CreateUserInput) (db db' : DB) (user : User) :
  Users.createUser now input db = (db', inr user) ->
  In user (usersTable db')
  /\ u_password user = toString_base64 (Buffer_from (Users.password input))
  /\ contains ":" (u_password user) = false
  /\ forall attempt,
       Auth.loginUser pbkdf2_hex (Auth.mkLoginInput (Users.email input) attempt) db'
       = (db', inr None).
Proof.
  unfold Users.createUser, Users.insert_user. run.
  destruct (existsb _ (usersTable db)) eqn:Efree; simpl; [discriminate|].
  intros [= <- <-]. simpl.
  split; [apply in_or_app; right; now left|].
  split; [reflexivity|].
  split; [apply toString_base64_no_colon|].
  intros attempt. apply loginUser_rejects with (user := mkUser (users_seq db)
    (Users.nama input) (Users.email input) (Users.hashPassword (Users.password input))
    (Users.role input) (Users.kelas_or_null (Users.kelas input)) now);
    [|apply toString_base64_no_colon].
  simpl. unfold select_where. rewrite List.filter_app. simpl.
  rewrite String.eqb_refl.
  replace (List.filter _ (usersTable db)) with (@nil User); [reflexivity|].
  symmetry. apply (select_where_nil _ (usersTable db)). intros u Hu.
  apply not_true_is_false. intros Heq.
  assert (existsb (fun u => String.eqb (u_email u) (Users.email input)) (usersTable db) = true)
    by (apply existsb_exists; eauto).
  congruence.
Qed.

Lemma createUser_then_login_fails_witness :
  exists db' user,
    Users.createUser 0 registration empty_db = (db', inr user)
    /\ In user (usersTable db')
    /\ u_password user = "cGFzc3dvcmQxMjM="
    /\ Auth.loginUser (fun _ _ => "") (Auth.mkLoginInput "test@example.com" "password123") db'
       = (db', inr None).
Proof.
  eexists. eexists. split; [reflexivity|].
  destruct (createUser_then_login_fails (fun _ _ => "") 0 registration empty_db _ _ eq_refl)
    as (Hin & Hpw & _ & Hlogin).
  split; [exact Hin|]. split; [exact Hpw|]. exact (Hlogin "password123").
Defined.

(** * Further properties of the handlers *)

(** ** Saving progress *)

(** The [set] clause of [updateProgress] changes the progress only. *)
Lemma updateProgress_run (input : UpdateProgressInput) (db : DB) :
  updateProgress input db
  = match find_answer (upi_id input) db with
    | None => (db, inl AnswerNotFound)
    | Some existing =>
        if is_submitted existing then (db, inl ProgressAfterSubmit)
        else
          let set a := mkAnswer (a_id a) (a_exam_id a) (a_user_id a) (jawaban a) (nilai a)
                                (waktu_submit a) (is_submitted a)
                                (Some (upi_progress_jawaban input)) (a_created_at a) in
          (set_answers (update_where (fun a => Z.eqb (a_id a) (upi_id input)) set) db,
           inr (set existing))
    end.
Proof.
  unfold updateProgress, find_answer, update_answers. run.
  destruct (select_where _ (answersTable db)) as [|existing rest] eqn:Hsel; [reflexivity|].
  simpl. destruct (is_submitted existing) eqn:Hflag; [reflexivity|]. simpl.
  rewrite Hsel. simpl. rewrite ?Hflag. reflexivity.
Qed.

(** X1: for an answer that exists and is not submitted, [updateProgress]
    stores and returns the row with the progress replaced by the one of the
    input, not merged with the old one; the answers, the score, the
    submitted flag and the other columns of the row, the other answers and
    the other tables stay as they were. *)
Theorem updateProgress_replaces (input : UpdateProgressInput) (db : DB) (existing : Answer) :
  find_answer (upi_id input) db = Some existing ->
  is_submitted existing = false ->
  exists answer db',
    updateProgress input db = (db', inr answer)
    /\ progress_jawaban answer = Some (upi_progress_jawaban input)
    /\ (a_id answer, a_exam_id answer, a_user_id answer, jawaban answer, nilai answer,
        waktu_submit answer, is_submitted answer, a_created_at answer)
       = (a_id existing, a_exam_id existing, a_user_id existing, jawaban existing,
          nilai existing, waktu_submit existing, is_submitted existing,
          a_created_at existing)
    /\ find_answer (upi_id input) db' = Some answer
    /\ other_answers (upi_id input) db' = other_answers (upi_id input) db
    /\ (usersTable db', examsTable db', questionsTable db')
       = (usersTable db, examsTable db, questionsTable db).
Proof.
  intros Hfind Hflag. rewrite updateProgress_run, Hfind, Hflag.
  eexists. eexists. split; [reflexivity|].
  repeat (split; [first [reflexivity | now rewrite Hflag]|]).
  unfold find_answer, other_answers in *. simpl.
  rewrite select_update_where by reflexivity.
  rewrite select_others_update_where by reflexivity.
  destruct (select_where _ (answersTable db)); [discriminate|].
  injection Hfind as ->. repeat split.
Qed.

Lemma updateProgress_replaces_witness :
  find_answer (upi_id (mkUpdateProgressInput 1 {["2" := "B"]})) sample_db = Some sample_answer
  /\ is_submitted sample_answer = false
  /\ exists answer db',
      updateProgress (mkUpdateProgressInput 1 {["2" := "B"]}) sample_db = (db', inr answer)
      /\ progress_jawaban answer = Some {["2" := "B"]}
      /\ jawaban answer = jawaban sample_answer.
Proof.
  split; [reflexivity|]. split; [reflexivity|].
  destruct (updateProgress_replaces (mkUpdateProgressInput 1 {["2" := "B"]})
              sample_db sample_answer eq_refl eq_refl)
    as (answer & db' & Hrun & Hprog & Hcols & _).
  exists answer, db'. split; [exact Hrun|]. split; [exact Hprog|].
  now injection Hcols.
Defined.

(** X2: on an id that fits an integer column and that no answer has,
    [updateProgress] and [submitExam] fail with "Answer record not found" and
    leave the database as it was. *)
Theorem missing_answer_rejected
    (now : Z) (progress final : gmap string string) (db : DB) (id : Z) :
  int4 id ->
  find_answer id db = None ->
  updateProgress (mkUpdateProgressInput id progress) db = (db, inl AnswerNotFound)
  /\ submitExam now (mkSubmitExamInput id final) db = (db, inl AnswerNotFound).
Proof.
  intros _ Hfind. unfold find_answer in Hfind. unfold updateProgress, submitExam. run.
  destruct (select_where _ (answersTable db)); [split; reflexivity | discriminate].
Qed.

Lemma missing_answer_rejected_witness :
  updateProgress (mkUpdateProgressInput 7 ∅) sample_db = (sample_db, inl AnswerNotFound)
  /\ submitExam 0 (mkSubmitExamInput 7 ∅) sample_db = (sample_db, inl AnswerNotFound).
Proof.
  apply (missing_answer_rejected 0 ∅ ∅ sample_db 7); [unfold int4; lia | reflexivity].
Defined.

Lemma update_where_twice {R} (p : R -> bool) (f g : R -> R) (rows : list R) :
  (forall r, p (f r) = p r) ->
  update_where p g (update_where p f rows) = update_where p (fun r => g (f r)) rows.
Proof.
  intros Hkeep. unfold update_where. rewrite List.map_map. apply map_ext. intros r.
  destruct (p r) eqn:E; [now rewrite Hkeep, E | now rewrite E].
Qed.

(** X3: the last save wins.  Saving a progress and then another one for the
    same answer returns what saving the second alone returns and leaves the
    database that it alone leaves, whether the answer exists, is submitted
    or neither. *)
Theorem updateProgress_last_wins (id : Z) (first second : gmap string string) (db : DB) :
  updateProgress (mkUpdateProgressInput id second)
                 (state_of (updateProgress (mkUpdateProgressInput id first) db))
  = updateProgress (mkUpdateProgressInput id second) db.
Proof.
  rewrite (updateProgress_run (mkUpdateProgressInput id first) db). simpl.
  destruct (find_answer id db) as [existing|] eqn:Hfind; [|reflexivity].
  destruct (is_submitted existing) eqn:Hflag; [reflexivity|].
  rewrite !updateProgress_run. unfold state_of, find_answer in *. simpl.
  rewrite select_update_where by reflexivity.
  destruct (select_where _ (answersTable db)); [discriminate|].
  injection Hfind as ->. simpl. rewrite Hflag.
  rewrite set_answers_twice. unfold set_answers. simpl.
  rewrite update_where_twice by reflexivity. reflexivity.
Qed.

(** ** Looking answers up *)

(** X4: the answer that [createAnswer] returns is the one that
    [getUserAnswer] finds for the exam and the user afterwards. *)
Theorem createAnswer_then_getUserAnswer
    (now : Z) (input : CreateAnswerInput) (db db' : DB) (answer : Answer) :
  createAnswer now input db = (db', inr answer) ->
  getUserAnswer (mkGetUserAnswerInput (cai_exam_id input) (cai_user_id input)) db'
  = (db', inr (Some answer)).
Proof.
  rewrite createAnswer_run.
  destruct (fits_integer _ && fits_integer _); [|discriminate].
  destruct (select_where _ (answersTable db)) eqn:Hnone; [|discriminate].
  destruct (select_where _ (usersTable db)); [discriminate|].
  destruct (select_where _ (examsTable db)); [discriminate|].
  intros [= <- <-]. unfold getUserAnswer. run.
  unfold select_where in *. rewrite List.filter_app, Hnone. simpl.
  unfold answer_of. simpl. now rewrite !Z.eqb_refl.
Qed.

Lemma createAnswer_then_getUserAnswer_witness :
  exists db' answer,
    createAnswer 0 first_attempt fresh_db = (db', inr answer)
    /\ getUserAnswer (mkGetUserAnswerInput 1 1) db' = (db', inr (Some answer)).
Proof.
  eexists. eexists. split; [reflexivity|].
  exact (createAnswer_then_getUserAnswer 0 first_attempt fresh_db _ _ eq_refl).
Defined.

(** ** What the score depends on *)

Lemma count_correct_ext (ua1 ua2 : gmap string string) (qs : list Question) :
  (forall q, In q qs -> ua1 !! toString (q_id q) = ua2 !! toString (q_id q)) ->
  count_correct ua1 qs = count_correct ua2 qs.
Proof.
  intros Hsame. rewrite !count_correct_filter. do 2 f_equal.
  apply List.filter_ext_in. intros q Hq. unfold answered_correctly.
  now rewrite (Hsame q Hq).
Qed.

(** X5: the score depends on the answers only through the values stored
    under the ids of the questions of the exam: two answer maps that agree
    there get the same score, whatever other keys they hold. *)
Theorem calculateScore_reads_question_keys
    (examId : Z) (ua1 ua2 : gmap string string) (db : DB) :
  (forall q, In q (questions_of_exam examId db) ->
             ua1 !! toString (q_id q) = ua2 !! toString (q_id q)) ->
  calculateScore examId ua1 db = calculateScore examId ua2 db.
Proof.
  intros Hsame. unfold calculateScore. run.
  destruct (length (questions_of_exam examId db) =? 0)%nat; [reflexivity|].
  now rewrite (count_correct_ext ua1 ua2 _ Hsame).
Qed.

Lemma calculateScore_reads_question_keys_witness :
  calculateScore 1 {["1" := "C"; "2" := "A"; "77" := "D"]} sample_db
  = calculateScore 1 {["1" := "C"; "2" := "A"]} sample_db.
Proof.
  apply (calculateScore_reads_question_keys 1 _ _ sample_db).
  intros q [<-|[<-|[]]]; reflexivity.
Defined.

Lemma toString_inj (n m : Z) : toString n = toString m -> n = m.
Proof. unfold toString. apply pretty_Z_inj. Qed.

(** The database that a successful [deleteQuestion] leaves has no question
    with the id. *)
Lemma deleteQuestion_questions (id : Z) (db db' : DB) :
  deleteQuestion id db = (db', inr tt) ->
  questionsTable db' = delete_where (fun q => Z.eqb (q_id q) id) (questionsTable db)
  /\ (usersTable db', examsTable db') = (usersTable db, examsTable db).
Proof.
  unfold deleteQuestion, getQuestionById.
  unfold bind at 1. unfold bind at 1. unfold gets at 1.
  destruct (select_where (fun q => Z.eqb (q_id q) id) (questionsTable db));
    [discriminate|].
  unfold ret at 1. unfold bind at 1. unfold gets at 1. unfold bind at 1.
  rewrite for_each_clean. unfold modify, set_questions, set_answers. simpl.
  intros [= <-]. split; reflexivity.
Qed.

(** X6: pruning is harmless to scoring.  In the database that a successful
    [deleteQuestion id] leaves, an answer map scores the same with the key of
    the deleted question as with that key pruned from it. *)
Theorem deleteQuestion_keeps_scores
    (id examId : Z) (userAnswers : gmap string string) (db db' : DB) :
  deleteQuestion id db = (db', inr tt) ->
  calculateScore examId (delete_if_truthy (toString id) userAnswers) db'
  = calculateScore examId userAnswers db'.
Proof.
  intros Hrun. apply deleteQuestion_questions in Hrun as [Hqs _].
  unfold calculateScore. run.
  destruct (length (questions_of_exam examId db') =? 0)%nat; [reflexivity|].
  do 3 f_equal. apply count_correct_ext. intros q Hq.
  apply delete_if_truthy_other. intros Heq. apply toString_inj in Heq.
  unfold questions_of_exam in Hq. apply filter_In in Hq as [Hq _].
  rewrite Hqs in Hq. apply In_delete_where in Hq as [_ Hq]. lia.
Qed.

Lemma deleteQuestion_keeps_scores_witness :
  exists db',
    deleteQuestion 1 sample_db = (db', inr tt)
    /\ calculateScore 1 (delete_if_truthy (toString 1) {["1" := "C"; "2" := "C"]}) db'
       = calculateScore 1 {["1" := "C"; "2" := "C"]} db'.
Proof.
  eexists. split; [reflexivity|].
  exact (deleteQuestion_keeps_scores 1 1 {["1" := "C"; "2" := "C"]} sample_db _ eq_refl).
Defined.

(** ** Questions *)


(** X8: the question handlers reject what is not there and write nothing,
    for ids that fit an integer column: [createQuestion] for an exam that
    does not exist, [updateQuestion] and [deleteQuestion] for a question that
    does not exist, each with the message that names the id. *)
Theorem question_handlers_reject_missing (db : DB) :
  (forall now input,
      int4 (cqi_exam_id input) ->
      ~ has_exam (cqi_exam_id input) db ->
      createQuestion now input db
      = (db, inl (JsError ("Exam with ID " ++ toString (cqi_exam_id input)
                           ++ " does not exist"))))
  /\ (forall input,
        int4 (uqi_id input) ->
        (forall q, In q (questionsTable db) -> q_id q <> uqi_id input) ->
        updateQuestion input db
        = (db, inl (JsError ("Question with ID " ++ toString (uqi_id input)
                             ++ " does not exist"))))
  /\ (forall id,
        int4 id ->
        (forall q, In q (questionsTable db) -> q_id q <> id) ->
        deleteQuestion id db
        = (db, inl (JsError ("Question with ID " ++ toString id ++ " does not exist")))).
Proof.
  assert (Hnone : forall id, (forall q, In q (questionsTable db) -> q_id q <> id) ->
                             select_where (fun q => Z.eqb (q_id q) id) (questionsTable db) = []).
  { intros id Hno. apply select_where_nil. intros q Hq. specialize (Hno q Hq). lia. }
  split; [|split].
  - intros now input Hfits Hno. unfold createQuestion.
    rewrite integer_param_bind, (proj2 (fits_integer_int4 _) Hfits). run.
    replace (select_where _ (examsTable db)) with (@nil Exam); [reflexivity|].
    symmetry. destruct (select_where _ (examsTable db)) eqn:E; [reflexivity|].
    exfalso. apply Hno, has_exam_select. congruence.
  - intros input _ Hno. unfold updateQuestion, getQuestionById. run.
    now rewrite (Hnone _ Hno).
  - intros id _ Hno. unfold deleteQuestion, getQuestionById. run.
    now rewrite (Hnone _ Hno).
Qed.

Lemma question_handlers_reject_missing_witness :
  createQuestion 0 (mkCreateQuestionInput 9 "Soal" ["a"; "b"; "c"; "d"] "A") sample_db
  = (sample_db, inl (JsError "Exam with ID 9 does not exist"))
  /\ updateQuestion (mkUpdateQuestionInput 9 (Some "Soal") None None) sample_db
     = (sample_db, inl (JsError "Question with ID 9 does not exist"))
  /\ deleteQuestion 9 sample_db
     = (sample_db, inl (JsError "Question with ID 9 does not exist")).
Proof.
  destruct (question_handlers_reject_missing sample_db) as (Hc & Hu & Hd).
  assert (Hnine : int4 9) by (unfold int4; lia).
  split; [|split].
  - apply (Hc 0 (mkCreateQuestionInput 9 "Soal" ["a"; "b"; "c"; "d"] "A") Hnine).
    intros (e & [<-|[]] & He). discriminate.
  - apply (Hu (mkUpdateQuestionInput 9 (Some "Soal") None None) Hnine).
    intros q [<-|[<-|[]]]; discriminate.
  - apply (Hd 9 Hnine). intros q [<-|[<-|[]]]; discriminate.
Defined.

Lemma select_fresh {R} (key : R -> Z) (rows : list R) (next : Z) :
  Forall (fun r => key r < next) rows ->
  select_where (fun r => Z.eqb (key r) next) rows = [].
Proof.
  intros Hlt. apply select_where_nil. intros r Hr.
  rewrite Forall_forall in Hlt. specialize (Hlt r). rewrite list_elem_of_In in Hlt.
  specialize (Hlt Hr). lia.
Qed.

Lemma select_where_app {R} (p : R -> bool) (rows more : list R) :
  select_where p (rows ++ more) = (select_where p rows ++ select_where p more)%list.
Proof. apply List.filter_app. Qed.

(** X9: a question that [createQuestion] returns has the next id of the
    sequence and the fields of the input; with the ids of the table below
    the sequence, [getQuestionById] finds it afterwards and
    [getQuestionsByExamId] lists it once more than before, with the
    questions the exam had, in whatever order. *)
Theorem createQuestion_then_found
    (now : Z) (input : CreateQuestionInput) (db db' : DB) (question : Question) :
  keyed q_id (questionsTable db) (questions_seq db) ->
  createQuestion now input db = (db', inr question) ->
  question = mkQuestion (questions_seq db) (cqi_exam_id input) (cqi_soal input)
                        (cqi_pilihan input) (cqi_jawaban_benar input) now
  /\ has_exam (cqi_exam_id input) db'
  /\ getQuestionById (q_id question) db' = (db', inr (Some question))
  /\ exists before listed,
       getQuestionsByExamId (cqi_exam_id input) db = (db, inr before)
       /\ getQuestionsByExamId (cqi_exam_id input) db' = (db', inr listed)
       /\ Permutation listed (question :: before).
Proof.
  intros [_ Hfresh]. unfold createQuestion. rewrite integer_param_bind.
  destruct (fits_integer _); [|discriminate]. unfold insert_question. run.
  destruct (select_where _ (examsTable db)) as [|e es] eqn:Hexam; simpl; [discriminate|].
  intros [= <- <-]. split; [reflexivity|]. split.
  - apply has_exam_select. simpl. congruence.
  - unfold getQuestionById, getQuestionsByExamId. run.
    rewrite !select_where_app, (select_fresh q_id _ _ Hfresh). simpl.
    rewrite !Z.eqb_refl. simpl. split; [reflexivity|].
    eexists. eexists. split; [reflexivity|]. split; [reflexivity|].
    rewrite !List.map_id. symmetry. apply Permutation_cons_append.
Qed.

Lemma createQuestion_then_found_witness :
  exists db' question,
    createQuestion 5 (mkCreateQuestionInput 1 "Soal 3" ["a"; "b"; "c"; "d"] "B") sample_db
    = (db', inr question)
    /\ q_id question = 3
    /\ getQuestionById 3 db' = (db', inr (Some question)).
Proof.
  eexists. eexists. split; [reflexivity|].
  assert (Hkeys : keyed q_id (questionsTable sample_db) (questions_seq sample_db)).
  { split; [by_decision
           | repeat constructor; simpl; lia]. }
  destruct (createQuestion_then_found 5
              (mkCreateQuestionInput 1 "Soal 3" ["a"; "b"; "c"; "d"] "B")
              sample_db _ _ Hkeys eq_refl) as (_ & _ & Hfound & _).
  split; [reflexivity | exact Hfound].
Defined.




Lemma pruned_cleaned_row (id : Z) (a : Answer) :
  pruned (toString id) a (cleaned_row id a a).
Proof.
  unfold pruned, progress_at. simpl. split; [reflexivity|].
  split; [destruct (progress_jawaban a); simpl; split; congruence|].
  split; [|split].
  - intros k Hk. split; [now apply delete_if_truthy_other|].
    destruct (progress_jawaban a); simpl; [|reflexivity].
    now apply delete_if_truthy_other.
  - intros v Hv Hne. now apply delete_if_truthy_nonempty with v.
  - intros v Hv Hne. destruct (progress_jawaban a); simpl in *; [|discriminate].
    now apply delete_if_truthy_nonempty with v.
Qed.

(** X11: what deleting a question does to the answers, the answer ids
    being distinct.  [deleteQuestion] succeeds on a question that exists;
    the question is gone and the other questions stay; every answer of its
    exam keeps its row with the key of the question pruned from the answers
    and from the progress where its value was not empty, the other keys, the
    score and the submitted flag being kept; the answers of the other exams
    are not touched. *)
Theorem deleteQuestion_prunes (id : Z) (db : DB) (existing : Question) :
  NoDup (List.map a_id (answersTable db)) ->
  head (select_where (fun q => Z.eqb (q_id q) id) (questionsTable db)) = Some existing ->
  exists db',
    deleteQuestion id db = (db', inr tt)
    /\ (forall q, In q (questionsTable db') <-> In q (questionsTable db) /\ q_id q <> id)
    /\ Forall2 (fun a a' =>
                  if Z.eqb (a_exam_id a) (q_exam_id existing)
                  then pruned (toString id) a a' else a' = a)
               (answersTable db) (answersTable db').
Proof.
  intros Hnd Hfind. rewrite (deleteQuestion_run id db existing Hnd Hfind).
  eexists. split; [reflexivity|]. simpl. split.
  - intros q. rewrite In_delete_where. split; intros [Hin Hne]; (split; [exact Hin | lia]).
  - clear Hnd Hfind. generalize (answersTable db) as rows.
    induction rows as [|a rows IH]; simpl; [constructor|].
    constructor; [|exact IH].
    destruct (a_exam_id a =? q_exam_id existing); [apply pruned_cleaned_row | reflexivity].
Qed.

Lemma deleteQuestion_prunes_witness :
  exists db' a',
    deleteQuestion 1 sample_db_submitted = (db', inr tt)
    /\ answersTable db' = [a']
    /\ pruned (toString 1) sample_submitted a'.
Proof.
  destruct (deleteQuestion_prunes 1 sample_db_submitted
              (mkQuestion 1 1 "Soal 1" ["a"; "b"; "c"; "d"] "C" 0))
    as (db' & Hrun & _ & Hrows).
  { by_decision. }
  { reflexivity. }
  simpl in Hrows. inversion Hrows as [|a a' rows rows' Ha Hrest Heq1 Heq2]; subst.
  inversion Hrest; subst.
  exists db', a'. split; [exact Hrun|]. split; [congruence|]. exact Ha.
Defined.

(** ** Tables with keys *)

Lemma keyed_map {R} (key : R -> Z) (g : R -> R) (rows : list R) (next : Z) :
  (forall r, key (g r) = key r) ->
  keyed key rows next -> keyed key (List.map g rows) next.
Proof.
  intros Hkey [Hnd Hlt]. split.
  - rewrite List.map_map. erewrite map_ext; [exact Hnd|]. intros r. apply Hkey.
  - rewrite Forall_forall in *. intros r' Hr'. apply list_elem_of_In, in_map_iff in Hr'.
    destruct Hr' as (r & <- & Hr). rewrite Hkey. apply Hlt. now apply list_elem_of_In.
Qed.

Lemma update_where_map {R} (p : R -> bool) (f : R -> R) (rows : list R) :
  update_where p f rows = List.map (fun r => if p r then f r else r) rows.
Proof. reflexivity. Qed.

Lemma NoDup_map_filter {R K} (key : R -> K) (q : R -> bool) (rows : list R) :
  NoDup (List.map key rows) -> NoDup (List.map key (List.filter q rows)).
Proof.
  induction rows as [|r rows IH]; cbn [List.map List.filter]; [auto|].
  intros Hall. apply NoDup_cons in Hall as [Hnotin Hnd].
  destruct (q r); cbn [List.map]; [|auto].
  apply NoDup_cons. split; [|auto].
  rewrite list_elem_of_In in *.
  intros Hin. apply Hnotin. apply in_map_iff in Hin as (x & Hx & Hin).
  apply filter_In in Hin as [Hin _]. apply in_map_iff. eauto.
Qed.

Lemma keyed_delete {R} (key : R -> Z) (p : R -> bool) (rows : list R) (next : Z) :
  keyed key rows next -> keyed key (delete_where p rows) next.
Proof.
  intros [Hnd Hlt]. split; [now apply NoDup_map_filter|].
  rewrite Forall_forall in *. intros r Hr. apply Hlt.
  apply list_elem_of_In in Hr. apply list_elem_of_In.
  now apply In_delete_where in Hr as [Hr _].
Qed.

Lemma keyed_append {R} (key : R -> Z) (rows : list R) (r : R) (next : Z) :
  keyed key rows next -> key r = next -> keyed key (rows ++ [r]) (next + 1).
Proof.
  intros [Hnd Hlt] Hkey. rewrite Forall_forall in Hlt. split.
  - rewrite map_app. simpl. apply NoDup_app. split; [exact Hnd|]. split.
    + intros k Hk Hnew. apply list_elem_of_In in Hk, Hnew.
      destruct Hnew as [<-|[]]. apply in_map_iff in Hk as (x & Hx & Hin).
      apply list_elem_of_In, Hlt in Hin. lia.
    + apply NoDup_singleton.
  - apply Forall_app. split.
    + rewrite Forall_forall. intros x Hx. specialize (Hlt x Hx). simpl in Hlt. lia.
    + repeat constructor. lia.
Qed.

Lemma keyed_later {R} (key : R -> Z) (rows : list R) (next : Z) :
  keyed key rows next -> keyed key rows (next + 1).
Proof.
  intros [Hnd Hlt]. split; [exact Hnd|]. eapply Forall_impl; [exact Hlt|].
  simpl. intros. lia.
Qed.

Lemma found_in {R} (p : R -> bool) (rows : list R) (r : R) :
  head (select_where p rows) = Some r -> In r rows /\ p r = true.
Proof.
  unfold select_where. intros Hfind.
  destruct (List.filter p rows) as [|x rest] eqn:E; [discriminate|].
  injection Hfind as ->. apply filter_In. rewrite E. now left.
Qed.

Lemma has_exam_of_rows (id : Z) (db db' : DB) :
  has_exam id db ->
  (forall e, In e (examsTable db) -> exists e', In e' (examsTable db') /\ e_id e' = e_id e) ->
  has_exam id db'.
Proof.
  intros (e & Hin & <-) Hkeep. destruct (Hkeep e Hin) as (e' & Hin' & Hid).
  exists e'. auto.
Qed.

Lemma has_user_of_rows (id : Z) (db db' : DB) :
  has_user id db ->
  (forall u, In u (usersTable db) -> exists u', In u' (usersTable db') /\ u_id u' = u_id u) ->
  has_user id db'.
Proof.
  intros (u & Hin & <-) Hkeep. destruct (Hkeep u Hin) as (u' & Hin' & Hid).
  exists u'. auto.
Qed.

(** ** The database stays consistent *)

(** The answers change, row by row, without a change of id, exam or user. *)
Lemma consistent_map_answers (g : Answer -> Answer) (db : DB) :
  (forall a, (a_id (g a), a_exam_id (g a), a_user_id (g a))
             = (a_id a, a_exam_id a, a_user_id a)) ->
  consistent db -> consistent (set_answers (List.map g) db).
Proof.
  intros Hg [Hu He Hq Ha Hmail (Hfq & Hfa & Hfu) Hone Hord].
  assert (Hid : forall a, a_id (g a) = a_id a) by (intros a; now injection (Hg a)).
  constructor; simpl; auto.
  - now apply keyed_map.
  - unfold referential_integrity. unfold has_exam, has_user in *.
    repeat split; simpl; auto; intros a' Hin; apply in_map_iff in Hin as (a & <- & Hin);
      pose proof (Hg a) as [= _ Hexam Huser]; rewrite ?Hexam, ?Huser; auto.
  - unfold one_answer_per_pair in *. simpl. rewrite List.map_map.
    erewrite map_ext; [exact Hone|]. intros a. simpl.
    pose proof (Hg a) as [= _ Hexam Huser]. now rewrite Hexam, Huser.
Qed.

Lemma consistent_delete_answers (p : Answer -> bool) (db : DB) :
  consistent db -> consistent (set_answers (delete_where p) db).
Proof.
  intros [Hu He Hq Ha Hmail (Hfq & Hfa & Hfu) Hone Hord].
  constructor; simpl; auto.
  - now apply keyed_delete.
  - unfold referential_integrity. unfold has_exam, has_user in *.
    repeat split; simpl; auto; intros a Hin; apply In_delete_where in Hin as [Hin _]; auto.
  - unfold one_answer_per_pair in *. simpl. now apply NoDup_map_filter.
Qed.

Lemma consistent_map_questions (g : Question -> Question) (db : DB) :
  (forall q, (q_id (g q), q_exam_id (g q)) = (q_id q, q_exam_id q)) ->
  consistent db -> consistent (set_questions (List.map g) db).
Proof.
  intros Hg [Hu He Hq Ha Hmail (Hfq & Hfa & Hfu) Hone Hord].
  constructor; simpl; auto.
  - apply keyed_map; [|exact Hq]. intros q. now injection (Hg q).
  - unfold referential_integrity. unfold has_exam, has_user in *.
    repeat split; simpl; auto. intros q' Hin. apply in_map_iff in Hin as (q & <- & Hin).
    pose proof (Hg q) as [= _ Hexam]. rewrite Hexam. auto.
Qed.

Lemma consistent_delete_questions (p : Question -> bool) (db : DB) :
  consistent db -> consistent (set_questions (delete_where p) db).
Proof.
  intros [Hu He Hq Ha Hmail (Hfq & Hfa & Hfu) Hone Hord].
  constructor; simpl; auto.
  - now apply keyed_delete.
  - unfold referential_integrity. unfold has_exam, has_user in *.
    repeat split; simpl; auto. intros q Hin. apply In_delete_where in Hin as [Hin _]. auto.
Qed.

Lemma consistent_map_users (g : User -> User) (db : DB) :
  (forall u, u_id (g u) = u_id u) ->
  NoDup (List.map u_email (List.map g (usersTable db))) ->
  consistent db -> consistent (set_users (List.map g) db).
Proof.
  intros Hg Hmail' [Hu He Hq Ha Hmail (Hfq & Hfa & Hfu) Hone Hord].
  constructor; simpl; auto.
  - now apply keyed_map.
  - unfold referential_integrity. unfold has_exam, has_user in *.
    repeat split; simpl; auto. intros a Hin.
    destruct (Hfu a Hin) as (u & Hu' & Hid). exists (g u).
    split; [now apply in_map | now rewrite Hg].
Qed.

Lemma consistent_delete_users (p : User -> bool) (db : DB) :
  (forall a u, In a (answersTable db) -> In u (usersTable db) -> p u = true ->
               a_user_id a <> u_id u) ->
  consistent db -> consistent (set_users (delete_where p) db).
Proof.
  intros Hfree [Hu He Hq Ha Hmail (Hfq & Hfa & Hfu) Hone Hord].
  constructor; simpl; auto.
  - now apply keyed_delete.
  - now apply NoDup_map_filter.
  - unfold referential_integrity. unfold has_exam, has_user in *.
    repeat split; simpl; auto. intros a Hin.
    destruct (Hfu a Hin) as (u & Hu' & Hid). exists u. split; [|exact Hid].
    apply In_delete_where. split; [exact Hu'|].
    destruct (p u) eqn:Hp; [|reflexivity].
    exfalso. exact (Hfree a u Hin Hu' Hp (eq_sym Hid)).
Qed.

Lemma consistent_map_exams (g : Exam -> Exam) (db : DB) :
  (forall e, e_id (g e) = e_id e) ->
  (forall e, In e (examsTable db) -> tanggal_mulai (g e) < tanggal_selesai (g e)) ->
  consistent db -> consistent (set_exams (List.map g) db).
Proof.
  intros Hg Hord' [Hu He Hq Ha Hmail (Hfq & Hfa & Hfu) Hone Hord].
  assert (Hkeep : forall id, (exists e, In e (examsTable db) /\ e_id e = id) ->
                             exists e, In e (List.map g (examsTable db)) /\ e_id e = id).
  { intros id (e & Hin & Hid). exists (g e). split; [now apply in_map | now rewrite Hg]. }
  constructor; simpl; auto.
  - now apply keyed_map.
  - unfold referential_integrity. unfold has_exam, has_user in *.
    repeat split; simpl; auto.
  - intros e' Hin. simpl in Hin. apply in_map_iff in Hin as (e & <- & Hin). auto.
Qed.

Lemma consistent_delete_exams (p : Exam -> bool) (db : DB) :
  (forall q e, In q (questionsTable db) -> In e (examsTable db) -> p e = true ->
               q_exam_id q <> e_id e) ->
  (forall a e, In a (answersTable db) -> In e (examsTable db) -> p e = true ->
               a_exam_id a <> e_id e) ->
  consistent db -> consistent (set_exams (delete_where p) db).
Proof.
  intros Hfreeq Hfreea [Hu He Hq Ha Hmail (Hfq & Hfa & Hfu) Hone Hord].
  constructor; simpl; auto.
  - now apply keyed_delete.
  - unfold referential_integrity. unfold has_exam, has_user in *.
    repeat split; simpl; auto.
    + intros q Hin. destruct (Hfq q Hin) as (e & He' & Hid). exists e. split; [|exact Hid].
      apply In_delete_where. split; [exact He'|].
      destruct (p e) eqn:Hp; [|reflexivity].
      exfalso. exact (Hfreeq q e Hin He' Hp (eq_sym Hid)).
    + intros a Hin. destruct (Hfa a Hin) as (e & He' & Hid). exists e. split; [|exact Hid].
      apply In_delete_where. split; [exact He'|].
      destruct (p e) eqn:Hp; [|reflexivity].
      exfalso. exact (Hfreea a e Hin He' Hp (eq_sym Hid)).
  - intros e Hin. simpl in Hin. apply In_delete_where in Hin as [Hin _]. auto.
Qed.

Lemma consistent_users_seq (db : DB) :
  consistent db ->
  consistent (mkDB (usersTable db) (examsTable db) (questionsTable db) (answersTable db)
                   (users_seq db + 1) (exams_seq db) (questions_seq db) (answers_seq db)).
Proof.
  intros [Hu He Hq Ha Hmail Hfk Hone Hord].
  constructor; simpl; auto. now apply keyed_later.
Qed.

Lemma consistent_append_user (row : User) (db : DB) :
  u_id row = users_seq db ->
  (forall u, In u (usersTable db) -> u_email u <> u_email row) ->
  consistent db ->
  consistent (mkDB (usersTable db ++ [row]) (examsTable db) (questionsTable db)
                   (answersTable db)
                   (users_seq db + 1) (exams_seq db) (questions_seq db) (answers_seq db)).
Proof.
  intros Hid Hfree [Hu He Hq Ha Hmail (Hfq & Hfa & Hfu) Hone Hord].
  constructor; simpl; auto.
  - now apply keyed_append.
  - rewrite map_app. simpl. apply NoDup_app. split; [exact Hmail|]. split.
    + intros m Hm Hnew. apply list_elem_of_In in Hm, Hnew. destruct Hnew as [<-|[]].
      apply in_map_iff in Hm as (u & Hmu & Hin). exact (Hfree u Hin Hmu).
    + apply NoDup_singleton.
  - unfold referential_integrity. unfold has_exam, has_user in *.
    repeat split; simpl; auto. intros a Hin.
    destruct (Hfu a Hin) as (u & Hu' & Hid'). exists u. split; [|exact Hid'].
    apply in_or_app. now left.
Qed.

Lemma consistent_append_exam (row : Exam) (db : DB) :
  e_id row = exams_seq db ->
  tanggal_mulai row < tanggal_selesai row ->
  consistent db ->
  consistent (mkDB (usersTable db) (examsTable db ++ [row]) (questionsTable db)
                   (answersTable db)
                   (users_seq db) (exams_seq db + 1) (questions_seq db) (answers_seq db)).
Proof.
  intros Hid Hrow [Hu He Hq Ha Hmail (Hfq & Hfa & Hfu) Hone Hord].
  constructor; simpl; auto.
  - now apply keyed_append.
  - unfold referential_integrity. unfold has_exam, has_user in *.
    repeat split; simpl; auto.
    + intros q Hin. destruct (Hfq q Hin) as (e & He' & Hid'). exists e.
      split; [apply in_or_app; now left | exact Hid'].
    + intros a Hin. destruct (Hfa a Hin) as (e & He' & Hid'). exists e.
      split; [apply in_or_app; now left | exact Hid'].
  - intros e Hin. simpl in Hin. apply in_app_or in Hin as [Hin|[<-|[]]]; auto.
Qed.

Lemma consistent_append_question (row : Question) (db : DB) :
  q_id row = questions_seq db ->
  has_exam (q_exam_id row) db ->
  consistent db ->
  consistent (mkDB (usersTable db) (examsTable db) (questionsTable db ++ [row])
                   (answersTable db)
                   (users_seq db) (exams_seq db) (questions_seq db + 1) (answers_seq db)).
Proof.
  intros Hid Hexam [Hu He Hq Ha Hmail (Hfq & Hfa & Hfu) Hone Hord].
  constructor; simpl; auto.
  - now apply keyed_append.
  - unfold referential_integrity. unfold has_exam, has_user in *.
    repeat split; simpl; auto.
    intros q Hin. apply in_app_or in Hin as [Hin|[<-|[]]]; auto.
Qed.

Lemma consistent_append_answer (row : Answer) (db : DB) :
  a_id row = answers_seq db ->
  has_exam (a_exam_id row) db ->
  has_user (a_user_id row) db ->
  (forall a, In a (answersTable db) ->
             (a_exam_id a, a_user_id a) <> (a_exam_id row, a_user_id row)) ->
  consistent db ->
  consistent (mkDB (usersTable db) (examsTable db) (questionsTable db)
                   (answersTable db ++ [row])
                   (users_seq db) (exams_seq db) (questions_seq db) (answers_seq db + 1)).
Proof.
  intros Hid Hexam Huser Hfree [Hu He Hq Ha Hmail (Hfq & Hfa & Hfu) Hone Hord].
  constructor; simpl; auto.
  - now apply keyed_append.
  - unfold referential_integrity. unfold has_exam, has_user in *.
    repeat split; simpl; auto; intros a Hin; apply in_app_or in Hin as [Hin|[<-|[]]]; auto.
  - unfold one_answer_per_pair in *. simpl. rewrite map_app. simpl.
    apply NoDup_app. split; [exact Hone|]. split.
    + intros pair Hp Hnew. apply list_elem_of_In in Hp, Hnew. destruct Hnew as [<-|[]].
      apply in_map_iff in Hp as (a & Hpa & Hin). exact (Hfree a Hin Hpa).
    + apply NoDup_singleton.
Qed.

Lemma submitExam_run (now : Z) (input : SubmitExamInput) (db : DB) :
  submitExam now input db
  = match find_answer (sei_id input) db with
    | None => (db, inl AnswerNotFound)
    | Some existing =>
        if is_submitted existing then (db, inl AlreadySubmitted)
        else
          match outcome (calculateScore (a_exam_id existing) (sei_jawaban input) db) with
          | inl e => (db, inl e)
          | inr score =>
              let set := submitted_row (sei_jawaban input) score now in
              (set_answers (update_where (fun a => Z.eqb (a_id a) (sei_id input)) set) db,
               inr (set existing))
          end
    end.
Proof.
  unfold submitExam, find_answer, update_answers.
  unfold bind at 1. unfold gets at 1.
  destruct (select_where _ (answersTable db)) as [|existing rest] eqn:Hsel; [reflexivity|].
  simpl. destruct (is_submitted existing) eqn:Hflag; [reflexivity|].
  destruct (calculateScore_reads (a_exam_id existing) (sei_jawaban input) db) as [score Hs].
  unfold bind. rewrite Hs. simpl. rewrite Hsel. reflexivity.
Qed.

Lemma fold_clean_keeps (id : Z) (todo : list Answer) (r : Answer) :
  (a_id (fold_left (clean_step id) todo r), a_exam_id (fold_left (clean_step id) todo r),
   a_user_id (fold_left (clean_step id) todo r))
  = (a_id r, a_exam_id r, a_user_id r).
Proof.
  revert r. induction todo as [|x todo IH]; intros r; simpl; [reflexivity|].
  rewrite IH. unfold clean_step. now destruct (a_id r =? a_id x).
Qed.

(** The database that [deleteQuestion] leaves. *)
Lemma deleteQuestion_state (id : Z) (db : DB) :
  state_of (deleteQuestion id db)
  = match head (select_where (fun q => Z.eqb (q_id q) id) (questionsTable db)) with
    | None => db
    | Some existing =>
        set_questions (delete_where (fun q => Z.eqb (q_id q) id))
          (set_answers
             (List.map (fun r =>
                fold_left (clean_step id)
                  (select_where (fun a => Z.eqb (a_exam_id a) (q_exam_id existing))
                                (answersTable db)) r))
             db)
    end.
Proof.
  unfold deleteQuestion, getQuestionById.
  unfold bind at 1. unfold bind at 1. unfold gets at 1.
  destruct (select_where (fun q => Z.eqb (q_id q) id) (questionsTable db));
    [reflexivity|].
  unfold ret at 1. unfold bind at 1. unfold gets at 1. unfold bind at 1.
  rewrite for_each_clean. reflexivity.
Qed.

Lemma consistent_update_answers (p : Answer -> bool) (f : Answer -> Answer) (db : DB) :
  (forall a, (a_id (f a), a_exam_id (f a), a_user_id (f a))
             = (a_id a, a_exam_id a, a_user_id a)) ->
  consistent db -> consistent (set_answers (update_where p f) db).
Proof.
  intros Hf Hdb.
  apply (consistent_map_answers (fun a => if p a then f a else a)); [|exact Hdb].
  intros a. destruct (p a); [apply Hf | reflexivity].
Qed.

(** Every handler keeps the database consistent. *)
Lemma consistent_after (c : Call) (db : DB) : consistent db -> consistent (after c db).
Proof.
  intros Hdb. destruct c; unfold after.
  - (* createUser *)
    unfold Users.createUser, Users.insert_user. run.
    destruct (existsb _ (usersTable db)) eqn:Hfree; simpl.
    + now apply consistent_users_seq.
    + apply consistent_append_user; [reflexivity| |exact Hdb].
      intros u Hu Heq. simpl in Heq.
      assert (existsb (fun u => String.eqb (u_email u) (Users.email input)) (usersTable db)
              = true)
        by (apply existsb_exists; exists u; split; [exact Hu | now apply String.eqb_eq]).
      congruence.
  - (* updateUser *)
    unfold Users.updateUser.
    destruct (Users.user_updateData_empty input); [exact Hdb|].
    unfold Users.update_users. run.
    destruct (bool_decide _) eqn:Hmail; simpl; [|exact Hdb].
    apply bool_decide_eq_true in Hmail.
    assert (Hnew : consistent (set_users (List.map (fun u =>
               if Z.eqb (u_id u) (Users.uui_id input)
               then Users.apply_user_update input u else u)) db)).
    { apply consistent_map_users; [|exact Hmail|exact Hdb].
      intros u. now destruct (u_id u =? Users.uui_id input). }
    destruct (List.map _ (select_where _ (usersTable db))); exact Hnew.
  - (* deleteUser *)
    unfold Users.deleteUser. rewrite integer_param_bind.
    destruct (fits_integer _); [|exact Hdb]. unfold Users.delete_users. run.
    destruct (existsb _ (answersTable db)) eqn:Hfk; simpl; [exact Hdb|].
    assert (Hnew : consistent (set_users (delete_where (fun u => Z.eqb (u_id u) id)) db)).
    { apply consistent_delete_users; [|exact Hdb].
      intros a u Ha Hu Hp Heq.
      assert (existsb (fun a => existsb (fun u => Z.eqb (a_user_id a) (u_id u))
                (select_where (fun u => Z.eqb (u_id u) id) (usersTable db)))
                (answersTable db) = true); [|congruence].
      apply existsb_exists. exists a. split; [exact Ha|].
      apply existsb_exists. exists u. split; [now apply filter_In | lia]. }
    destruct (length _ =? 0)%nat; exact Hnew.
  - (* resetUserPassword *)
    unfold Users.resetUserPassword, Users.update_users. run.
    destruct (bool_decide _) eqn:Hmail; simpl; [|exact Hdb].
    apply bool_decide_eq_true in Hmail.
    set (f := fun u => mkUser (u_id u) (u_nama u) (u_email u)
                         (Users.hashPassword (Users.rpi_newPassword input)) (u_role u)
                         (u_kelas u) (u_created_at u)) in *.
    assert (Hnew : consistent (set_users (List.map (fun u =>
               if Z.eqb (u_id u) (Users.rpi_id input) then f u else u)) db)).
    { apply consistent_map_users; [|exact Hmail|exact Hdb].
      intros u. now destruct (u_id u =? Users.rpi_id input). }
    destruct (List.map _ (select_where _ (usersTable db))); exact Hnew.
  - (* createExam *)
    unfold createExam, insert_exam.
    destruct (Z.leb_spec (cei_tanggal_selesai input) (cei_tanggal_mulai input));
      [exact Hdb|].
    run. apply consistent_append_exam; [reflexivity|simpl; lia|exact Hdb].
  - (* updateExam *)
    pose proof (updateExam_keeps_order input db (proj1 (exams_keyed db Hdb))
                  (dates_ordered db Hdb)) as Hord.
    rewrite updateExam_run in *.
    destruct (date_guards input db) as [e|[]]; [exact Hdb|].
    destruct (exam_updateData_empty input); [exact Hdb|].
    unfold state_of in *. simpl in *.
    apply consistent_map_exams; [| |exact Hdb].
    + intros e. now destruct (e_id e =? uei_id input).
    + intros e He. apply Hord. simpl. unfold update_where.
      exact (in_map (fun r => if e_id r =? uei_id input then apply_update input r else r)
                    _ e He).
  - (* deleteExam *)
    rewrite deleteExam_run. destruct (fits_integer id); [|exact Hdb].
    unfold state_of. simpl.
    change (consistent
              (set_exams (delete_where (fun e => Z.eqb (e_id e) id))
                 (set_questions (delete_where (fun q => Z.eqb (q_exam_id q) id))
                    (set_answers (delete_where (fun a => Z.eqb (a_exam_id a) id)) db)))).
    apply consistent_delete_exams.
    + simpl. intros q e Hq _ He. apply In_delete_where in Hq as [_ Hq]. lia.
    + simpl. intros a e Ha _ He. apply In_delete_where in Ha as [_ Ha]. lia.
    + now apply consistent_delete_questions, consistent_delete_answers.
  - (* createQuestion *)
    unfold createQuestion. rewrite integer_param_bind.
    destruct (fits_integer _); [|exact Hdb]. unfold insert_question. run.
    destruct (select_where _ (examsTable db)) as [|e es] eqn:Hexam; simpl; [exact Hdb|].
    apply consistent_append_question; [reflexivity| |exact Hdb].
    apply has_exam_select. simpl. congruence.
  - (* updateQuestion *)
    unfold updateQuestion, getQuestionById, update_questions. run.
    destruct (select_where _ (questionsTable db)) as [|q qs] eqn:Hsel; simpl; [exact Hdb|].
    destruct (question_updateData_empty input); simpl; [exact Hdb|].
    rewrite Hsel. simpl.
    apply (consistent_map_questions (fun q =>
             if Z.eqb (q_id q) (uqi_id input) then apply_question_update input q else q));
      [|exact Hdb].
    intros q'. now destruct (q_id q' =? uqi_id input).
  - (* deleteQuestion *)
    rewrite deleteQuestion_state.
    destruct (head _); [|exact Hdb].
    apply consistent_delete_questions, consistent_map_answers; [|exact Hdb].
    intros a. apply fold_clean_keeps.
  - (* createAnswer *)
    rewrite createAnswer_run.
    destruct (fits_integer _ && fits_integer _); [|exact Hdb].
    destruct (select_where _ (answersTable db)) eqn:Hnone; [|exact Hdb].
    destruct (select_where _ (usersTable db)) eqn:Huser; [exact Hdb|].
    destruct (select_where _ (examsTable db)) eqn:Hexam; [exact Hdb|].
    unfold state_of. simpl. apply consistent_append_answer; try exact Hdb.
    + reflexivity.
    + apply has_exam_select. simpl. congruence.
    + apply has_user_select. simpl. congruence.
    + intros a Ha [= He Hu]. rewrite select_where_nil in Hnone.
      specialize (Hnone a Ha). unfold answer_of in Hnone.
      rewrite He, Hu, !Z.eqb_refl in Hnone. discriminate.
  - (* updateProgress *)
    rewrite updateProgress_run.
    destruct (find_answer _ db) as [existing|]; [|exact Hdb].
    destruct (is_submitted existing); [exact Hdb|].
    unfold state_of. simpl.
    apply consistent_update_answers; [reflexivity | exact Hdb].
  - (* submitExam *)
    rewrite submitExam_run.
    destruct (find_answer _ db) as [existing|]; [|exact Hdb].
    destruct (is_submitted existing); [exact Hdb|].
    destruct (outcome _); [exact Hdb|].
    unfold state_of. simpl.
    apply consistent_update_answers; [reflexivity | exact Hdb].
Qed.

(** X12: the handlers keep the database consistent.  If the ids of each
    table are distinct and below its sequence, the emails are distinct, every
    question and answer refers to an exam and every answer to a user of the
    database, there is at most one answer per exam and user, and every exam
    ends after it starts, then the same holds after any sequence of calls of
    the handlers that write, whatever they return. *)
Theorem handlers_keep_consistency (calls : list Call) (db : DB) :
  consistent db -> consistent (after_all calls db).
Proof.
  revert db. induction calls as [|c calls IH]; intros db Hdb; simpl; [exact Hdb|].
  apply IH, consistent_after, Hdb.
Qed.

Lemma consistent_empty : consistent empty_db.
Proof.
  constructor; simpl; try (split; constructor); try constructor;
    try (unfold referential_integrity; simpl; tauto); try (intros ? []).
Qed.

Lemma handlers_keep_consistency_witness :
  consistent
    (after_all
       [CreateUser 0 registration;
        CreateExam 1 (mkCreateExamInput "Ujian" "" 1000 2000 60 aktif);
        CreateQuestion 2 (mkCreateQuestionInput 1 "Soal" ["a"; "b"; "c"; "d"] "A");
        CreateAnswer 3 first_attempt;
        SubmitExam 4 (mkSubmitExamInput 1 {["1" := "A"]});
        DeleteUser 1;
        DeleteQuestion 1;
        DeleteExam 1]
       empty_db).
Proof. apply (handlers_keep_consistency _ empty_db). exact consistent_empty. Defined.

(** ** Submitted answers *)

Lemma answers_untouched (c : Call) (db : DB) :
  leaves_answers c = true ->
  answersTable (after c db) = answersTable db /\ answers_seq (after c db) = answers_seq db.
Proof.
  destruct c; try discriminate; intros _; unfold after.
  - unfold Users.createUser, Users.insert_user. run.
    destruct (existsb _ (usersTable db)); simpl; split; reflexivity.
  - unfold Users.updateUser.
    destruct (Users.user_updateData_empty input); [split; reflexivity|].
    unfold Users.update_users. run.
    destruct (bool_decide _); simpl; [|split; reflexivity].
    destruct (List.map _ (select_where _ (usersTable db))); split; reflexivity.
  - unfold Users.deleteUser. rewrite integer_param_bind.
    destruct (fits_integer _); [|split; reflexivity]. unfold Users.delete_users. run.
    destruct (existsb _ (answersTable db)); simpl; [split; reflexivity|].
    destruct (length _ =? 0)%nat; split; reflexivity.
  - unfold Users.resetUserPassword, Users.update_users. run.
    destruct (bool_decide _); simpl; [|split; reflexivity].
    destruct (List.map _ (select_where _ (usersTable db))); split; reflexivity.
  - unfold createExam, insert_exam.
    destruct (_ <=? _); split; reflexivity.
  - rewrite updateExam_run.
    destruct (date_guards input db); [|destruct (exam_updateData_empty input)];
      split; reflexivity.
  - unfold createQuestion. rewrite integer_param_bind.
    destruct (fits_integer _); [|split; reflexivity]. unfold insert_question. run.
    destruct (select_where _ (examsTable db)); split; reflexivity.
  - unfold updateQuestion, getQuestionById, update_questions. run.
    destruct (select_where _ (questionsTable db)) eqn:Hsel; simpl; [split; reflexivity|].
    destruct (question_updateData_empty input); simpl; [split; reflexivity|].
    rewrite Hsel. split; reflexivity.
Qed.

(** Where the rows of the table of answers come from after a call. *)
Lemma answers_after (c : Call) (db : DB) :
  consistent db ->
  answers_seq db <= answers_seq (after c db)
  /\ forall a', In a' (answersTable (after c db)) ->
       a_id a' = answers_seq db
       \/ exists a, In a (answersTable db) /\ a_id a' = a_id a /\ row_step a a'.
Proof.
  intros Hdb. pose proof (proj1 (answers_keyed db Hdb)) as Hnd.
  assert (Hsame : forall a', In a' (answersTable db) ->
            a_id a' = answers_seq db
            \/ exists a, In a (answersTable db) /\ a_id a' = a_id a /\ row_step a a').
  { intros a' Hin. right. exists a'. split; [exact Hin|]. split; [reflexivity|]. now left. }
  assert (Hdone : answers_seq db <= answers_seq db
                  /\ forall a', In a' (answersTable db) ->
                       a_id a' = answers_seq db
                       \/ exists a, In a (answersTable db) /\ a_id a' = a_id a
                                    /\ row_step a a')
    by (split; [lia | exact Hsame]).
  destruct (leaves_answers c) eqn:Hc.
  { destruct (answers_untouched c db Hc) as [-> ->]. exact Hdone. }
  destruct c; try discriminate; unfold after.
  - (* deleteExam *)
    rewrite deleteExam_run. destruct (fits_integer id); [|exact Hdone].
    unfold state_of. simpl. split; [lia|].
    intros a' Hin. apply In_delete_where in Hin as [Hin _]. auto.
  - (* deleteQuestion *)
    rewrite deleteQuestion_state.
    destruct (head _) as [existing|]; [|exact Hdone].
    simpl. split; [lia|]. intros a' Hin. apply in_map_iff in Hin as (r & <- & Hr).
    right. exists r. split; [exact Hr|].
    pose proof (fold_clean_keeps id
      (select_where (fun a => Z.eqb (a_exam_id a) (q_exam_id existing)) (answersTable db)) r)
      as [= Hid _ _].
    split; [exact Hid|].
    destruct (fold_clean_step id
      (select_where (fun a => Z.eqb (a_exam_id a) (q_exam_id existing)) (answersTable db)) r)
      as [-> _].
    { intros x Hx Heq. apply filter_In in Hx as [Hx _].
      exact (key_injective a_id _ _ _ Hnd Hx Hr Heq). }
    destruct (existsb _ _); [right; right; eauto | now left].
  - (* createAnswer *)
    rewrite createAnswer_run.
    destruct (fits_integer _ && fits_integer _); [|exact Hdone].
    destruct (select_where _ (answersTable db)); [|exact Hdone].
    destruct (select_where _ (usersTable db)); [exact Hdone|].
    destruct (select_where _ (examsTable db)); [exact Hdone|].
    unfold state_of. simpl. split; [lia|].
    intros a' Hin. apply in_app_or in Hin as [Hin|[<-|[]]]; [auto | now left].
  - (* updateProgress *)
    rewrite updateProgress_run.
    destruct (find_answer _ db) as [existing|] eqn:Hfind; [|exact Hdone].
    destruct (is_submitted existing) eqn:Hflag; [exact Hdone|].
    unfold state_of. simpl. split; [lia|].
    intros a' Hin. apply in_map_iff in Hin as (r & <- & Hr).
    right. exists r. split; [exact Hr|].
    destruct (Z.eqb_spec (a_id r) (upi_id input)) as [Hid|_];
      [|split; [reflexivity | now left]].
    split; [reflexivity|]. right. left.
    apply found_in in Hfind as [Hex Hexid].
    rewrite (key_injective a_id _ r existing Hnd Hr Hex); [exact Hflag | lia].
  - (* submitExam *)
    rewrite submitExam_run.
    destruct (find_answer _ db) as [existing|] eqn:Hfind; [|exact Hdone].
    destruct (is_submitted existing) eqn:Hflag; [exact Hdone|].
    destruct (outcome _); [exact Hdone|].
    unfold state_of. simpl. split; [lia|].
    intros a' Hin. apply in_map_iff in Hin as (r & <- & Hr).
    right. exists r. split; [exact Hr|].
    destruct (Z.eqb_spec (a_id r) (sei_id input)) as [Hid|_];
      [|split; [reflexivity | now left]].
    split; [reflexivity|]. right. left.
    apply found_in in Hfind as [Hex Hexid].
    rewrite (key_injective a_id _ r existing Hnd Hr Hex); [exact Hflag | lia].
Qed.

Lemma frozen_refl (a : Answer) : is_submitted a = true -> frozen a a.
Proof. intros H. repeat split; auto. Qed.

Lemma frozen_trans (a b c : Answer) : frozen a b -> frozen b c -> frozen a c.
Proof.
  intros (_ & H1 & H2 & H3 & H4 & H5) (G0 & G1 & G2 & G3 & G4 & G5).
  repeat split; try congruence. now transitivity (jawaban b).
Qed.

Lemma frozen_step (a a' : Answer) :
  is_submitted a = true -> row_step a a' -> frozen a a'.
Proof.
  intros Hsub [->|[Hno|[id ->]]]; [now apply frozen_refl | congruence|].
  repeat split; auto. simpl. unfold delete_if_truthy.
  destruct (jawaban a !! toString id) as [v|]; [|reflexivity].
  destruct (truthy v); [apply delete_subseteq | reflexivity].
Qed.

(** A submitted answer after one call. *)
Lemma submitted_after (c : Call) (db : DB) (id : Z) (a : Answer) :
  consistent db ->
  find_answer id db = Some a -> is_submitted a = true ->
  match find_answer id (after c db) with
  | Some a' => frozen a a'
  | None => True
  end.
Proof.
  intros Hdb Hfind Hsub. destruct (answers_keyed db Hdb) as [Hnd Hlt].
  apply found_in in Hfind as [Hin Hid].
  destruct (find_answer id (after c db)) as [a'|] eqn:Hfind'; [|exact I].
  apply found_in in Hfind' as [Hin' Hid'].
  destruct (answers_after c db Hdb) as [_ Hrows].
  destruct (Hrows a' Hin') as [Hnew|(r & Hr & Hsame & Hstep)].
  - rewrite Forall_forall in Hlt. apply list_elem_of_In, Hlt in Hin. lia.
  - rewrite (key_injective a_id _ r a Hnd Hr Hin) in Hstep by lia.
    now apply frozen_step.
Qed.

(** An id that no answer has, and that is below the sequence, after one
    call. *)
Lemma absent_after (c : Call) (db : DB) (id : Z) :
  consistent db ->
  find_answer id db = None -> id < answers_seq db ->
  find_answer id (after c db) = None.
Proof.
  intros Hdb Hnone Hlt.
  destruct (find_answer id (after c db)) as [a'|] eqn:Hfind'; [|reflexivity].
  apply found_in in Hfind' as [Hin' Hid'].
  destruct (answers_after c db Hdb) as [_ Hrows].
  unfold find_answer in Hnone.
  destruct (select_where _ (answersTable db)) eqn:Hsel; [|discriminate].
  rewrite select_where_nil in Hsel.
  destruct (Hrows a' Hin') as [Hnew|(r & Hr & Hsame & _)]; [lia|].
  specialize (Hsel r Hr). lia.
Qed.

Lemma exams_untouched (c : Call) (db : DB) :
  leaves_exams c = true ->
  examsTable (after c db) = examsTable db /\ exams_seq (after c db) = exams_seq db.
Proof.
  destruct c; try discriminate; intros _; unfold after.
  - unfold Users.createUser, Users.insert_user. run.
    destruct (existsb _ (usersTable db)); simpl; split; reflexivity.
  - unfold Users.updateUser.
    destruct (Users.user_updateData_empty input); [split; reflexivity|].
    unfold Users.update_users. run.
    destruct (bool_decide _); simpl; [|split; reflexivity].
    destruct (List.map _ (select_where _ (usersTable db))); split; reflexivity.
  - unfold Users.deleteUser. rewrite integer_param_bind.
    destruct (fits_integer _); [|split; reflexivity]. unfold Users.delete_users. run.
    destruct (existsb _ (answersTable db)); simpl; [split; reflexivity|].
    destruct (length _ =? 0)%nat; split; reflexivity.
  - unfold Users.resetUserPassword, Users.update_users. run.
    destruct (bool_decide _); simpl; [|split; reflexivity].
    destruct (List.map _ (select_where _ (usersTable db))); split; reflexivity.
  - unfold createQuestion. rewrite integer_param_bind.
    destruct (fits_integer _); [|split; reflexivity]. unfold insert_question. run.
    destruct (select_where _ (examsTable db)); split; reflexivity.
  - unfold updateQuestion, getQuestionById, update_questions. run.
    destruct (select_where _ (questionsTable db)) eqn:Hsel; simpl; [split; reflexivity|].
    destruct (question_updateData_empty input); simpl; [split; reflexivity|].
    rewrite Hsel. split; reflexivity.
  - rewrite deleteQuestion_state. destruct (head _); split; reflexivity.
  - rewrite createAnswer_run.
    destruct (fits_integer _ && fits_integer _); [|split; reflexivity].
    destruct (select_where _ (answersTable db)); [|split; reflexivity].
    destruct (select_where _ (usersTable db)); [split; reflexivity|].
    destruct (select_where _ (examsTable db)); split; reflexivity.
  - rewrite updateProgress_run.
    destruct (find_answer _ db) as [existing|]; [|split; reflexivity].
    destruct (is_submitted existing); split; reflexivity.
  - rewrite submitExam_run.
    destruct (find_answer _ db) as [existing|]; [|split; reflexivity].
    destruct (is_submitted existing); [split; reflexivity|].
    destruct (outcome _); split; reflexivity.
Qed.

(** Where the rows of the table of exams come from after a call. *)
Lemma exams_after (c : Call) (db : DB) :
  exams_seq db <= exams_seq (after c db)
  /\ forall e', In e' (examsTable (after c db)) ->
       e_id e' = exams_seq db
       \/ exists e, In e (examsTable db) /\ e_id e' = e_id e.
Proof.
  assert (Hdone : exams_seq db <= exams_seq db
                  /\ forall e', In e' (examsTable db) ->
                       e_id e' = exams_seq db
                       \/ exists e, In e (examsTable db) /\ e_id e' = e_id e)
    by (split; [lia | intros e' Hin; right; exists e'; auto]).
  destruct (leaves_exams c) eqn:Hc.
  { destruct (exams_untouched c db Hc) as [-> ->]. exact Hdone. }
  destruct c; try discriminate; unfold after.
  - unfold createExam, insert_exam. destruct (_ <=? _); [exact Hdone|]. run.
    split; [lia|]. intros e' Hin.
    apply in_app_or in Hin as [Hin|[<-|[]]]; [right; exists e'; auto | now left].
  - rewrite updateExam_run. destruct (date_guards input db); [exact Hdone|].
    destruct (exam_updateData_empty input); [exact Hdone|].
    unfold state_of. simpl. split; [lia|]. intros e' Hin.
    unfold update_where in Hin. apply in_map_iff in Hin as (r & <- & Hr).
    right. exists r. split; [exact Hr|]. now destruct (e_id r =? uei_id input).
  - rewrite deleteExam_run. destruct (fits_integer id); [|exact Hdone].
    unfold state_of. simpl. split; [lia|].
    intros e' Hin. apply In_delete_where in Hin as [Hin _]. right. exists e'. auto.
Qed.

(** An exam id below the sequence that no exam has is not given again. *)
Lemma exam_absent_after (c : Call) (db : DB) (id : Z) :
  id < exams_seq db -> ~ has_exam id db -> ~ has_exam id (after c db).
Proof.
  intros Hlt Hno (e' & Hin & Hid). destruct (exams_after c db) as [_ Hrows].
  destruct (Hrows e' Hin) as [Hnew|(e & He & Hsame)]; [lia|].
  apply Hno. exists e. split; [exact He | lia].
Qed.

(** An answer row goes only when [deleteExam] is called for its exam. *)
Lemma answer_kept (c : Call) (db : DB) (a : Answer) :
  In a (answersTable db) ->
  c = DeleteExam (a_exam_id a)
  \/ exists a', In a' (answersTable (after c db)) /\ a_id a' = a_id a.
Proof.
  intros Ha.
  destruct (leaves_answers c) eqn:Hc.
  { right. destruct (answers_untouched c db Hc) as [-> _]. exists a. auto. }
  destruct c; try discriminate; unfold after.
  - destruct (Z.eq_dec id (a_exam_id a)) as [->|Hne]; [now left|]. right.
    rewrite deleteExam_run. destruct (fits_integer id); [|exists a; auto].
    unfold state_of. simpl. exists a. split; [|reflexivity].
    apply In_delete_where. split; [exact Ha | lia].
  - right. rewrite deleteQuestion_state.
    destruct (head _) as [existing|]; [|exists a; auto]. simpl.
    eexists. split; [apply in_map, Ha|].
    now pose proof (fold_clean_keeps id
      (select_where (fun x => Z.eqb (a_exam_id x) (q_exam_id existing)) (answersTable db)) a)
      as [= -> _ _].
  - right. rewrite createAnswer_run.
    destruct (fits_integer _ && fits_integer _); [|exists a; auto].
    destruct (select_where _ (answersTable db)); [|exists a; auto].
    destruct (select_where _ (usersTable db)); [exists a; auto|].
    destruct (select_where _ (examsTable db)); [exists a; auto|].
    unfold state_of. simpl. exists a. split; [apply in_or_app; now left | reflexivity].
  - right. rewrite updateProgress_run.
    destruct (find_answer _ db) as [existing|]; [|exists a; auto].
    destruct (is_submitted existing); [exists a; auto|].
    unfold state_of, update_where. simpl.
    eexists. split; [apply in_map, Ha|]. now destruct (a_id a =? upi_id input).
  - right. rewrite submitExam_run.
    destruct (find_answer _ db) as [existing|]; [|exists a; auto].
    destruct (is_submitted existing); [exists a; auto|].
    destruct (outcome _); [exists a; auto|].
    unfold state_of, update_where. simpl.
    eexists. split; [apply in_map, Ha|]. now destruct (a_id a =? sei_id input).
Qed.

(** A row with the id is found. *)
Lemma find_answer_some (id : Z) (db : DB) (a : Answer) :
  In a (answersTable db) -> a_id a = id -> find_answer id db <> None.
Proof.
  intros Ha Hid Hnone. unfold find_answer in Hnone.
  destruct (select_where _ (answersTable db)) eqn:Hsel; [|discriminate].
  rewrite select_where_nil in Hsel. specialize (Hsel a Ha). lia.
Qed.

(** After [deleteExam] for an id that fits no exam has the id, whether the
    call succeeded or failed. *)
Lemma deleted_exam_absent (id : Z) (db : DB) :
  fits_integer id = true -> ~ has_exam id (after (DeleteExam id) db).
Proof.
  intros Hfits. unfold after. rewrite deleteExam_run, Hfits. unfold state_of. simpl.
  intros (e & He & Hid). apply In_delete_where in He as [_ He]. lia.
Qed.

(** X13: submission is final.  In a consistent database, a submitted answer
    stays submitted through any sequence of calls of the handlers: as long
    as its row exists, the row keeps its score, its submission time, its
    exam and its user, and its answers only lose keys (those of deleted
    questions); the row goes only with its exam: when it is no longer
    there, [deleteExam] was called for its exam and the exam is gone. *)
Theorem submission_is_final (calls : list Call) (db : DB) (id : Z) (a : Answer) :
  consistent db ->
  find_answer id db = Some a ->
  is_submitted a = true ->
  match find_answer id (after_all calls db) with
  | Some a' => frozen a a'
  | None =>
      In (DeleteExam (a_exam_id a)) calls
      /\ ~ has_exam (a_exam_id a) (after_all calls db)
  end.
Proof.
  intros Hdb Hfind Hsub.
  assert (Hlt : id < answers_seq db).
  { destruct (answers_keyed db Hdb) as [_ Hlt]. apply found_in in Hfind as [Hin Hid].
    rewrite Forall_forall in Hlt. apply list_elem_of_In, Hlt in Hin. lia. }
  assert (Hexam : a_exam_id a < exams_seq db).
  { apply found_in in Hfind as [Hin _].
    destruct (foreign_keys db Hdb) as (_ & Hfk & _).
    destruct (Hfk a Hin) as (e & He & Hid).
    destruct (exams_keyed db Hdb) as [_ Hbelow].
    rewrite Forall_forall in Hbelow. apply list_elem_of_In, Hbelow in He. lia. }
  assert (Hgen : forall calls db,
            consistent db -> id < answers_seq db -> a_exam_id a < exams_seq db ->
            match find_answer id db with
            | Some b => frozen a b
            | None => ~ has_exam (a_exam_id a) db
            end ->
            match find_answer id (after_all calls db) with
            | Some a' => frozen a a'
            | None =>
                (find_answer id db = None \/ In (DeleteExam (a_exam_id a)) calls)
                /\ ~ has_exam (a_exam_id a) (after_all calls db)
            end).
  { clear. induction calls as [|c calls IH]; intros db Hdb Hlt Hexam Hnow; simpl.
    { destruct (find_answer id db); [exact Hnow | split; [now left | exact Hnow]]. }
    assert (Hnext : match find_answer id (after c db) with
                    | Some b => frozen a b
                    | None => ~ has_exam (a_exam_id a) (after c db)
                    end
                    /\ (find_answer id (after c db) = None ->
                        find_answer id db = None \/ c = DeleteExam (a_exam_id a))).
    { destruct (find_answer id db) as [b|] eqn:Hfind.
      - pose proof (submitted_after c db id b Hdb Hfind (proj1 Hnow)) as Hstep.
        pose proof Hfind as Hrow. apply found_in in Hrow as [Hin Hid].
        destruct (answer_kept c db b Hin) as [->|(b' & Hin' & Hid')].
        + replace (a_exam_id b) with (a_exam_id a) by (symmetry; apply Hnow).
          split; [|now right].
          destruct (find_answer id (after (DeleteExam (a_exam_id a)) db)) as [b'|] eqn:Hafter.
          * apply frozen_trans with b; [exact Hnow|].
            replace (a_exam_id b) with (a_exam_id a) in Hstep by (symmetry; apply Hnow).
            now rewrite Hafter in Hstep.
          * destruct (fits_integer (a_exam_id a)) eqn:Hfits;
              [now apply deleted_exam_absent|].
            exfalso. unfold after in Hafter. rewrite deleteExam_run, Hfits in Hafter.
            unfold state_of in Hafter. simpl in Hafter. congruence.
        + destruct (find_answer id (after c db)) as [b''|] eqn:Hafter.
          * split; [now apply frozen_trans with b | discriminate].
          * exfalso. apply (find_answer_some id (after c db) b' Hin'); [lia | exact Hafter].
      - rewrite (absent_after c db id Hdb Hfind Hlt).
        split; [now apply exam_absent_after | now left]. }
    destruct Hnext as [Hnext Hwhy].
    pose proof (IH (after c db) (consistent_after c db Hdb)) as Hrest.
    destruct (answers_after c db Hdb) as [Hseq _].
    destruct (exams_after c db) as [Hseq' _].
    specialize (Hrest ltac:(lia) ltac:(lia) Hnext).
    destruct (find_answer id (after_all calls (after c db))); [exact Hrest|].
    destruct Hrest as [[Hgone|Hlater] Habsent]; (split; [|exact Habsent]).
    - destruct (Hwhy Hgone) as [Hbefore| ->]; [now left | right; now left].
    - right. now right. }
  specialize (Hgen calls db Hdb Hlt Hexam). rewrite Hfind in Hgen.
  specialize (Hgen (frozen_refl a Hsub)).
  destruct (find_answer id (after_all calls db)); [exact Hgen|].
  destruct Hgen as [[Hnone|Hin] Habsent]; [discriminate | now split].
Qed.

Lemma submission_is_final_witness :
  match find_answer 1 (after_all calls_on_sample sample_db_submitted) with
  | Some a' => frozen sample_submitted a'
  | None =>
      In (DeleteExam (a_exam_id sample_submitted)) calls_on_sample
      /\ ~ has_exam (a_exam_id sample_submitted)
           (after_all calls_on_sample sample_db_submitted)
  end
  /\ match find_answer 1
            (after_all (calls_on_sample ++ [DeleteExam 1])%list sample_db_submitted) with
     | Some a' => frozen sample_submitted a'
     | None =>
         In (DeleteExam (a_exam_id sample_submitted))
            (calls_on_sample ++ [DeleteExam 1])%list
         /\ ~ has_exam (a_exam_id sample_submitted)
              (after_all (calls_on_sample ++ [DeleteExam 1])%list sample_db_submitted)
     end.
Proof.
  assert (Hdb : consistent sample_db_submitted).
  { constructor; simpl; try (split; [by_decision | repeat constructor; simpl; lia]).
    - by_decision.
    - repeat split; simpl; intros r Hr; intuition (subst; simpl);
        first [exists sample_exam; simpl; tauto | exists sample_user; simpl; tauto].
    - by_decision.
    - intros e [<-|[]]. simpl. lia. }
  split.
  - exact (submission_is_final calls_on_sample sample_db_submitted 1 sample_submitted
             Hdb eq_refl eq_refl).
  - exact (submission_is_final (calls_on_sample ++ [DeleteExam 1])%list
             sample_db_submitted 1 sample_submitted Hdb eq_refl eq_refl).
Defined.

(** ** Stored passwords and login *)

Lemma users_untouched (c : Call) (db : DB) :
  leaves_users c = true -> usersTable (after c db) = usersTable db.
Proof.
  destruct c; try discriminate; intros _; unfold after.
  - unfold createExam, insert_exam. now destruct (_ <=? _).
  - rewrite updateExam_run.
    now destruct (date_guards input db); [|destruct (exam_updateData_empty input)].
  - rewrite deleteExam_run. now destruct (fits_integer id).
  - unfold createQuestion. rewrite integer_param_bind.
    destruct (fits_integer _); [|reflexivity]. unfold insert_question. run.
    now destruct (select_where _ (examsTable db)).
  - unfold updateQuestion, getQuestionById, update_questions. run.
    destruct (select_where _ (questionsTable db)) eqn:Hsel; simpl; [reflexivity|].
    destruct (question_updateData_empty input); simpl; [reflexivity|].
    now rewrite Hsel.
  - rewrite deleteQuestion_state. now destruct (head _).
  - rewrite createAnswer_run.
    destruct (fits_integer _ && fits_integer _); [|reflexivity].
    destruct (select_where _ (answersTable db)); [|reflexivity].
    destruct (select_where _ (usersTable db)); [reflexivity|].
    now destruct (select_where _ (examsTable db)).
  - rewrite updateProgress_run.
    destruct (find_answer _ db) as [existing|]; [|reflexivity].
    now destruct (is_submitted existing).
  - rewrite submitExam_run.
    destruct (find_answer _ db) as [existing|]; [|reflexivity].
    destruct (is_submitted existing); [reflexivity|]. now destruct (outcome _).
Qed.

Lemma passwords_after (c : Call) (db : DB) :
  passwords_unsplit db -> passwords_unsplit (after c db).
Proof.
  intros Hdb. unfold passwords_unsplit.
  destruct (leaves_users c) eqn:Hc; [now rewrite (users_untouched c db Hc)|].
  destruct c; try discriminate; unfold after.
  - unfold Users.createUser, Users.insert_user. run.
    destruct (existsb _ (usersTable db)); simpl; [exact Hdb|].
    intros u Hu. apply in_app_or in Hu as [Hu|[<-|[]]]; [now apply Hdb|].
    apply toString_base64_no_colon.
  - unfold Users.updateUser.
    destruct (Users.user_updateData_empty input); [exact Hdb|].
    unfold Users.update_users. run.
    destruct (bool_decide _); simpl; [|exact Hdb].
    assert (Hnew : forall u,
              In u (update_where (fun u => Z.eqb (u_id u) (Users.uui_id input))
                                 (Users.apply_user_update input) (usersTable db)) ->
              contains ":" (u_password u) = false).
    { intros u' Hu'. apply in_map_iff in Hu' as (u & <- & Hu).
      destruct (u_id u =? Users.uui_id input); [|now apply Hdb]. simpl.
      destruct (Users.uui_password input); simpl;
        [apply toString_base64_no_colon | now apply Hdb]. }
    destruct (List.map _ (select_where _ (usersTable db))); exact Hnew.
  - unfold Users.deleteUser. rewrite integer_param_bind.
    destruct (fits_integer _); [|exact Hdb]. unfold Users.delete_users. run.
    destruct (existsb _ (answersTable db)); simpl; [exact Hdb|].
    assert (Hnew : forall u,
              In u (delete_where (fun u => Z.eqb (u_id u) id) (usersTable db)) ->
              contains ":" (u_password u) = false).
    { intros u Hu. apply In_delete_where in Hu as [Hu _]. now apply Hdb. }
    destruct (length _ =? 0)%nat; exact Hnew.
  - unfold Users.resetUserPassword, Users.update_users. run.
    destruct (bool_decide _); simpl; [|exact Hdb].
    set (f := fun u => mkUser (u_id u) (u_nama u) (u_email u)
                         (Users.hashPassword (Users.rpi_newPassword input)) (u_role u)
                         (u_kelas u) (u_created_at u)) in *.
    assert (Hnew : forall u,
              In u (update_where (fun u => Z.eqb (u_id u) (Users.rpi_id input)) f
                                 (usersTable db)) ->
              contains ":" (u_password u) = false).
    { intros u' Hu'. apply in_map_iff in Hu' as (u & <- & Hu).
      destruct (u_id u =? Users.rpi_id input); [|now apply Hdb]. simpl.
      apply toString_base64_no_colon. }
    destruct (List.map _ (select_where _ (usersTable db))); exact Hnew.
Qed.

Lemma loginUser_unsplit (pbkdf2_hex : string -> string -> string)
    (input : Auth.LoginInput) (db : DB) :
  passwords_unsplit db -> Auth.loginUser pbkdf2_hex input db = (db, inr None).
Proof.
  intros Hdb.
  destruct (head (select_where (fun u => String.eqb (u_email u) (Auth.email input))
                               (usersTable db))) as [user|] eqn:Hfind.
  - apply loginUser_rejects with user; [exact Hfind|].
    apply found_in in Hfind as [Hin _]. now apply Hdb.
  - unfold Auth.loginUser. run.
    now destruct (select_where _ (usersTable db)).
Qed.

(** X14: nobody can log in with a password that the user handlers stored.
    If no stored password has a colon, as in the empty database, then after
    any sequence of calls of the handlers (which store passwords in base64,
    through [createUser], [updateUser] and [resetUserPassword]) [loginUser]
    returns [null] for every email and password. *)
Theorem login_never_succeeds (pbkdf2_hex : string -> string -> string)
    (calls : list Call) (db : DB) (input : Auth.LoginInput) :
  passwords_unsplit db ->
  Auth.loginUser pbkdf2_hex input (after_all calls db) = (after_all calls db, inr None).
Proof.
  intros Hdb. apply loginUser_unsplit. revert db Hdb.
  induction calls as [|c calls IH]; intros db Hdb; simpl; [exact Hdb|].
  apply IH, passwords_after, Hdb.
Qed.

Lemma login_never_succeeds_witness :
  let db := after_all [CreateUser 0 registration;
                       ResetUserPassword (Users.mkResetPasswordInput 1 "rahasia1");
                       UpdateUser (Users.mkUpdateUserInput 1 None None (Some "rahasia2") None)]
                      empty_db in
  Auth.loginUser (fun _ _ => "") (Auth.mkLoginInput "test@example.com" "rahasia2") db
  = (db, inr None).
Proof.
  apply (login_never_succeeds (fun _ _ => "") _ empty_db). intros u [].
Defined.

(** ** Valid questions *)

Lemma questions_kept (c : Call) (db : DB) :
  leaves_questions c = true ->
  forall q, In q (questionsTable (after c db)) -> In q (questionsTable db).
Proof.
  destruct c; try discriminate; intros _ q; unfold after.
  - unfold Users.createUser, Users.insert_user. run.
    now destruct (existsb _ (usersTable db)).
  - unfold Users.updateUser.
    destruct (Users.user_updateData_empty input); [now auto|].
    unfold Users.update_users. run.
    destruct (bool_decide _); simpl; [|auto].
    now destruct (List.map _ (select_where _ (usersTable db))).
  - unfold Users.deleteUser. rewrite integer_param_bind.
    destruct (fits_integer _); [|auto]. unfold Users.delete_users. run.
    destruct (existsb _ (answersTable db)); simpl; [auto|].
    now destruct (length _ =? 0)%nat.
  - unfold Users.resetUserPassword, Users.update_users. run.
    destruct (bool_decide _); simpl; [|auto].
    now destruct (List.map _ (select_where _ (usersTable db))).
  - unfold createExam, insert_exam. now destruct (_ <=? _).
  - rewrite updateExam_run.
    now destruct (date_guards input db); [|destruct (exam_updateData_empty input)].
  - rewrite deleteExam_run. destruct (fits_integer id); [|auto].
    simpl. intros Hin. now apply In_delete_where in Hin as [Hin _].
  - rewrite deleteQuestion_state. destruct (head _); [|auto]. simpl.
    intros Hin. now apply In_delete_where in Hin as [Hin _].
  - rewrite createAnswer_run.
    destruct (fits_integer _ && fits_integer _); [|auto].
    destruct (select_where _ (answersTable db)); [|auto].
    destruct (select_where _ (usersTable db)); [auto|].
    now destruct (select_where _ (examsTable db)).
  - rewrite updateProgress_run.
    destruct (find_answer _ db) as [existing|]; [|auto].
    now destruct (is_submitted existing).
  - rewrite submitExam_run.
    destruct (find_answer _ db) as [existing|]; [|auto].
    destruct (is_submitted existing); [auto|]. now destruct (outcome _).
Qed.

Lemma questions_valid_after (c : Call) (db : DB) :
  accepted c = true -> questions_valid db -> questions_valid (after c db).
Proof.
  intros Hok Hdb. unfold questions_valid.
  destruct (leaves_questions c) eqn:Hc.
  { intros q Hq. apply Hdb. exact (questions_kept c db Hc q Hq). }
  destruct c; try discriminate; unfold after; simpl in Hok.
  - unfold createQuestion. rewrite integer_param_bind.
    destruct (fits_integer _); [|exact Hdb]. unfold insert_question. run.
    destruct (select_where _ (examsTable db)); simpl; [exact Hdb|].
    intros q Hq. apply in_app_or in Hq as [Hq|[<-|[]]]; [now apply Hdb|]. simpl.
    unfold createQuestionInputSchema in Hok. apply andb_true_iff in Hok as [Hlen Hkey].
    split; [now apply Nat.eqb_eq | exact Hkey].
  - unfold updateQuestion, getQuestionById, update_questions. run.
    destruct (select_where _ (questionsTable db)) eqn:Hsel; simpl; [exact Hdb|].
    destruct (question_updateData_empty input); simpl; [exact Hdb|].
    rewrite Hsel. simpl. intros r' Hr'. apply in_map_iff in Hr' as (r & <- & Hr).
    destruct (Hdb r Hr) as [Hlen Hkey].
    destruct (q_id r =? uqi_id input); [|now split]. simpl.
    unfold updateQuestionInputSchema in Hok. apply andb_true_iff in Hok as [Hl Hk].
    destruct (uqi_pilihan input), (uqi_jawaban_benar input); simpl; split; auto;
      now apply Nat.eqb_eq.
Qed.

Lemma is_choice_nonempty (s : string) : is_choice s = true -> s <> "".
Proof. intros H ->. discriminate. Qed.

(** X15: with the input schemas of the router in front of [createQuestion]
    and [updateQuestion], every question keeps four choices and a key among
    [A], [B], [C], [D] through any sequence of calls; and for such a question
    an answer counts exactly when the value stored under its id is the key,
    character for character. *)
Theorem questions_stay_valid (calls : list Call) (db : DB) :
  questions_valid db ->
  forallb accepted calls = true ->
  questions_valid (after_all calls db)
  /\ forall q userAnswers,
       In q (questionsTable (after_all calls db)) ->
       (answered_correctly userAnswers q = true <->
        userAnswers !! toString (q_id q) = Some (jawaban_benar q)).
Proof.
  intros Hdb Hok.
  assert (Hend : questions_valid (after_all calls db)).
  { revert db Hdb Hok. induction calls as [|c calls IH]; intros db Hdb Hok; simpl;
      [exact Hdb|].
    simpl in Hok. apply andb_true_iff in Hok as [Hc Hrest].
    apply IH; [now apply questions_valid_after | exact Hrest]. }
  split; [exact Hend|]. intros q userAnswers Hq.
  apply answered_correctly_iff, is_choice_nonempty, (Hend q Hq).
Qed.

Lemma questions_stay_valid_witness :
  questions_valid
    (after_all [CreateExam 1 (mkCreateExamInput "Ujian" "" 1000 2000 60 aktif);
                CreateQuestion 2 (mkCreateQuestionInput 1 "Soal" ["a"; "b"; "c"; "d"] "A");
                UpdateQuestion (mkUpdateQuestionInput 1 None None (Some "D"))]
               empty_db).
Proof.
  apply (questions_stay_valid _ empty_db); [intros q [] | reflexivity].
Defined.

(** ** Exams *)




(** X17: an exam that [createExam] returns has the next id of the sequence
    and the fields of the input, and ends after it starts; with the ids of
    the table below the sequence, [getExamById] finds it afterwards and
    [getAllExams] lists it once more than before, with the exams there were,
    in whatever order. *)
Theorem createExam_then_found
    (now : Z) (input : CreateExamInput) (db db' : DB) (exam : Exam) :
  keyed e_id (examsTable db) (exams_seq db) ->
  createExam now input db = (db', inr exam) ->
  exam = mkExam (exams_seq db) (cei_judul_ujian input) (cei_deskripsi input)
                (cei_tanggal_mulai input) (cei_tanggal_selesai input) (cei_durasi input)
                (cei_status input) now
  /\ tanggal_mulai exam < tanggal_selesai exam
  /\ getExamById (e_id exam) db' = (db', inr (Some exam))
  /\ exists before listed,
       getAllExams db = (db, inr before)
       /\ getAllExams db' = (db', inr listed)
       /\ Permutation listed (exam :: before).
Proof.
  intros [_ Hfresh]. unfold createExam, insert_exam.
  destruct (Z.leb_spec (cei_tanggal_selesai input) (cei_tanggal_mulai input)) as [|Hlt];
    [discriminate|].
  run. intros [= <- <-]. split; [reflexivity|]. split; [exact Hlt|]. split.
  - rewrite getExamById_find. unfold find_exam. simpl.
    rewrite select_where_app, (select_fresh e_id _ _ Hfresh). simpl.
    now rewrite Z.eqb_refl.
  - eexists. eexists. split; [reflexivity|]. split; [reflexivity|].
    symmetry. apply Permutation_cons_append.
Qed.

Lemma createExam_then_found_witness :
  exists db' exam,
    createExam 7 (mkCreateExamInput "Ujian 2" "" 3000 4000 60 aktif) sample_db
    = (db', inr exam)
    /\ e_id exam = 2
    /\ getExamById 2 db' = (db', inr (Some exam)).
Proof.
  eexists. eexists. split; [reflexivity|].
  assert (Hkeys : keyed e_id (examsTable sample_db) (exams_seq sample_db)).
  { split; [by_decision | repeat constructor; simpl; lia]. }
  destruct (createExam_then_found 7 (mkCreateExamInput "Ujian 2" "" 3000 4000 60 aktif)
              sample_db _ _ Hkeys eq_refl) as (_ & _ & Hfound & _).
  split; [reflexivity | exact Hfound].
Defined.

(** X18: the list of exams for a participant does not depend on the
    participant.  After a participant has submitted an exam, the list for
    that participant is still the list of [getActiveExams]: an exam that is
    open stays on it. *)
Theorem submitted_exam_stays_listed
    (now later : Z) (input : SubmitExamInput) (db db' : DB) (answer : Answer) :
  submitExam now input db = (db', inr answer) ->
  is_submitted answer = true
  /\ outcome (getExamsForParticipant later (a_user_id answer) db')
     = outcome (getActiveExams later db)
  /\ forall e, In e (examsTable db) -> in_window later e = true ->
               exists listed,
                 getExamsForParticipant later (a_user_id answer) db' = (db', inr listed)
                 /\ In e listed.
Proof.
  rewrite submitExam_run.
  destruct (find_answer _ db) as [existing|]; [|discriminate].
  destruct (is_submitted existing); [discriminate|].
  destruct (outcome _); [discriminate|].
  intros [= <- <-]. split; [reflexivity|]. split; [reflexivity|].
  intros e He Hopen. eexists. split; [reflexivity|]. simpl.
  now apply filter_In.
Qed.

Lemma submitted_exam_stays_listed_witness :
  exists listed,
    getExamsForParticipant 1600 1 sample_db_submitted = (sample_db_submitted, inr listed)
    /\ In sample_exam listed.
Proof.
  destruct (submitted_exam_stays_listed 1500 1600 sample_submission sample_db
              sample_db_submitted sample_submitted) as (_ & _ & Hlisted).
  { vm_compute. reflexivity. }
  apply (Hlisted sample_exam); [now left | reflexivity].
Defined.

(** X19: taking an exam off.  After an [updateExam] that succeeds and sets
    the status to [non-aktif], no exam with that id is on the list of
    [getActiveExams], at any time. *)
Theorem deactivated_exam_is_hidden
    (input : UpdateExamInput) (db db' : DB) (exam : Exam) (now : Z) :
  uei_status input = Some non_aktif ->
  updateExam input db = (db', inr exam) ->
  exists listed,
    getActiveExams now db' = (db', inr listed)
    /\ forall e, In e listed -> e_id e <> uei_id input.
Proof.
  intros Hstatus. rewrite updateExam_run.
  destruct (date_guards input db) as [err|ok]; [discriminate|].
  destruct (exam_updateData_empty input); [discriminate|].
  destruct (List.map _ _) as [|first rest]; [discriminate|]. intros [= <- _].
  eexists. split; [reflexivity|]. simpl.
  intros e' He' Hid. apply filter_In in He' as [He' Hopen].
  apply in_map_iff in He' as (e & <- & He).
  destruct (Z.eqb_spec (e_id e) (uei_id input)) as [_|Hne].
  - unfold in_window, apply_update in Hopen. simpl in Hopen. rewrite Hstatus in Hopen.
    discriminate.
  - contradiction.
Qed.

Lemma deactivated_exam_is_hidden_witness :
  exists db' listed,
    state_of (updateExam (mkUpdateExamInput 1 None None None None None (Some non_aktif))
                         sample_db) = db'
    /\ getActiveExams 1500 db' = (db', inr listed)
    /\ forall e, In e listed -> e_id e <> 1.
Proof.
  eexists. 
  destruct (deactivated_exam_is_hidden
              (mkUpdateExamInput 1 None None None None None (Some non_aktif))
              sample_db _ _ 1500 eq_refl eq_refl) as (listed & Hrun & Hnone).
  exists listed. split; [reflexivity|]. split; [exact Hrun | exact Hnone].
Defined.

(** ** Users *)








(** ** Verifying a password *)

Lemma split_nonempty (sep : ascii) (s : string) : split sep s <> [].
Proof.
  destruct s as [|c s]; simpl; [discriminate|].
  destruct (Ascii.eqb c sep); [discriminate|]. now destruct (split sep s).
Qed.

Lemma length_split (sep : ascii) (s : string) :
  length (split sep s) = S (occurrences sep s).
Proof.
  induction s as [|c s IH]; simpl; [reflexivity|].
  destruct (Ascii.eqb c sep); simpl; [now rewrite IH|].
  pose proof (split_nonempty sep s).
  destruct (split sep s); [congruence|]. simpl in *. exact IH.
Qed.

(** X23: [verifyPassword] needs exactly one colon in the stored value.  It
    rejects every password against a stored value with no colon or with more
    than one; against a salt and a hash joined by a colon, neither holding a
    colon, it accepts exactly the passwords whose derived key under the salt
    is the hash. *)
Theorem verifyPassword_format (pbkdf2_hex : string -> string -> string)
    (password : string) :
  (forall stored,
      occurrences ":" stored <> 1%nat ->
      Auth.verifyPassword pbkdf2_hex password stored = false)
  /\ (forall salt hash,
        contains ":" salt = false -> contains ":" hash = false ->
        (Auth.verifyPassword pbkdf2_hex password (salt ++ String ":" hash) = true
         <-> pbkdf2_hex password salt = hash)).
Proof.
  split.
  - intros stored Hcount. unfold Auth.verifyPassword.
    pose proof (length_split ":" stored) as Hlen.
    destruct (Nat.eqb_spec (length (split ":" stored)) 2) as [Htwo|_]; [lia | reflexivity].
  - intros salt hash Hsalt Hhash. unfold Auth.verifyPassword.
    rewrite (split_once _ _ _ Hsalt Hhash). simpl. apply String.eqb_eq.
Qed.

Lemma verifyPassword_format_witness :
  Auth.verifyPassword (fun _ _ => "") "testpassword" "salt:hash:extra" = false
  /\ (Auth.verifyPassword (fun p s => p ++ s) "pw" ("ab" ++ String ":" "pwab") = true
      <-> "pw" ++ "ab" = "pwab").
Proof.
  split.
  - apply (proj1 (verifyPassword_format (fun _ _ => "") "testpassword")).
    simpl. lia.
  - apply (proj2 (verifyPassword_format (fun p s => p ++ s) "pw")); reflexivity.
Defined.

(** X24: logging in.  [loginUser] returns [null] for an email that no user
    has.  For a user whose stored password is what [hashPassword] of
    auth.ts makes from a salt and a password (salt and derived keys without
    a colon), it returns the user exactly for the passwords whose derived
    key under the salt is that of the stored password, and [null] for the
    others; it never writes. *)
Theorem loginUser_outcome (pbkdf2_hex : string -> string -> string)
    (input : Auth.LoginInput) (db : DB) :
  ((forall u, In u (usersTable db) -> u_email u <> Auth.email input) ->
   Auth.loginUser pbkdf2_hex input db = (db, inr None))
  /\ (forall user salt password,
        head (select_where (fun u => String.eqb (u_email u) (Auth.email input))
                           (usersTable db)) = Some user ->
        u_password user = Auth.hashPassword pbkdf2_hex salt password ->
        contains ":" salt = false ->
        (forall p, contains ":" (pbkdf2_hex p salt) = false) ->
        Auth.loginUser pbkdf2_hex input db
        = (db, inr (if String.eqb (pbkdf2_hex (Auth.password input) salt)
                                  (pbkdf2_hex password salt)
                    then Some user else None))).
Proof.
  split.
  - intros Hnone. unfold Auth.loginUser. run.
    replace (select_where _ (usersTable db)) with (@nil User); [reflexivity|].
    symmetry. apply select_where_nil. intros u Hu.
    destruct (String.eqb_spec (u_email u) (Auth.email input)); [|reflexivity].
    now destruct (Hnone u Hu).
  - intros user salt password Hfind Hstored Hsalt Hhex.
    unfold Auth.loginUser, Auth.verifyPassword. run.
    destruct (select_where _ (usersTable db)) as [|first rest]; [discriminate|].
    injection Hfind as ->.
    destruct user as [uid unama uemail upassword urole ukelas ucreated].
    simpl in Hstored. subst upassword. simpl. unfold Auth.hashPassword.
    change (String.append ":" (pbkdf2_hex password salt))
      with (String ":" (pbkdf2_hex password salt)).
    rewrite (split_once _ _ _ Hsalt (Hhex password)). simpl.
    destruct (String.eqb _ _); reflexivity.
Qed.

Lemma loginUser_outcome_witness :
  let kdf := fun p s : string => if String.eqb p "password123" then "k1" else "k0" in
  let user := mkUser 1 "Test User" "test@example.com" "ab:k1" peserta None 0 in
  let db := mkDB [user] [] [] [] 2 1 1 1 in
  Auth.loginUser kdf (Auth.mkLoginInput "nobody@example.com" "password123") db
  = (db, inr None)
  /\ Auth.loginUser kdf (Auth.mkLoginInput "test@example.com" "password123") db
     = (db, inr (Some user))
  /\ Auth.loginUser kdf (Auth.mkLoginInput "test@example.com" "wrongpassword") db
     = (db, inr None).
Proof.
  intros kdf user db.
  assert (Hhex : forall p, contains ":" (kdf p "ab") = false)
    by (intros p; unfold kdf; destruct (String.eqb p "password123"); reflexivity).
  split; [|split].
  - apply (proj1 (loginUser_outcome kdf (Auth.mkLoginInput "nobody@example.com"
                                                           "password123") db)).
    intros u [<-|[]]. discriminate.
  - apply (proj2 (loginUser_outcome kdf (Auth.mkLoginInput "test@example.com"
                                                           "password123") db)
             user "ab" "password123"); [reflexivity | reflexivity | reflexivity | exact Hhex].
  - apply (proj2 (loginUser_outcome kdf (Auth.mkLoginInput "test@example.com"
                                                           "wrongpassword") db)
             user "ab" "password123"); [reflexivity | reflexivity | reflexivity | exact Hhex].
Defined.

(** ** The stored password determines the password *)

Lemma below_spec (n : Z) (P : Z -> bool) :
  below n P = true -> forall i, 0 <= i < n -> P i = true.
Proof.
  unfold below. rewrite forallb_forall. intros Hall i Hi.
  apply Hall, list_elem_of_In, elem_of_seqZ. lia.
Qed.

(** Two numbers below the bounds. *)
Lemma below2_spec (n m : Z) (P : Z -> Z -> bool) :
  below n (fun i => below m (P i)) = true ->
  forall i j, 0 <= i < n -> 0 <= j < m -> P i j = true.
Proof.
  intros Hall i j Hi Hj.
  exact (below_spec m (P i) (below_spec n _ Hall i Hi) j Hj).
Qed.

Lemma base64_digit_inj (i j : Z) :
  0 <= i < 64 -> 0 <= j < 64 -> base64_digit i = base64_digit j -> i = j.
Proof.
  intros Hi Hj Heq.
  assert (Hall : below 64 (fun i => below 64 (fun j =>
            implb (Ascii.eqb (base64_digit i) (base64_digit j)) (Z.eqb i j))) = true)
    by (vm_compute; reflexivity).
  pose proof (below2_spec _ _ _ Hall i j Hi Hj) as H. simpl in H.
  rewrite Heq, Ascii.eqb_refl in H. simpl in H. lia.
Qed.

Lemma base64_digit_not_pad (i : Z) : 0 <= i < 64 -> base64_digit i <> "="%char.
Proof.
  intros Hi Heq.
  assert (Hall : below 64 (fun i => negb (Ascii.eqb (base64_digit i) "=")) = true)
    by (vm_compute; reflexivity).
  pose proof (below_spec _ _ Hall i Hi) as H. simpl in H.
  rewrite Heq in H. discriminate.
Qed.

(** The four digits of a group are in range. *)
Lemma digits_in_range (a b : Z) :
  0 <= a < 256 -> 0 <= b < 256 ->
  0 <= Z.shiftr a 2 < 64
  /\ 0 <= Z.shiftl (Z.land a 3) 4 < 64
  /\ 0 <= Z.lor (Z.shiftl (Z.land a 3) 4) (Z.shiftr b 4) < 64
  /\ 0 <= Z.shiftl (Z.land a 15) 2 < 64
  /\ 0 <= Z.lor (Z.shiftl (Z.land a 15) 2) (Z.shiftr b 6) < 64
  /\ 0 <= Z.land a 63 < 64.
Proof.
  intros Ha Hb.
  assert (Hall : below 256 (fun a => below 256 (fun b =>
            (0 <=? Z.shiftr a 2) && (Z.shiftr a 2 <? 64)
            && (0 <=? Z.shiftl (Z.land a 3) 4) && (Z.shiftl (Z.land a 3) 4 <? 64)
            && (0 <=? Z.lor (Z.shiftl (Z.land a 3) 4) (Z.shiftr b 4))
            && (Z.lor (Z.shiftl (Z.land a 3) 4) (Z.shiftr b 4) <? 64)
            && (0 <=? Z.shiftl (Z.land a 15) 2) && (Z.shiftl (Z.land a 15) 2 <? 64)
            && (0 <=? Z.lor (Z.shiftl (Z.land a 15) 2) (Z.shiftr b 6))
            && (Z.lor (Z.shiftl (Z.land a 15) 2) (Z.shiftr b 6) <? 64)
            && (0 <=? Z.land a 63) && (Z.land a 63 <? 64))) = true)
    by (vm_compute; reflexivity).
  pose proof (below2_spec _ _ _ Hall a b Ha Hb) as H. simpl in H.
  repeat (apply andb_true_iff in H as [H ?]). lia.
Qed.

(** The first byte of a group from its two digits, whatever the second
    byte. *)
Lemma first_byte (a a' : Z) :
  0 <= a < 256 -> 0 <= a' < 256 ->
  Z.shiftr a 2 = Z.shiftr a' 2 -> Z.land a 3 = Z.land a' 3 -> a = a'.
Proof.
  intros Ha Ha' H1 H2.
  assert (Hall : below 256 (fun a => below 256 (fun a' =>
            implb ((Z.shiftr a 2 =? Z.shiftr a' 2) && (Z.land a 3 =? Z.land a' 3))
                  (a =? a'))) = true)
    by (vm_compute; reflexivity).
  pose proof (below2_spec _ _ _ Hall a a' Ha Ha') as H. simpl in H.
  rewrite H1, H2, !Z.eqb_refl in H. simpl in H. lia.
Qed.

Lemma second_byte (b b' : Z) :
  0 <= b < 256 -> 0 <= b' < 256 ->
  Z.shiftr b 4 = Z.shiftr b' 4 -> Z.land b 15 = Z.land b' 15 -> b = b'.
Proof.
  intros Hb Hb' H1 H2.
  assert (Hall : below 256 (fun b => below 256 (fun b' =>
            implb ((Z.shiftr b 4 =? Z.shiftr b' 4) && (Z.land b 15 =? Z.land b' 15))
                  (b =? b'))) = true)
    by (vm_compute; reflexivity).
  pose proof (below2_spec _ _ _ Hall b b' Hb Hb') as H. simpl in H.
  rewrite H1, H2, !Z.eqb_refl in H. simpl in H. lia.
Qed.

Lemma third_byte (c c' : Z) :
  0 <= c < 256 -> 0 <= c' < 256 ->
  Z.shiftr c 6 = Z.shiftr c' 6 -> Z.land c 63 = Z.land c' 63 -> c = c'.
Proof.
  intros Hc Hc' H1 H2.
  assert (Hall : below 256 (fun c => below 256 (fun c' =>
            implb ((Z.shiftr c 6 =? Z.shiftr c' 6) && (Z.land c 63 =? Z.land c' 63))
                  (c =? c'))) = true)
    by (vm_compute; reflexivity).
  pose proof (below2_spec _ _ _ Hall c c' Hc Hc') as H. simpl in H.
  rewrite H1, H2, !Z.eqb_refl in H. simpl in H. lia.
Qed.

(** The parts of a byte are in range. *)
Lemma parts_in_range (a : Z) :
  0 <= a < 256 ->
  0 <= Z.land a 3 < 4 /\ 0 <= Z.shiftr a 4 < 16 /\ 0 <= Z.land a 15 < 16
  /\ 0 <= Z.shiftr a 6 < 4.
Proof.
  intros Ha.
  assert (Hall : below 256 (fun a =>
            (0 <=? Z.land a 3) && (Z.land a 3 <? 4)
            && (0 <=? Z.shiftr a 4) && (Z.shiftr a 4 <? 16)
            && (0 <=? Z.land a 15) && (Z.land a 15 <? 16)
            && (0 <=? Z.shiftr a 6) && (Z.shiftr a 6 <? 4)) = true)
    by (vm_compute; reflexivity).
  pose proof (below_spec _ _ Hall a Ha) as H. simpl in H.
  repeat (apply andb_true_iff in H as [H ?]). lia.
Qed.

(** A digit made of two parts gives the two parts back. *)
Lemma joined_parts (k n m u v u' v' : Z) :
  (k = 4 /\ n = 4 /\ m = 16) \/ (k = 2 /\ n = 16 /\ m = 4) ->
  0 <= u < n -> 0 <= v < m -> 0 <= u' < n -> 0 <= v' < m ->
  Z.lor (Z.shiftl u k) v = Z.lor (Z.shiftl u' k) v' -> u = u' /\ v = v'.
Proof.
  intros Hk Hu Hv Hu' Hv' Heq.
  assert (Hall : forall k n m,
            (k = 4 /\ n = 4 /\ m = 16) \/ (k = 2 /\ n = 16 /\ m = 4) ->
            below n (fun u => below m (fun v => below n (fun u' => below m (fun v' =>
              implb (Z.lor (Z.shiftl u k) v =? Z.lor (Z.shiftl u' k) v')
                    ((u =? u') && (v =? v')))))) = true).
  { intros ? ? ? [(-> & -> & ->)|(-> & -> & ->)]; vm_compute; reflexivity. }
  specialize (Hall k n m Hk).
  pose proof (below2_spec _ _ _ Hall u v Hu Hv) as H. simpl in H.
  pose proof (below2_spec _ _ _ H u' v' Hu' Hv') as H'. simpl in H'.
  rewrite Heq, Z.eqb_refl in H'. simpl in H'.
  apply andb_true_iff in H' as [H1 H2]. lia.
Qed.

Lemma shifted_part (k n m u u' : Z) :
  (k = 4 /\ n = 4 /\ m = 16) \/ (k = 2 /\ n = 16 /\ m = 4) ->
  0 <= u < n -> 0 <= u' < n -> Z.shiftl u k = Z.shiftl u' k -> u = u'.
Proof.
  intros Hk Hu Hu' Heq.
  assert (Hm : 0 <= 0 < m) by (destruct Hk as [(_ & _ & ->)|(_ & _ & ->)]; lia).
  apply (joined_parts k n m u 0 u' 0 Hk Hu Hm Hu' Hm).
  now rewrite !Z.lor_0_r.
Qed.

(** A group of one byte from its two digits. *)
Lemma group1_inj (a a' : Z) :
  0 <= a < 256 -> 0 <= a' < 256 ->
  base64_digit (Z.shiftr a 2) = base64_digit (Z.shiftr a' 2) ->
  base64_digit (Z.shiftl (Z.land a 3) 4) = base64_digit (Z.shiftl (Z.land a' 3) 4) ->
  a = a'.
Proof.
  intros Ha Ha' H1 H2.
  pose proof (digits_in_range a a Ha Ha) as (R1 & R2 & _).
  pose proof (digits_in_range a' a' Ha' Ha') as (R1' & R2' & _).
  pose proof (parts_in_range a Ha) as (P1 & _).
  pose proof (parts_in_range a' Ha') as (P1' & _).
  apply base64_digit_inj in H1, H2; try assumption.
  apply first_byte; try assumption.
  apply (shifted_part 4 4 16); auto.
Qed.

(** A group of two bytes from its three digits. *)
Lemma group2_inj (a b a' b' : Z) :
  0 <= a < 256 -> 0 <= b < 256 -> 0 <= a' < 256 -> 0 <= b' < 256 ->
  base64_digit (Z.shiftr a 2) = base64_digit (Z.shiftr a' 2) ->
  base64_digit (Z.lor (Z.shiftl (Z.land a 3) 4) (Z.shiftr b 4))
  = base64_digit (Z.lor (Z.shiftl (Z.land a' 3) 4) (Z.shiftr b' 4)) ->
  base64_digit (Z.shiftl (Z.land b 15) 2) = base64_digit (Z.shiftl (Z.land b' 15) 2) ->
  a = a' /\ b = b'.
Proof.
  intros Ha Hb Ha' Hb' H1 H2 H3.
  pose proof (digits_in_range a b Ha Hb) as (R1 & _ & R2 & _).
  pose proof (digits_in_range a' b' Ha' Hb') as (R1' & _ & R2' & _).
  pose proof (digits_in_range b b Hb Hb) as (_ & _ & _ & R3 & _).
  pose proof (digits_in_range b' b' Hb' Hb') as (_ & _ & _ & R3' & _).
  pose proof (parts_in_range a Ha) as (Pa & _).
  pose proof (parts_in_range a' Ha') as (Pa' & _).
  pose proof (parts_in_range b Hb) as (_ & Pb & Pb2 & _).
  pose proof (parts_in_range b' Hb') as (_ & Pb' & Pb2' & _).
  apply base64_digit_inj in H1, H2, H3; try assumption.
  apply (joined_parts 4 4 16) in H2 as [H2a H2b]; auto.
  apply (shifted_part 2 16 4) in H3; auto.
  split; [now apply first_byte | now apply second_byte].
Qed.

(** A group of three bytes from its four digits. *)
Lemma group3_inj (a b c a' b' c' : Z) :
  0 <= a < 256 -> 0 <= b < 256 -> 0 <= c < 256 ->
  0 <= a' < 256 -> 0 <= b' < 256 -> 0 <= c' < 256 ->
  base64_digit (Z.shiftr a 2) = base64_digit (Z.shiftr a' 2) ->
  base64_digit (Z.lor (Z.shiftl (Z.land a 3) 4) (Z.shiftr b 4))
  = base64_digit (Z.lor (Z.shiftl (Z.land a' 3) 4) (Z.shiftr b' 4)) ->
  base64_digit (Z.lor (Z.shiftl (Z.land b 15) 2) (Z.shiftr c 6))
  = base64_digit (Z.lor (Z.shiftl (Z.land b' 15) 2) (Z.shiftr c' 6)) ->
  base64_digit (Z.land c 63) = base64_digit (Z.land c' 63) ->
  a = a' /\ b = b' /\ c = c'.
Proof.
  intros Ha Hb Hc Ha' Hb' Hc' H1 H2 H3 H4.
  pose proof (digits_in_range a b Ha Hb) as (R1 & _ & R2 & _).
  pose proof (digits_in_range a' b' Ha' Hb') as (R1' & _ & R2' & _).
  pose proof (digits_in_range b c Hb Hc) as (_ & _ & _ & _ & R3 & _).
  pose proof (digits_in_range b' c' Hb' Hc') as (_ & _ & _ & _ & R3' & _).
  pose proof (digits_in_range c c Hc Hc) as (_ & _ & _ & _ & _ & R4).
  pose proof (digits_in_range c' c' Hc' Hc') as (_ & _ & _ & _ & _ & R4').
  pose proof (parts_in_range a Ha) as (Pa & _).
  pose proof (parts_in_range a' Ha') as (Pa' & _).
  pose proof (parts_in_range b Hb) as (_ & Pb & Pb2 & _).
  pose proof (parts_in_range b' Hb') as (_ & Pb' & Pb2' & _).
  pose proof (parts_in_range c Hc) as (_ & _ & _ & Pc).
  pose proof (parts_in_range c' Hc') as (_ & _ & _ & Pc').
  apply base64_digit_inj in H1, H2, H3, H4; try assumption.
  apply (joined_parts 4 4 16) in H2 as [H2a H2b]; auto.
  apply (joined_parts 2 16 4) in H3 as [H3a H3b]; auto.
  split; [now apply first_byte|]. split; [now apply second_byte | now apply third_byte].
Qed.

(** A padding sign is not a digit. *)
Lemma pad_is_no_digit (a b : Z) :
  0 <= a < 256 -> 0 <= b < 256 ->
  "="%char <> base64_digit (Z.shiftl (Z.land a 15) 2)
  /\ "="%char <> base64_digit (Z.lor (Z.shiftl (Z.land a 15) 2) (Z.shiftr b 6))
  /\ "="%char <> base64_digit (Z.land a 63).
Proof.
  intros Ha Hb. pose proof (digits_in_range a b Ha Hb) as (_ & _ & _ & R3 & R3' & R4).
  repeat split; intros H; symmetry in H; revert H; now apply base64_digit_not_pad.
Qed.

Lemma toString_base64_inj (l1 l2 : list Z) :
  bytes l1 -> bytes l2 -> toString_base64 l1 = toString_base64 l2 -> l1 = l2.
Proof.
  unfold bytes. revert l2.
  induction l1 as [|a|a b|a b c rest IH] using list_ind3; intros l2 H1 H2 Heq;
    destruct l2 as [|a' [|b' [|c' rest']]]; cbn [toString_base64] in Heq;
    try discriminate; try reflexivity;
    repeat match goal with
           | H : Forall _ (_ :: _) |- _ => apply Forall_cons in H as [? H]
           end.
  - injection Heq as D1 D2. f_equal. now apply group1_inj.
  - injection Heq as D1 D2 D3.
    now destruct (pad_is_no_digit b' b') as (Hpad & _).
  - injection Heq as D1 D2 D3.
    now destruct (pad_is_no_digit b' c') as (_ & Hpad & _).
  - injection Heq as D1 D2 D3. symmetry in D3.
    now destruct (pad_is_no_digit b b) as (Hpad & _).
  - injection Heq as D1 D2 D3.
    destruct (group2_inj a b a' b') as [-> ->]; auto.
  - injection Heq as D1 D2 D3 D4.
    now destruct (pad_is_no_digit c' c') as (_ & _ & Hpad).
  - injection Heq as D1 D2 D3. symmetry in D3.
    now destruct (pad_is_no_digit b c) as (_ & Hpad & _).
  - injection Heq as D1 D2 D3 D4. symmetry in D4.
    now destruct (pad_is_no_digit c c) as (_ & _ & Hpad).
  - injection Heq as D1 D2 D3 D4 Drest.
    destruct (group3_inj a b c a' b' c') as (-> & -> & ->); auto.
    do 3 f_equal. now apply IH.
Qed.

Lemma Buffer_from_bytes (s : string) : bytes (Buffer_from s).
Proof.
  unfold bytes, Buffer_from. apply Forall_forall. intros b Hb.
  apply list_elem_of_In, in_map_iff in Hb as (c & <- & _).
  pose proof (N_ascii_bounded c). lia.
Qed.

Lemma Buffer_from_inj (s t : string) : Buffer_from s = Buffer_from t -> s = t.
Proof.
  unfold Buffer_from. revert t.
  induction s as [|c s IH]; intros [|d t]; simpl; try discriminate; [reflexivity|].
  intros [= Hc Hrest]. f_equal; [|now apply IH].
  apply N2Z.inj in Hc. rewrite <- (ascii_N_embedding c), <- (ascii_N_embedding d).
  now rewrite Hc.
Qed.

(** X25: the stored password determines the password, for passwords without
    an unpaired surrogate (strings that have a UTF-8 encoding, by which they
    are given here).  On them [hashPassword] of users.ts is an encoding
    without loss: two different passwords are never stored as the same
    string. *)
Theorem hashPassword_injective (p1 p2 : string) :
  utf8 (Buffer_from p1) = true -> utf8 (Buffer_from p2) = true ->
  p1 <> p2 -> Users.hashPassword p1 <> Users.hashPassword p2.
Proof.
  intros _ _ Hne Heq. apply Hne, Buffer_from_inj.
  apply toString_base64_inj; [apply Buffer_from_bytes | apply Buffer_from_bytes | exact Heq].
Qed.

Lemma hashPassword_injective_witness :
  Users.hashPassword "password123" <> Users.hashPassword "password124".
Proof.
  apply (hashPassword_injective "password123" "password124");
    [reflexivity | reflexivity | discriminate].
Defined.

(** ** Reports *)

(** A key that occurs once selects one row. *)
Lemma select_key {R} (key : R -> Z) (rows : list R) (r : R) :
  NoDup (List.map key rows) -> In r rows ->
  select_where (fun r' => Z.eqb (key r) (key r')) rows = [r].
Proof.
  unfold select_where. induction rows as [|first rest IH]; intros Hnd Hin; [easy|].
  cbn [List.map] in Hnd. apply NoDup_cons in Hnd as [Hfresh Hnd].
  cbn [List.filter]. destruct Hin as [->|Hin].
  - rewrite Z.eqb_refl. f_equal. apply select_where_nil.
    intros r' Hr'. apply Z.eqb_neq. intros Heq. apply Hfresh.
    rewrite Heq. apply list_elem_of_In, in_map, Hr'.
  - assert (Hne : Z.eqb (key r) (key first) = false).
    { apply Z.eqb_neq. intros Heq. apply Hfresh. rewrite <- Heq.
      apply list_elem_of_In, in_map, Hin. }
    rewrite Hne. now apply IH.
Qed.

Lemma joined_rows (db : DB) (answers : list Answer) :
  NoDup (List.map u_id (usersTable db)) -> NoDup (List.map e_id (examsTable db)) ->
  (forall a, In a answers -> has_exam (a_exam_id a) db /\ has_user (a_user_id a) db) ->
  Forall2 (result_of db) answers
    (List.map exam_result
       (flat_map (fun a =>
          flat_map (fun u =>
            List.map (fun e => (a, u, e))
              (select_where (fun e => Z.eqb (a_exam_id a) (e_id e)) (examsTable db)))
            (select_where (fun u => Z.eqb (a_user_id a) (u_id u)) (usersTable db)))
          answers)).
Proof.
  intros Hu He. induction answers as [|a rest IH]; intros Hfk; [constructor|].
  destruct (Hfk a (or_introl eq_refl)) as [(e & Hine & Hide) (u & Hinu & Hidu)].
  cbn [flat_map]. rewrite <- Hidu, <- Hide.
  rewrite (select_key u_id _ u Hu Hinu), (select_key e_id _ e He Hine).
  cbn [flat_map List.map app]. constructor.
  - exists u, e. repeat split; assumption.
  - apply IH. intros a' Ha'. apply Hfk. now right.
Qed.

(** The sample database after the submission is consistent. *)
Lemma sample_consistent : consistent sample_db_submitted.
Proof.
  constructor; unfold keyed; simpl.
  all: try (split; [by_decision | repeat constructor; lia]).
  all: try by_decision.
  - unfold referential_integrity, has_exam, has_user. simpl. repeat split.
    + intros q [<-|[<-|[]]]; exists sample_exam; split; auto.
    + intros a [<-|[]]; exists sample_exam; split; auto.
    + intros a [<-|[]]; exists sample_user; split; auto.
  - intros e [<-|[]]. simpl. lia.
Qed.

(** X26: with the keys and foreign keys of the schema, [getAllExamResults]
    returns one row per answer, in whatever order: the rows are those of the
    answers, taken in some order, and the row of an answer carries its ids,
    score, time and flag, the name and class of its user and the title of
    its exam.  The join neither drops nor doubles an answer. *)
Theorem one_result_per_answer (db : DB) :
  consistent db ->
  exists results answers,
    getAllExamResults db = (db, inr results)
    /\ Permutation answers (answersTable db)
    /\ Forall2 (result_of db) answers results.
Proof.
  intros Hc. eexists. exists (answersTable db). split; [reflexivity|].
  split; [reflexivity|].
  unfold answers_users_exams. apply joined_rows.
  - apply (users_keyed db Hc).
  - apply (exams_keyed db Hc).
  - intros a Ha. destruct (foreign_keys db Hc) as (_ & Hexam & Huser). auto.
Qed.

Lemma filter_map {A B} (p : B -> bool) (f : A -> B) (l : list A) :
  List.filter p (List.map f l) = List.map f (List.filter (fun x => p (f x)) l).
Proof.
  induction l as [|x l IH]; [reflexivity|]. cbn [List.map List.filter].
  destruct (p (f x)); cbn [List.map]; now rewrite IH.
Qed.

(** X27: for an id that fits an integer column, the results of one exam are
    those of all exams that carry its id, each as often, in whatever order;
    neither query changes the database. *)
Theorem getExamResults_of_all (examId : Z) (db : DB) :
  int4 examId ->
  exists all one,
    getAllExamResults db = (db, inr all)
    /\ getExamResults examId db = (db, inr one)
    /\ Permutation one (List.filter (fun r => Z.eqb (er_exam_id r) examId) all).
Proof.
  intros Hid. apply fits_integer_int4 in Hid.
  eexists. eexists. split; [reflexivity|].
  split; [unfold getExamResults; rewrite integer_param_bind, Hid; reflexivity|].
  rewrite filter_map. unfold select_where.
  erewrite List.filter_ext; [reflexivity|]. now intros [[a u] e].
Qed.

Lemma getExamResults_of_all_witness :
  exists all one,
    getAllExamResults sample_db_submitted = (sample_db_submitted, inr all)
    /\ getExamResults 1 sample_db_submitted = (sample_db_submitted, inr one)
    /\ Permutation one (List.filter (fun r => Z.eqb (er_exam_id r) 1) all).
Proof. apply (getExamResults_of_all 1 sample_db_submitted). unfold int4. lia. Defined.

Lemma joined_answer (db : DB) (row : Answer * User * Exam) :
  In row (answers_users_exams db) -> In (fst (fst row)) (answersTable db).
Proof.
  unfold answers_users_exams. intros H.
  apply in_flat_map in H as (a & Ha & H).
  apply in_flat_map in H as (u & _ & H).
  apply in_map_iff in H as (e & <- & _). exact Ha.
Qed.

(** X28: after [deleteExam id] for an id that fits an integer column,
    whether it succeeded or failed with "Exam not found", the exam has no
    questions and no results left, and the answers of the exam cannot be
    read: [getAnswersByExamId] fails with "Exam not found". *)
Theorem deleted_exam_is_gone (id : Z) (db : DB) :
  int4 id ->
  getQuestionsByExamId id (state_of (deleteExam id db))
  = (state_of (deleteExam id db), inr [])
  /\ getExamResults id (state_of (deleteExam id db))
     = (state_of (deleteExam id db), inr [])
  /\ getAnswersByExamId id (state_of (deleteExam id db))
     = (state_of (deleteExam id db), inl ExamNotFound).
Proof.
  intros Hid. apply fits_integer_int4 in Hid.
  rewrite deleteExam_run, Hid. unfold state_of. cbn [fst].
  set (db' := mkDB _ _ _ _ _ _ _ _).
  assert (Hq : select_where (fun q => Z.eqb (q_exam_id q) id) (questionsTable db') = []).
  { apply select_where_nil. intros q Hq. now apply In_delete_where in Hq as [_ Hq]. }
  assert (Ha : forall a, In a (answersTable db') -> Z.eqb (a_exam_id a) id = false).
  { intros a Hin. now apply In_delete_where in Hin as [_ Hin]. }
  assert (He : select_where (fun e => Z.eqb (e_id e) id) (examsTable db') = []).
  { apply select_where_nil. intros e Hin. now apply In_delete_where in Hin as [_ Hin]. }
  assert (Hr : select_where (fun row => Z.eqb (a_exam_id (fst (fst row))) id)
                 (answers_users_exams db') = []).
  { apply select_where_nil. intros row Hrow. apply Ha, joined_answer, Hrow. }
  repeat split.
  - unfold getQuestionsByExamId. run. now rewrite Hq.
  - unfold getExamResults. rewrite integer_param_bind, Hid. run. now rewrite Hr.
  - unfold getAnswersByExamId. rewrite integer_param_bind, Hid. run. now rewrite He.
Qed.

(** ** The export *)

Lemma contains_app (c : ascii) (s t : string) :
  contains c (s ++ t) = contains c s || contains c t.
Proof.
  induction s as [|d s IH]; [reflexivity|]. simpl. now rewrite IH, orb_assoc.
Qed.

Lemma split_first (sep : ascii) (s t : string) :
  contains sep s = false -> split sep (s ++ String sep t) = s :: split sep t.
Proof.
  intros Hs. induction s as [|c s IH]; simpl.
  - now rewrite Ascii.eqb_refl.
  - simpl in Hs. apply orb_false_iff in Hs as [Hc Hs]. now rewrite Hc, (IH Hs).
Qed.

(** [split] undoes [join] when no part holds the separator. *)
Lemma split_join (sep : ascii) (first : string) (rest : list string) :
  Forall (fun part => contains sep part = false) (first :: rest) ->
  split sep (join (String sep "") (first :: rest)) = first :: rest.
Proof.
  revert first. induction rest as [|second rest IH]; intros first Hparts.
  - apply Forall_cons in Hparts as [Hfirst _]. now apply split_absent.
  - apply Forall_cons in Hparts as [Hfirst Hrest].
    change (join (String sep "") (first :: second :: rest))
      with (first ++ String sep (join (String sep "") (second :: rest))).
    rewrite (split_first _ _ _ Hfirst). f_equal. now apply IH.
Qed.

(** A line has no line break when its fields have none. *)
Lemma join_no_line_break (fields : list string) :
  no_line_break fields -> contains newline (join (String comma "") fields) = false.
Proof.
  unfold no_line_break. induction fields as [|field [|next rest] IH]; intros Hf.
  - reflexivity.
  - now apply Forall_cons in Hf as [Hf _].
  - apply Forall_cons in Hf as [Hfield Hrest].
    change (join (String comma "") (field :: next :: rest))
      with (field ++ String comma (join (String comma "") (next :: rest))).
    rewrite contains_app, Hfield. cbn [contains orb].
    rewrite (IH Hrest). reflexivity.
Qed.

(** X29: when no field of a result holds a line break, the lines of the
    export are the header and one line per result, in the order of the
    results: splitting the text at the line breaks gives them back.  The
    export does not change the database. *)
Theorem export_lines (toISOString : Z -> string) (examId : option Z) (db : DB)
    (results : list ExamResult) :
  report examId db = (db, inr results) ->
  Forall (fun result => no_line_break (csv_row toISOString result)) results ->
  exists csv,
    exportExamResultsToCSV toISOString examId db = (db, inr csv)
    /\ split newline csv
       = join (String comma "") csv_headers
         :: List.map (fun result => join (String comma "") (csv_row toISOString result))
                     results.
Proof.
  intros Hreport Hfields.
  assert (Hrun : exportExamResultsToCSV toISOString examId db
                 = (db, inr (join (String newline "")
                           (join (String comma "") csv_headers
                            :: List.map (fun row => join (String comma "") row)
                                 (List.map (csv_row toISOString) results))))).
  { unfold exportExamResultsToCSV, report in *.
    destruct examId as [id|]; unfold bind at 1; rewrite Hreport; reflexivity. }
  eexists. split; [exact Hrun|].
  rewrite split_join; [now rewrite List.map_map|].
  apply Forall_cons. split; [reflexivity|].
  rewrite List.map_map. apply Forall_forall. intros line Hline.
  apply list_elem_of_In, in_map_iff in Hline as (result & <- & Hin).
  apply join_no_line_break. rewrite Forall_forall in Hfields.
  apply Hfields, list_elem_of_In, Hin.
Qed.

Lemma export_lines_witness :
  exists csv,
    exportExamResultsToCSV toString (Some 1) sample_db_submitted
    = (sample_db_submitted, inr csv)
    /\ split newline csv
       = join (String comma "") csv_headers
         :: List.map (fun result => join (String comma "") (csv_row toString result))
              [mkExamResult 1 "Test User" (Some "12A") 1 "Test Exam" 50 1500 true].
Proof.
  apply (export_lines toString (Some 1) sample_db_submitted
           [mkExamResult 1 "Test User" (Some "12A") 1 "Test Exam" 50 1500 true]).
  - vm_compute. reflexivity.
  - repeat constructor.
Defined.

Lemma one_result_per_answer_witness :
  exists results answers,
    getAllExamResults sample_db_submitted = (sample_db_submitted, inr results)
    /\ Permutation answers (answersTable sample_db_submitted)
    /\ Forall2 (result_of sample_db_submitted) answers results.
Proof. apply (one_result_per_answer sample_db_submitted), sample_consistent. Defined.

Lemma deleted_exam_is_gone_witness :
  getQuestionsByExamId 1 (state_of (deleteExam 1 sample_db_submitted))
  = (state_of (deleteExam 1 sample_db_submitted), inr [])
  /\ getExamResults 1 (state_of (deleteExam 1 sample_db_submitted))
     = (state_of (deleteExam 1 sample_db_submitted), inr [])
  /\ getAnswersByExamId 1 (state_of (deleteExam 1 sample_db_submitted))
     = (state_of (deleteExam 1 sample_db_submitted), inl ExamNotFound).
Proof. apply (deleted_exam_is_gone 1 sample_db_submitted). unfold int4. lia. Defined.
